(** * runtime/container_start.go: create/start reconciliation of a container

    A shallow embedding of the Go file [runtime/container_start.go] of the
    agent, and theorems about it.  Go strings are [string], [int64] values
    are [Z], Go maps are [gmap]s (a missing key reads as the zero value),
    sets written as [map[T]struct{}] are [gset]s.  Calls to the container
    engine and to the volume backend go through a record of collaborators
    acting on an abstract world; every call is logged, with its answer, in
    the list of events a computation returns. *)

From Stdlib Require Import ZArith String Ascii List Bool DecimalString Lia.
From stdpp Require Import base option list strings gmap.

Local Open Scope string_scope.
Local Open Scope Z_scope.
Local Open Scope list_scope.

(** ** Go strings *)

(** [strconv.Itoa], and the [%v] rendering of an integer. *)
Definition Itoa (n : Z) : string := NilZero.string_of_int (Z.to_int n).

(** [strings.Split(s, sep)] for a one-character separator. *)
Fixpoint Split (s : string) (sep : ascii) : list string :=
  match s with
  | EmptyString => [EmptyString]
  | String c s' =>
      if Ascii.eqb c sep then EmptyString :: Split s' sep
      else match Split s' sep with
           | [] => [String c EmptyString]
           | p :: ps => String c p :: ps
           end
  end.

(** The text before and after the first occurrence of [sep], if any. *)
Fixpoint cut (sep : ascii) (s : string) : option (string * string) :=
  match s with
  | EmptyString => None
  | String c s' =>
      if Ascii.eqb c sep then Some (EmptyString, s')
      else match cut sep s' with
           | Some (a, b) => Some (String c a, b)
           | None => None
           end
  end.

(** [strings.SplitN(s, sep, n)] for a one-character separator and [n >= 0]:
    at most [n] parts, the last one holding the unsplit remainder. *)
Fixpoint SplitN (s : string) (sep : ascii) (n : nat) : list string :=
  match n with
  | O => []
  | S O => [s]
  | S n' =>
      match cut sep s with
      | None => [s]
      | Some (a, b) => a :: SplitN b sep n'
      end
  end.

(** [strings.Contains(s, sub)]. *)
Fixpoint Contains (s sub : string) : bool :=
  String.prefix sub s
  || match s with
     | EmptyString => false
     | String _ s' => Contains s' sub
     end.

(** ** Go errors *)

(** The classes of error the docker client tells apart by type. *)
Inductive errkind := ImageNotFound | ContainerNotFound | OtherKind.

(** An [error] value: one produced by a collaborator, one made by
    [errors.New] or [fmt.Errorf], or a cause wrapped by [errors.Wrap]. *)
Inductive error :=
| EngineError (k : errkind) (msg : string)
| New (msg : string)
| Wrap (cause : error) (msg : string).

(** [err.Error()]. *)
Fixpoint Error (e : error) : string :=
  match e with
  | EngineError _ msg => msg
  | New msg => msg
  | Wrap cause msg => msg +:+ ": " +:+ Error cause
  end.

(** [client.IsErrImageNotFound]: a test on the dynamic type of the error
    itself, false on [nil] and on a wrapped error. *)
Definition IsErrImageNotFound (err : option error) : bool :=
  match err with
  | Some (EngineError ImageNotFound _) => true
  | _ => false
  end.

(** [client.IsErrContainerNotFound]. *)
Definition IsErrContainerNotFound (err : option error) : bool :=
  match err with
  | Some (EngineError ContainerNotFound _) => true
  | _ => false
  end.

(** [err == nil] *)
Definition isNil (err : option error) : bool :=
  match err with
  | None => true
  | Some _ => false
  end.

(** The error of [if err != nil && p(err) { return ... }], when the test
    holds. *)
Definition errWhen (err : option error) (p : error -> bool) : option error :=
  match err with
  | Some e => if p e then Some e else None
  | None => None
  end.

(** ** Data model *)

Module v3.
Record PublicEndpoint := {
  BindIpAddress : string;
  PrivatePort : Z;
  Protocol : string;
  PublicPort : Z
}.

Record Credential := {
  CredentialId : string;
  PublicValue : string;
  SecretValue : string
}.

Record Volume := {
  VolumeName : string;
  Driver : string
}.

Record Container := {
  Id : string;
  Uuid : string;
  Name : string;
  ExternalId : string;
  Image : string;
  RegistryCredentialId : string;
  Labels : gmap string string;
  DataVolumes : list string;
  DataVolumesFrom : list string;
  PublicEndpoints : list PublicEndpoint;
  Hostname : string;
  DomainName : string;
  Privileged : bool;
  ReadOnly : bool;
  Command : list string;
  EntryPoint : list string;
  Environment : list (string * string);
  WorkingDir : string;
  User : string;
  Tty : bool;
  StdinOpen : bool;
  StopSignal : string;
  StopTimeout : Z;
  HealthCmd : list string;
  HealthInterval : Z;
  HealthRetries : Z;
  HealthTimeout : Z
}.
End v3.

Module gonat.
(** [nat.PortBinding] of go-connections. *)
Record PortBinding := { HostIP : string; HostPort : string }.
End gonat.

Module container.
Record HealthConfig := {
  Test : list string;
  Interval : Z;
  Timeout : Z;
  Retries : Z
}.

Record Config := {
  Hostname : string;
  Domainname : string;
  User : string;
  ExposedPorts : gset string;
  Tty : bool;
  OpenStdin : bool;
  Env : list string;
  Cmd : list string;
  Healthcheck : option HealthConfig;
  Image : string;
  Volumes : gset string;
  WorkingDir : string;
  Entrypoint : list string;
  Labels : gmap string string;
  StopSignal : string;
  StopTimeout : option Z
}.

Record HostConfig := {
  Binds : list string;
  PortBindings : gmap string (list gonat.PortBinding);
  VolumesFrom : list string;
  PublishAllPorts : bool;
  Privileged : bool;
  ReadonlyRootfs : bool;
  StorageOpt : gmap string string;
  Tmpfs : gmap string string;
  Sysctls : gmap string string;
  (** what the setup steps of the other files of the package wrote *)
  Others : list (string * string)
}.
End container.

Module types.
(** The part of [types.ContainerJSON] that the state query reads. *)
Record ContainerState := { Running : bool; Restarting : bool }.
End types.

Record PullParams := {
  Tag : string;
  Mode : string;
  Complete : bool;
  ImageUUID : string
}.

Definition PullImageLabels : string := "io.rancher.container.pull_image".
Definition nameInuseError : string :=
  "You have to remove (or rename) that container to be able to reuse that name".

(** The conventional docker root, as the volume setup spells it. *)
Definition varLibDocker : string := "/var/lib/docker".

(** Reading a Go [map[string]string]: a missing key gives the empty string. *)
Definition index (m : gmap string string) (k : string) : string :=
  default "" (m !! k).

(** ** Calls to the collaborators *)

(** One call to a collaborator, with what it answered. *)
Inductive event :=
| EvFindContainer (spec : v3.Container) (force : bool)
    (id : string) (err : option error)
| EvDoInstancePull (params : PullParams) (credential : v3.Credential)
    (err : option error)
| EvImagePull (image : string) (credential : v3.Credential)
    (err : option error)
| EvCreate (config : container.Config) (hostConfig : container.HostConfig)
    (name : string) (id : string) (err : option error)
| EvStart (id : string) (err : option error)
| EvRemove (id : string) (err : option error)
| EvInspect (id : string) (state : types.ContainerState) (err : option error)
| EvInfo (rootDir : string) (err : option error)
| EvSetupFlex (volumes : list v3.Volume) (dataVolumes : list string)
    (binds : list string) (err : option error)
| EvUnmountFlex (volumes : list v3.Volume)
| EvIsVolumeActive (volume : v3.Volume) (ok : bool) (err : option error)
| EvDoVolumeActivate (volume : v3.Volume) (err : option error).

Definition isCreate (e : event) : bool :=
  match e with EvCreate _ _ _ _ _ => true | _ => false end.
Definition isImagePull (e : event) : bool :=
  match e with EvImagePull _ _ _ => true | _ => false end.
Definition isRemove (e : event) : bool :=
  match e with EvRemove _ _ => true | _ => false end.
Definition isInfo (e : event) : bool :=
  match e with EvInfo _ _ => true | _ => false end.
Definition isUnmountFlex (e : event) : bool :=
  match e with EvUnmountFlex _ => true | _ => false end.

(** The events of the translation step: engine info and volume activation. *)
Definition isTranslation (e : event) : bool :=
  match e with
  | EvInfo _ _ | EvIsVolumeActive _ _ _ | EvDoVolumeActivate _ _ => true
  | _ => false
  end.

(** How many events of a list satisfy [p]. *)
Definition count (p : event -> bool) (evs : list event) : nat :=
  length (List.filter p evs).

(** The collaborators: the engine client, the [utils] package and the other
    files of the [runtime] package.  None of them is in this file; they act
    on a world of type [W].  The progress reporter, a write-only sink, is
    left out of the arguments. *)
Record Runtime (W : Type) := {
  r_FindContainer : v3.Container -> bool -> W -> (string * option error) * W;
  r_IsContainerNotFoundError : error -> bool;
  r_RemoveContainer : string -> W -> option error * W;
  r_NameRegexFindString : string -> string;
  r_UUIDLabel : string;
  r_dockerContainerCreate :
    container.Config -> container.HostConfig -> string -> W ->
    (string * option error) * W;
  r_ContainerStart : string -> W -> option error * W;
  r_ContainerInspect : string -> W -> (types.ContainerState * option error) * W;
  r_Info : W -> (string * option error) * W;
  r_DoInstancePull : PullParams -> v3.Credential -> W -> option error * W;
  r_ImagePull : string -> v3.Credential -> W -> option error * W;
  r_setupRancherFlexVolume :
    list v3.Volume -> list string -> W -> (list string * option error) * W;
  r_unmountRancherFlexVolume : list v3.Volume -> W -> W;
  r_IsRancherVolume : v3.Volume -> bool;
  r_IsVolumeActive : v3.Volume -> W -> (bool * option error) * W;
  r_DoVolumeActivate : v3.Volume -> W -> option error * W;
  r_setupFieldsHostConfig :
    v3.Container -> container.HostConfig -> container.HostConfig;
  r_setupPublishPorts :
    container.HostConfig -> v3.Container -> container.HostConfig;
  r_setupDNSSearch :
    container.HostConfig -> v3.Container -> container.HostConfig * option error;
  r_setupNetworking :
    v3.Container -> container.Config -> container.HostConfig ->
    gmap string string -> string ->
    (container.Config * container.HostConfig) * option error;
  r_setupDeviceOptions :
    container.HostConfig -> v3.Container -> container.HostConfig;
  r_setupComputeResourceFields :
    container.HostConfig -> v3.Container -> container.HostConfig;
  (** [versions.LessThan(hostInfo.DockerData.Version.APIVersion, "1.25")] *)
  r_APIVersionLessThan_1_25 : bool
}.

Arguments r_FindContainer {W}.
Arguments r_IsContainerNotFoundError {W}.
Arguments r_RemoveContainer {W}.
Arguments r_NameRegexFindString {W}.
Arguments r_UUIDLabel {W}.
Arguments r_dockerContainerCreate {W}.
Arguments r_ContainerStart {W}.
Arguments r_ContainerInspect {W}.
Arguments r_Info {W}.
Arguments r_DoInstancePull {W}.
Arguments r_ImagePull {W}.
Arguments r_setupRancherFlexVolume {W}.
Arguments r_unmountRancherFlexVolume {W}.
Arguments r_IsRancherVolume {W}.
Arguments r_IsVolumeActive {W}.
Arguments r_DoVolumeActivate {W}.
Arguments r_setupFieldsHostConfig {W}.
Arguments r_setupPublishPorts {W}.
Arguments r_setupDNSSearch {W}.
Arguments r_setupNetworking {W}.
Arguments r_setupDeviceOptions {W}.
Arguments r_setupComputeResourceFields {W}.
Arguments r_APIVersionLessThan_1_25 {W}.

(** The state of the process: the world of the collaborators and the two
    package variables [dockerRootOnce] and [dockerRoot]. *)
Record process (W : Type) := {
  world : W;
  dockerRootOnce : bool;
  dockerRoot : string
}.

Arguments world {W}.
Arguments dockerRootOnce {W}.
Arguments dockerRoot {W}.
Arguments Build_process {W}.

(** A Go call returns, or panics with a message. *)
Inductive outcome (A : Type) :=
| Done (a : A)
| Panic (msg : string).

Arguments Done {A}.
Arguments Panic {A}.

(** A computation: from a process state to an outcome, the next state and
    the events of the calls made, oldest first. *)
Definition M (W A : Type) : Type :=
  process W -> outcome A * process W * list event.

Definition ret {W A} (a : A) : M W A := fun s => (Done a, s, []).

Definition panic {W A} (msg : string) : M W A := fun s => (Panic msg, s, []).

Definition bind {W A B} (m : M W A) (f : A -> M W B) : M W B :=
  fun s =>
    match m s with
    | (Done a, s1, t1) =>
        match f a s1 with
        | (o, s2, t2) => (o, s2, t1 ++ t2)
        end
    | (Panic msg, s1, t1) => (Panic msg, s1, t1)
    end.

Notation "'let*' x ':=' m 'in' k" := (bind m (fun x => k))
  (at level 10, x pattern, m at level 200, k at level 200).

(** One call to a collaborator that answers [A]: the world moves on and the
    call is logged. *)
Definition call {W A} (f : W -> A * W) (ev : A -> event) : M W A :=
  fun s =>
    match f (world s) with
    | (a, w) =>
        (Done a, Build_process w (dockerRootOnce s) (dockerRoot s), [ev a])
    end.

(** A deferred function: it runs when the body has returned and when the body
    has panicked, and sees the value the flag [started] has at that time.
    The body sets the flag only on its last line, so a panic leaves it
    false. *)
Definition defer {W A} (body : M W (bool * A)) (deferred : bool -> M W unit)
  : M W A :=
  fun s =>
    match body s with
    | (Done (started, a), s1, t1) =>
        match deferred started s1 with
        | (Done _, s2, t2) => (Done a, s2, t1 ++ t2)
        | (Panic msg, s2, t2) => (Panic msg, s2, t1 ++ t2)
        end
    | (Panic msg, s1, t1) =>
        match deferred false s1 with
        | (_, s2, t2) => (Panic msg, s2, t1 ++ t2)
        end
    end.


(** A loop over a list that threads an accumulator. *)
Fixpoint foldM {W A B} (f : A -> B -> M W A) (l : list B) (a : A) : M W A :=
  match l with
  | [] => ret a
  | b :: l' => let* a' := f a b in foldM f l' a'
  end.

(** ** Updates of the engine configuration *)

Definition setLabels (c : container.Config) (v : gmap string string)
  : container.Config :=
  {| container.Hostname := container.Hostname c;
     container.Domainname := container.Domainname c;
     container.User := container.User c;
     container.ExposedPorts := container.ExposedPorts c;
     container.Tty := container.Tty c;
     container.OpenStdin := container.OpenStdin c;
     container.Env := container.Env c;
     container.Cmd := container.Cmd c;
     container.Healthcheck := container.Healthcheck c;
     container.Image := container.Image c;
     container.Volumes := container.Volumes c;
     container.WorkingDir := container.WorkingDir c;
     container.Entrypoint := container.Entrypoint c;
     container.Labels := v;
     container.StopSignal := container.StopSignal c;
     container.StopTimeout := container.StopTimeout c |}.

Definition setImage (c : container.Config) (v : string) : container.Config :=
  {| container.Hostname := container.Hostname c;
     container.Domainname := container.Domainname c;
     container.User := container.User c;
     container.ExposedPorts := container.ExposedPorts c;
     container.Tty := container.Tty c;
     container.OpenStdin := container.OpenStdin c;
     container.Env := container.Env c;
     container.Cmd := container.Cmd c;
     container.Healthcheck := container.Healthcheck c;
     container.Image := v;
     container.Volumes := container.Volumes c;
     container.WorkingDir := container.WorkingDir c;
     container.Entrypoint := container.Entrypoint c;
     container.Labels := container.Labels c;
     container.StopSignal := container.StopSignal c;
     container.StopTimeout := container.StopTimeout c |}.

Definition setHostname (c : container.Config) (v : string) : container.Config :=
  {| container.Hostname := v;
     container.Domainname := container.Domainname c;
     container.User := container.User c;
     container.ExposedPorts := container.ExposedPorts c;
     container.Tty := container.Tty c;
     container.OpenStdin := container.OpenStdin c;
     container.Env := container.Env c;
     container.Cmd := container.Cmd c;
     container.Healthcheck := container.Healthcheck c;
     container.Image := container.Image c;
     container.Volumes := container.Volumes c;
     container.WorkingDir := container.WorkingDir c;
     container.Entrypoint := container.Entrypoint c;
     container.Labels := container.Labels c;
     container.StopSignal := container.StopSignal c;
     container.StopTimeout := container.StopTimeout c |}.

Definition setExposedPorts (c : container.Config) (v : gset string)
  : container.Config :=
  {| container.Hostname := container.Hostname c;
     container.Domainname := container.Domainname c;
     container.User := container.User c;
     container.ExposedPorts := v;
     container.Tty := container.Tty c;
     container.OpenStdin := container.OpenStdin c;
     container.Env := container.Env c;
     container.Cmd := container.Cmd c;
     container.Healthcheck := container.Healthcheck c;
     container.Image := container.Image c;
     container.Volumes := container.Volumes c;
     container.WorkingDir := container.WorkingDir c;
     container.Entrypoint := container.Entrypoint c;
     container.Labels := container.Labels c;
     container.StopSignal := container.StopSignal c;
     container.StopTimeout := container.StopTimeout c |}.

Definition setVolumes (c : container.Config) (v : gset string)
  : container.Config :=
  {| container.Hostname := container.Hostname c;
     container.Domainname := container.Domainname c;
     container.User := container.User c;
     container.ExposedPorts := container.ExposedPorts c;
     container.Tty := container.Tty c;
     container.OpenStdin := container.OpenStdin c;
     container.Env := container.Env c;
     container.Cmd := container.Cmd c;
     container.Healthcheck := container.Healthcheck c;
     container.Image := container.Image c;
     container.Volumes := v;
     container.WorkingDir := container.WorkingDir c;
     container.Entrypoint := container.Entrypoint c;
     container.Labels := container.Labels c;
     container.StopSignal := container.StopSignal c;
     container.StopTimeout := container.StopTimeout c |}.

Definition setHealthcheck (c : container.Config)
  (v : option container.HealthConfig) : container.Config :=
  {| container.Hostname := container.Hostname c;
     container.Domainname := container.Domainname c;
     container.User := container.User c;
     container.ExposedPorts := container.ExposedPorts c;
     container.Tty := container.Tty c;
     container.OpenStdin := container.OpenStdin c;
     container.Env := container.Env c;
     container.Cmd := container.Cmd c;
     container.Healthcheck := v;
     container.Image := container.Image c;
     container.Volumes := container.Volumes c;
     container.WorkingDir := container.WorkingDir c;
     container.Entrypoint := container.Entrypoint c;
     container.Labels := container.Labels c;
     container.StopSignal := container.StopSignal c;
     container.StopTimeout := container.StopTimeout c |}.

Definition setBinds (h : container.HostConfig) (v : list string)
  : container.HostConfig :=
  {| container.Binds := v;
     container.PortBindings := container.PortBindings h;
     container.VolumesFrom := container.VolumesFrom h;
     container.PublishAllPorts := container.PublishAllPorts h;
     container.Privileged := container.Privileged h;
     container.ReadonlyRootfs := container.ReadonlyRootfs h;
     container.StorageOpt := container.StorageOpt h;
     container.Tmpfs := container.Tmpfs h;
     container.Sysctls := container.Sysctls h;
     container.Others := container.Others h |}.

Definition setPortBindings (h : container.HostConfig)
  (v : gmap string (list gonat.PortBinding)) : container.HostConfig :=
  {| container.Binds := container.Binds h;
     container.PortBindings := v;
     container.VolumesFrom := container.VolumesFrom h;
     container.PublishAllPorts := container.PublishAllPorts h;
     container.Privileged := container.Privileged h;
     container.ReadonlyRootfs := container.ReadonlyRootfs h;
     container.StorageOpt := container.StorageOpt h;
     container.Tmpfs := container.Tmpfs h;
     container.Sysctls := container.Sysctls h;
     container.Others := container.Others h |}.

Definition setVolumesFrom (h : container.HostConfig) (v : list string)
  : container.HostConfig :=
  {| container.Binds := container.Binds h;
     container.PortBindings := container.PortBindings h;
     container.VolumesFrom := v;
     container.PublishAllPorts := container.PublishAllPorts h;
     container.Privileged := container.Privileged h;
     container.ReadonlyRootfs := container.ReadonlyRootfs h;
     container.StorageOpt := container.StorageOpt h;
     container.Tmpfs := container.Tmpfs h;
     container.Sysctls := container.Sysctls h;
     container.Others := container.Others h |}.

(** The zero values [container.Config{}] and [container.HostConfig{}]. *)
Definition zeroConfig : container.Config :=
  {| container.Hostname := "";
     container.Domainname := "";
     container.User := "";
     container.ExposedPorts := ∅;
     container.Tty := false;
     container.OpenStdin := false;
     container.Env := [];
     container.Cmd := [];
     container.Healthcheck := None;
     container.Image := "";
     container.Volumes := ∅;
     container.WorkingDir := "";
     container.Entrypoint := [];
     container.Labels := ∅;
     container.StopSignal := "";
     container.StopTimeout := None |}.

Definition zeroHostConfig : container.HostConfig :=
  {| container.Binds := [];
     container.PortBindings := ∅;
     container.VolumesFrom := [];
     container.PublishAllPorts := false;
     container.Privileged := false;
     container.ReadonlyRootfs := false;
     container.StorageOpt := ∅;
     container.Tmpfs := ∅;
     container.Sysctls := ∅;
     container.Others := [] |}.

Record dockerContainerSpec := {
  config : container.Config;
  hostConfig : container.HostConfig
}.

(** [int64] arithmetic wraps around. *)
Definition wrap64 (z : Z) : Z := (z + 2 ^ 63) mod 2 ^ 64 - 2 ^ 63.

(** [time.Second], in nanoseconds. *)
Definition Second : Z := 1000000000.

(** ** The functions of the file *)

Section Program.
Context {W : Type} (rt : Runtime W).

(** *** The collaborators, as logged calls *)

Definition FindContainer (containerSpec : v3.Container) (force : bool)
  : M W (string * option error) :=
  call (r_FindContainer rt containerSpec force)
       (fun r => EvFindContainer containerSpec force r.1 r.2).

Definition RemoveContainer (containerID : string) : M W (option error) :=
  call (r_RemoveContainer rt containerID) (EvRemove containerID).

Definition dockerContainerCreate (config : container.Config)
  (hostConfig : container.HostConfig) (name : string)
  : M W (string * option error) :=
  call (r_dockerContainerCreate rt config hostConfig name)
       (fun r => EvCreate config hostConfig name r.1 r.2).

Definition clientContainerStart (containerID : string)
  : M W (option error) :=
  call (r_ContainerStart rt containerID) (EvStart containerID).

Definition ContainerInspect (containerID : string)
  : M W (types.ContainerState * option error) :=
  call (r_ContainerInspect rt containerID)
       (fun r => EvInspect containerID r.1 r.2).

Definition Info : M W (string * option error) :=
  call (r_Info rt) (fun r => EvInfo r.1 r.2).

Definition DoInstancePull (params : PullParams) (credential : v3.Credential)
  : M W (option error) :=
  call (r_DoInstancePull rt params credential)
       (EvDoInstancePull params credential).

Definition ImagePull (image : string) (credential : v3.Credential)
  : M W (option error) :=
  call (r_ImagePull rt image credential) (EvImagePull image credential).

Definition setupRancherFlexVolume (volumes : list v3.Volume)
  (dataVolumes : list string) : M W (list string * option error) :=
  call (r_setupRancherFlexVolume rt volumes dataVolumes)
       (fun r => EvSetupFlex volumes dataVolumes r.1 r.2).

Definition unmountRancherFlexVolume (volumes : list v3.Volume) : M W unit :=
  call (fun w => (tt, r_unmountRancherFlexVolume rt volumes w))
       (fun _ => EvUnmountFlex volumes).

Definition IsVolumeActive (volume : v3.Volume) : M W (bool * option error) :=
  call (r_IsVolumeActive rt volume)
       (fun r => EvIsVolumeActive volume r.1 r.2).

Definition DoVolumeActivate (volume : v3.Volume) : M W (option error) :=
  call (r_DoVolumeActivate rt volume) (EvDoVolumeActivate volume).

(** [utils.Serialize]: the function runs inside the process-wide lock; one
    reconciliation at a time is modelled, so it just runs. *)
Definition Serialize {A} (f : M W A) : M W A := f.

(** *** initializeMaps, setupHostname, setupLabels *)

Definition initializeMaps (config : container.Config)
  (hostConfig : container.HostConfig)
  : container.Config * container.HostConfig :=
  ({| container.Hostname := container.Hostname config;
      container.Domainname := container.Domainname config;
      container.User := container.User config;
      container.ExposedPorts := ∅;
      container.Tty := container.Tty config;
      container.OpenStdin := container.OpenStdin config;
      container.Env := container.Env config;
      container.Cmd := container.Cmd config;
      container.Healthcheck := container.Healthcheck config;
      container.Image := container.Image config;
      container.Volumes := ∅;
      container.WorkingDir := container.WorkingDir config;
      container.Entrypoint := container.Entrypoint config;
      container.Labels := ∅;
      container.StopSignal := container.StopSignal config;
      container.StopTimeout := container.StopTimeout config |},
   {| container.Binds := container.Binds hostConfig;
      container.PortBindings := ∅;
      container.VolumesFrom := container.VolumesFrom hostConfig;
      container.PublishAllPorts := container.PublishAllPorts hostConfig;
      container.Privileged := container.Privileged hostConfig;
      container.ReadonlyRootfs := container.ReadonlyRootfs hostConfig;
      container.StorageOpt := ∅;
      container.Tmpfs := ∅;
      container.Sysctls := ∅;
      container.Others := container.Others hostConfig |}).

Definition setupHostname (config : container.Config)
  (containerSpec : v3.Container) : container.Config :=
  setHostname config (v3.Hostname containerSpec).

(** The labels of the specification are written over those of the
    configuration, then the uuid label is set. *)
Definition setupLabels (spec : v3.Container) (config : container.Config)
  : container.Config :=
  setLabels config
    (<[r_UUIDLabel rt := v3.Uuid spec]>
       (v3.Labels spec ∪ container.Labels config)).

(** *** setupPorts *)

(** One turn of the loop over the public endpoints. *)
Definition setupPortsStep
  (acc : gset string * gmap string (list gonat.PortBinding))
  (endpoint : v3.PublicEndpoint)
  : gset string * gmap string (list gonat.PortBinding) :=
  let '(exposedPorts, bindings) := acc in
  if negb (v3.PrivatePort endpoint =? 0) then
    let bind :=
      Itoa (v3.PrivatePort endpoint) +:+ "/" +:+ v3.Protocol endpoint in
    let bindAddr := v3.BindIpAddress endpoint in
    let binding :=
      {| gonat.HostIP := bindAddr;
         gonat.HostPort := Itoa (v3.PublicPort endpoint) |} in
    let bindings :=
      match bindings !! bind with
      | None => <[bind := [binding]]> bindings
      | Some bs => <[bind := bs ++ [binding]]> bindings
      end in
    ({[bind]} ∪ exposedPorts, bindings)
  else acc.

Definition setupPorts (config : container.Config)
  (containerSpec : v3.Container) (hostConfig : container.HostConfig)
  : container.Config * container.HostConfig :=
  let '(exposedPorts, bindings) :=
    fold_left setupPortsStep (v3.PublicEndpoints containerSpec) (∅, ∅) in
  (setExposedPorts config exposedPorts,
   if (0 <? size bindings)%nat then setPortBindings hostConfig bindings
   else hostConfig).

(** *** getDockerRoot *)

(** [dockerRootOnce.Do]: the first call asks the engine and marks the
    [Once] as done, also when the function panics; later calls return
    the package variable. *)
Definition getDockerRoot : M W string :=
  fun s =>
    if dockerRootOnce s then (Done (dockerRoot s), s, [])
    else
      match r_Info rt (world s) with
      | (rootDir, Some err, w) =>
          (Panic (Error err), Build_process w true (dockerRoot s),
           [EvInfo rootDir (Some err)])
      | (rootDir, None, w) =>
          (Done rootDir, Build_process w true rootDir,
           [EvInfo rootDir None])
      end.

(** *** setupNonRancherVolumes *)

(** The names of the managed volumes. *)
Definition rancherManagedVolumeNames (volumes : list v3.Volume)
  : gset string :=
  fold_left
    (fun names volume =>
       if r_IsRancherVolume rt volume then {[v3.VolumeName volume]} ∪ names
       else names)
    volumes ∅.

(** One turn of the loop over the data volumes, on the volumes map and the
    binds collected so far. *)
Definition dataVolumeStep (managed : gset string)
  (acc : gset string * list string) (volume : string)
  : M W (gset string * list string) :=
  let '(volumesMap, binds) := acc in
  let parts := SplitN volume ":" 3 in
  match parts with
  | [] => panic "index out of range"
  | p0 :: rest =>
      if decide (p0 ∈ managed) then ret (volumesMap, binds)
      else
        match rest with
        | [] => ret ({[p0]} ∪ volumesMap, binds)
        | p1 :: _ =>
            let volumesMap := {[p1]} ∪ volumesMap in
            let mode :=
              if Nat.eqb (length parts) 3 then nth 2 parts "" else "rw" in
            if String.eqb p0 varLibDocker && String.eqb p1 varLibDocker
            then
              let* root := getDockerRoot in
              if negb (String.eqb root varLibDocker) then
                ret ({[root]} ∪ volumesMap,
                     binds ++ [root +:+ ":" +:+ p1 +:+ ":" +:+ mode;
                               root +:+ ":" +:+ root +:+ ":" +:+ mode])
              else
                ret (volumesMap,
                     binds ++ [p0 +:+ ":" +:+ p1 +:+ ":" +:+ mode])
            else
              ret (volumesMap,
                   binds ++ [p0 +:+ ":" +:+ p1 +:+ ":" +:+ mode])
        end
  end.

(** The identifiers of the references that [idsMap] resolves. *)
Definition resolveVolumesFrom (dataVolumesFrom : list string)
  (idsMap : gmap string string) : list string :=
  fold_left
    (fun containers volumeFrom =>
       if negb (String.eqb (index idsMap volumeFrom) "")
       then containers ++ [index idsMap volumeFrom]
       else containers)
    dataVolumesFrom [].

(** The loop that activates the plain volumes; it stops at the first
    error. *)
Fixpoint activateVolumes (volumes : list v3.Volume) : M W (option error) :=
  match volumes with
  | [] => ret None
  | volume :: volumes' =>
      if negb (r_IsRancherVolume rt volume) then
        let* (ok, err) := IsVolumeActive volume in
        if negb ok && isNil err then
          let* err := DoVolumeActivate volume in
          match err with
          | Some e => ret (Some (Wrap e "failed to activate volume"))
          | None => activateVolumes volumes'
          end
        else
          match err with
          | Some e =>
              ret (Some (Wrap e
                "failed to check whether volume is activated"))
          | None => activateVolumes volumes'
          end
      else activateVolumes volumes'
  end.

(** The configurations are written through pointers: the caller sees them
    updated also when an error is returned. *)
Definition setupNonRancherVolumes (config : container.Config)
  (volumes : list v3.Volume) (containerSpec : v3.Container)
  (hostConfig : container.HostConfig) (idsMap : gmap string string)
  : M W (container.Config * container.HostConfig * option error) :=
  let managed := rancherManagedVolumeNames volumes in
  let* (volumesMap, binds) :=
    foldM (dataVolumeStep managed) (v3.DataVolumes containerSpec) (∅, []) in
  let config := setVolumes config volumesMap in
  let hostConfig :=
    setBinds hostConfig (container.Binds hostConfig ++ binds) in
  let containers :=
    resolveVolumesFrom (v3.DataVolumesFrom containerSpec) idsMap in
  let hostConfig :=
    if (0 <? length containers)%nat then setVolumesFrom hostConfig containers
    else hostConfig in
  let* err := activateVolumes volumes in
  ret (config, hostConfig, err).

(** *** setupHealthConfig, setupFieldsConfig *)

Definition setupHealthConfig (spec : v3.Container)
  (config : container.Config) : container.Config :=
  setHealthcheck config
    (Some {| container.Test := v3.HealthCmd spec;
             container.Interval := wrap64 (v3.HealthInterval spec * Second);
             container.Timeout := wrap64 (v3.HealthTimeout spec * Second);
             container.Retries := v3.HealthRetries spec |}).

(** [spec.Environment] is listed in the order in which the [range] over
    the Go map visits it. *)
Definition setupFieldsConfig (spec : v3.Container)
  (config : container.Config) : container.Config :=
  let envs :=
    map (fun kv => kv.1 +:+ "=" +:+ kv.2) (v3.Environment spec) in
  {| container.Hostname := container.Hostname config;
     container.Domainname := v3.DomainName spec;
     container.User := v3.User spec;
     container.ExposedPorts := container.ExposedPorts config;
     container.Tty := v3.Tty spec;
     container.OpenStdin := v3.StdinOpen spec;
     container.Env := container.Env config ++ envs;
     container.Cmd := v3.Command spec;
     container.Healthcheck := container.Healthcheck config;
     container.Image := container.Image config;
     container.Volumes := container.Volumes config;
     container.WorkingDir := v3.WorkingDir spec;
     container.Entrypoint := v3.EntryPoint spec;
     container.Labels := container.Labels config;
     container.StopSignal := v3.StopSignal spec;
     container.StopTimeout :=
       if negb (r_APIVersionLessThan_1_25 rt) then
         let timeout := v3.StopTimeout spec in
         if negb (timeout =? 0) then Some timeout
         else container.StopTimeout config
       else container.StopTimeout config |}.

(** *** setupContainerSpec *)

Definition setupContainerSpec (containerSpec : v3.Container)
  (volumes : list v3.Volume) (networkKind : string)
  (rancherBindMounts : list string) (idsMap : gmap string string)
  : M W (dockerContainerSpec * option error) :=
  let config :=
    {| container.Hostname := "";
       container.Domainname := "";
       container.User := "";
       container.ExposedPorts := ∅;
       container.Tty := false;
       container.OpenStdin := true;
       container.Env := [];
       container.Cmd := [];
       container.Healthcheck := None;
       container.Image := "";
       container.Volumes := ∅;
       container.WorkingDir := "";
       container.Entrypoint := [];
       container.Labels := ∅;
       container.StopSignal := "";
       container.StopTimeout := None |} in
  let hostConfig :=
    {| container.Binds := [];
       container.PortBindings := ∅;
       container.VolumesFrom := [];
       container.PublishAllPorts := false;
       container.Privileged := v3.Privileged containerSpec;
       container.ReadonlyRootfs := v3.ReadOnly containerSpec;
       container.StorageOpt := ∅;
       container.Tmpfs := ∅;
       container.Sysctls := ∅;
       container.Others := [] |} in
  let '(config, hostConfig) := initializeMaps config hostConfig in
  let config := setupLabels containerSpec config in
  let hostConfig := r_setupFieldsHostConfig rt containerSpec hostConfig in
  let config := setupFieldsConfig containerSpec config in
  let hostConfig := r_setupPublishPorts rt hostConfig containerSpec in
  match r_setupDNSSearch rt hostConfig containerSpec with
  | (_, Some err) =>
      ret ({| config := zeroConfig; hostConfig := zeroHostConfig |},
           Some (Wrap err "failed to set up DNS search"))
  | (hostConfig, None) =>
      let config := setupHostname config containerSpec in
      let '(config, hostConfig) :=
        setupPorts config containerSpec hostConfig in
      let hostConfig :=
        setBinds hostConfig
          (container.Binds hostConfig ++ rancherBindMounts) in
      let* (config, hostConfig, err) :=
        setupNonRancherVolumes config volumes containerSpec hostConfig
          idsMap in
      match err with
      | Some err =>
          ret ({| config := zeroConfig; hostConfig := zeroHostConfig |},
               Some (Wrap err "failed to set up volumes"))
      | None =>
          match r_setupNetworking rt containerSpec config hostConfig
                  idsMap networkKind with
          | (_, Some err) =>
              ret ({| config := zeroConfig; hostConfig := zeroHostConfig |},
                   Some (Wrap err "failed to set up networking"))
          | (config, hostConfig, None) =>
              let hostConfig :=
                r_setupDeviceOptions rt hostConfig containerSpec in
              let hostConfig :=
                r_setupComputeResourceFields rt hostConfig containerSpec in
              let config := setupHealthConfig containerSpec config in
              ret ({| config := config; hostConfig := hostConfig |}, None)
          end
      end
  end.

(** *** createContainer *)

(** Lines 209 to 223: the create call, with one on-demand pull and one
    more create call when the engine reports the image missing. *)
Definition createWithRetry (config : container.Config)
  (hostConfig : container.HostConfig) (containerSpec : v3.Container)
  (credential : v3.Credential) (name : string)
  : M W (string * option error) :=
  let* (containerResponseID, err) :=
    dockerContainerCreate config hostConfig name in
  if IsErrImageNotFound err then
    let* pullErr := ImagePull (v3.Image containerSpec) credential in
    match pullErr with
    | Some err => ret ("", Some (Wrap err "failed to pull image"))
    | None =>
        let* (containerResponseID, err1) :=
          dockerContainerCreate config hostConfig name in
        match err1 with
        | Some err1 =>
            ret ("", Some (Wrap err1 "failed to create container"))
        | None => ret (containerResponseID, None)
        end
    end
  else
    match err with
    | Some err => ret ("", Some (Wrap err "failed to create container"))
    | None => ret (containerResponseID, None)
    end.

Definition createContainer (config : container.Config)
  (hostConfig : container.HostConfig) (containerSpec : v3.Container)
  (credential : v3.Credential) (name : string)
  : M W (string * option error) :=
  let labels := container.Labels config in
  let* pullErr :=
    if String.eqb (index labels PullImageLabels) "always" then
      let params :=
        {| Tag := ""; Mode := "all"; Complete := false;
           ImageUUID := v3.Image containerSpec |} in
      DoInstancePull params credential
    else ret None in
  match pullErr with
  | Some err => ret ("", Some (Wrap err "failed to pull instance"))
  | None =>
      let config := setImage config (v3.Image containerSpec) in
      if negb (String.eqb (v3.ExternalId containerSpec) "") then
        ret ("", Some (New ("Container " +:+ v3.ExternalId containerSpec
                            +:+ " has been deleted from the host")))
      else createWithRetry config hostConfig containerSpec credential name
  end.

(** *** ContainerStart *)

(** The credential whose id is that of the specification, or the zero
    credential. *)
Fixpoint selectCredential (credentials : list v3.Credential)
  (id : string) : v3.Credential :=
  match credentials with
  | [] => {| v3.CredentialId := ""; v3.PublicValue := "";
             v3.SecretValue := "" |}
  | cred :: credentials' =>
      if String.eqb (v3.CredentialId cred) id then cred
      else selectCredential credentials' id
  end.

(** The container name: [r-<uuid>], or [r-<name>-<first part of the uuid>]
    when the name matches the naming pattern. *)
Definition containerName (containerSpec : v3.Container)
  (parts : list string) : string :=
  if negb (String.eqb
             (r_NameRegexFindString rt (v3.Name containerSpec)) "")
  then "r-" +:+ v3.Name containerSpec +:+ "-" +:+ hd "" parts
  else "r-" +:+ v3.Uuid containerSpec.

(** Lines 74 to 98: the identifier to start and the flag [created], or the
    error with which the function returns. *)
Definition resolveContainer (containerSpec : v3.Container)
  (credentials : list v3.Credential) (spec : dockerContainerSpec)
  (name : string) (containerID : string)
  : M W (error + string * bool) :=
  if String.eqb containerID "" then
    let credential :=
      selectCredential credentials
        (v3.RegistryCredentialId containerSpec) in
    let* (newID, err) :=
      createContainer (config spec) (hostConfig spec) containerSpec
        credential name in
    match errWhen err (fun e => negb (Contains (Error e) nameInuseError))
    with
    | Some e => ret (inl (Wrap e "failed to create container"))
    | None =>
        if String.eqb newID "" then
          let* (contID, err) := FindContainer containerSpec true in
          match errWhen err
                  (fun e => negb (r_IsContainerNotFoundError rt e)) with
          | Some e => ret (inl (Wrap e "failed to get container"))
          | None => ret (inr (contID, true))
          end
        else ret (inr (newID, true))
    end
  else ret (inr (containerID, false)).

(** Lines 100 to 114: the start call and the removal of the container when
    it fails; the first component is the flag [started]. *)
Definition startContainer (containerID : string) (created : bool)
  : M W (bool * (string * option error)) :=
  let* startErr := Serialize (clientContainerStart containerID) in
  match startErr with
  | Some startErr =>
      if created then
        let* err := RemoveContainer containerID in
        match err with
        | Some err =>
            ret (false,
                 ("", Some (Wrap err
                    ("failed to remove container: failed to start: "
                     +:+ Error startErr))))
        | None =>
            ret (false, ("", Some (Wrap startErr
                                     "failed to start container")))
        end
      else
        ret (false, ("", Some (Wrap startErr "failed to start container")))
  | None => ret (true, (containerID, None))
  end.

(** Lines 64 to 114, the part of [ContainerStart] that runs under the
    deferred unmount; the first component of the result is the flag
    [started]. *)
Definition reconcile (containerSpec : v3.Container)
  (volumes : list v3.Volume) (networkKind : string)
  (credentials : list v3.Credential) (idsMap : gmap string string)
  (name : string) (rancherBindMounts : list string)
  : M W (bool * (string * option error)) :=
  let* (spec, err) :=
    setupContainerSpec containerSpec volumes networkKind rancherBindMounts
      idsMap in
  match err with
  | Some err =>
      ret (false, ("", Some (Wrap err "failed to generate container spec")))
  | None =>
      let* (containerID, err) := FindContainer containerSpec false in
      match errWhen err (fun e => negb (r_IsContainerNotFoundError rt e)) with
      | Some e => ret (false, ("", Some (Wrap e "failed to get container")))
      | None =>
          let* r :=
            resolveContainer containerSpec credentials spec name
              containerID in
          match r with
          | inl err => ret (false, ("", Some err))
          | inr (containerID, created) => startContainer containerID created
          end
      end
  end.

Definition ContainerStart (containerSpec : v3.Container)
  (volumes : list v3.Volume) (networkKind : string)
  (credentials : list v3.Credential) (idsMap : gmap string string)
  : M W (string * option error) :=
  let parts := Split (v3.Uuid containerSpec) "-" in
  if Nat.eqb (length parts) 0 then ret ("", Some (New "Failed to parse UUID"))
  else
    let name := containerName containerSpec parts in
    let* (rancherBindMounts, err) :=
      setupRancherFlexVolume volumes (v3.DataVolumes containerSpec) in
    match err with
    | Some err =>
        ret ("", Some (Wrap err "failed to set up rancher flex volumes"))
    | None =>
        defer
          (reconcile containerSpec volumes networkKind credentials idsMap
             name rancherBindMounts)
          (fun started =>
             if negb started then unmountRancherFlexVolume volumes
             else ret tt)
    end.

(** *** isRunning, IsContainerStarted *)

Definition isRunning (containerID : string)
  : M W (bool * bool * option error) :=
  if String.eqb containerID "" then ret (false, false, None)
  else
    let* (inspect, err) := ContainerInspect containerID in
    match err with
    | None =>
        ret (types.Running inspect && negb (types.Restarting inspect),
             types.Restarting inspect, None)
    | Some e =>
        if IsErrContainerNotFound err then ret (false, false, None)
        else ret (false, false, Some e)
    end.

Definition IsContainerStarted (containerSpec : v3.Container)
  : M W (bool * bool * option error) :=
  let* (cont, err) := FindContainer containerSpec false in
  match err with
  | Some e =>
      if r_IsContainerNotFoundError rt e then ret (false, false, None)
      else ret (false, false, Some (Wrap e "failed to get container"))
  | None => isRunning cont
  end.

End Program.

(** *** getHostEntries *)

Definition HTTPProxyList : list string :=
  ["http_proxy"; "HTTP_PROXY"; "https_proxy"; "HTTPS_PROXY"; "no_proxy";
   "NO_PROXY"].

(** The environment of the process is the function [Getenv], which is
    [os.Getenv]: a variable that is not set reads as the empty string. *)
Definition getHostEntries (Getenv : string -> string) : gmap string string :=
  fold_left
    (fun data env =>
       if negb (String.eqb (Getenv env) "") then <[env := Getenv env]> data
       else data)
    HTTPProxyList ∅.

(** ** A scripted engine *)

(** The answers a scripted engine gives: one per collaborator, except that
    the lookup answers differently when forced and that the create call
    takes its answers from a list, one per call. *)
Record Script := {
  s_findCached : string * option error;
  s_findForced : string * option error;
  s_creates : list (string * option error);
  s_doInstancePull : option error;
  s_imagePull : option error;
  s_start : option error;
  s_remove : option error;
  s_inspect : types.ContainerState * option error;
  s_info : string * option error;
  s_flex : list string * option error;
  s_volumeActive : bool * option error;
  s_activate : option error
}.

Definition popCreate (w : Script) : (string * option error) * Script :=
  match s_creates w with
  | [] => (("", Some (EngineError OtherKind "script exhausted")), w)
  | r :: rs =>
      (r, {| s_findCached := s_findCached w;
             s_findForced := s_findForced w;
             s_creates := rs;
             s_doInstancePull := s_doInstancePull w;
             s_imagePull := s_imagePull w;
             s_start := s_start w;
             s_remove := s_remove w;
             s_inspect := s_inspect w;
             s_info := s_info w;
             s_flex := s_flex w;
             s_volumeActive := s_volumeActive w;
             s_activate := s_activate w |})
  end.

(** Modelled from the spec: [IsRancherVolume] is in another file of the
    package; the spec gives a volume a flag that says whether it is a managed
    (rancher flex) volume.  The scripted engine reads the flag off the
    driver name. *)
Definition scriptedIsRancherVolume (volume : v3.Volume) : bool :=
  String.eqb (v3.Driver volume) "rancher-flex".

(** The collaborators of the scripted engine.  Its pure setup steps leave the
    configuration as it is, no container name matches the naming pattern,
    and a lookup error is a not-found error when the engine classifies it
    so. *)
Definition scripted : Runtime Script :=
  {| r_FindContainer := fun _ force w =>
       (if force then s_findForced w else s_findCached w, w);
     r_IsContainerNotFoundError := fun e =>
       match e with EngineError ContainerNotFound _ => true | _ => false end;
     r_RemoveContainer := fun _ w => (s_remove w, w);
     r_NameRegexFindString := fun _ => "";
     r_UUIDLabel := "io.rancher.container.uuid";
     r_dockerContainerCreate := fun _ _ _ w => popCreate w;
     r_ContainerStart := fun _ w => (s_start w, w);
     r_ContainerInspect := fun _ w => (s_inspect w, w);
     r_Info := fun w => (s_info w, w);
     r_DoInstancePull := fun _ _ w => (s_doInstancePull w, w);
     r_ImagePull := fun _ _ w => (s_imagePull w, w);
     r_setupRancherFlexVolume := fun _ _ w => (s_flex w, w);
     r_unmountRancherFlexVolume := fun _ w => w;
     r_IsRancherVolume := scriptedIsRancherVolume;
     r_IsVolumeActive := fun _ w => (s_volumeActive w, w);
     r_DoVolumeActivate := fun _ w => (s_activate w, w);
     r_setupFieldsHostConfig := fun _ h => h;
     r_setupPublishPorts := fun h _ => h;
     r_setupDNSSearch := fun h _ => (h, None);
     r_setupNetworking := fun _ c h _ _ => (c, h, None);
     r_setupDeviceOptions := fun h _ => h;
     r_setupComputeResourceFields := fun h _ => h;
     r_APIVersionLessThan_1_25 := false |}.

(** An engine on which everything succeeds: no container exists yet, the
    create call answers [c1], the docker root is the conventional one. *)
Definition happy : Script :=
  {| s_findCached := ("", Some (EngineError ContainerNotFound "not found"));
     s_findForced := ("", Some (EngineError ContainerNotFound "not found"));
     s_creates := [("c1", None)];
     s_doInstancePull := None;
     s_imagePull := None;
     s_start := None;
     s_remove := None;
     s_inspect := ({| types.Running := true; types.Restarting := false |},
                   None);
     s_info := ("/var/lib/docker", None);
     s_flex := ([], None);
     s_volumeActive := (true, None);
     s_activate := None |}.

(** A fresh process on a scripted world. *)
Definition fresh (w : Script) : process Script :=
  {| world := w; dockerRootOnce := false; dockerRoot := "" |}.

(** A specification with the given identity, data volumes, volumes-from
    references and public endpoints, and nothing else. *)
Definition mkSpec (uuid name externalId : string)
  (dataVolumes dataVolumesFrom : list string)
  (endpoints : list v3.PublicEndpoint) : v3.Container :=
  {| v3.Id := "1i1";
     v3.Uuid := uuid;
     v3.Name := name;
     v3.ExternalId := externalId;
     v3.Image := "docker:busybox";
     v3.RegistryCredentialId := "";
     v3.Labels := ∅;
     v3.DataVolumes := dataVolumes;
     v3.DataVolumesFrom := dataVolumesFrom;
     v3.PublicEndpoints := endpoints;
     v3.Hostname := "";
     v3.DomainName := "";
     v3.Privileged := false;
     v3.ReadOnly := false;
     v3.Command := [];
     v3.EntryPoint := [];
     v3.Environment := [];
     v3.WorkingDir := "";
     v3.User := "";
     v3.Tty := false;
     v3.StdinOpen := false;
     v3.StopSignal := "";
     v3.StopTimeout := 0;
     v3.HealthCmd := [];
     v3.HealthInterval := 0;
     v3.HealthRetries := 0;
     v3.HealthTimeout := 0 |}.

Definition specOf (uuid name externalId : string) : v3.Container :=
  mkSpec uuid name externalId [] [] [].

(** A well-formed uuid. *)
Definition uuid1 : string := "6ba7b810-9dad-11d1-80b4-00c04fd430c8".

(** ** Vocabulary of the statements *)

(** The exposed-port key of an endpoint, [<private port>/<protocol>]. *)
Definition portKey (e : v3.PublicEndpoint) : string :=
  Itoa (v3.PrivatePort e) +:+ "/" +:+ v3.Protocol e.

(** The host binding of an endpoint. *)
Definition portBinding (e : v3.PublicEndpoint) : gonat.PortBinding :=
  {| gonat.HostIP := v3.BindIpAddress e;
     gonat.HostPort := Itoa (v3.PublicPort e) |}.

(** The endpoints that declare a private port. *)
Definition declared (endpoints : list v3.PublicEndpoint)
  : list v3.PublicEndpoint :=
  List.filter (fun e => negb (v3.PrivatePort e =? 0)) endpoints.

(** The bindings of the declared endpoints with key [k], in declaration
    order. *)
Definition bindingsFor (k : string) (endpoints : list v3.PublicEndpoint)
  : list gonat.PortBinding :=
  map portBinding
    (List.filter (fun e => String.eqb (portKey e) k) (declared endpoints)).

(** A list of bindings as a map entry: no entry for no binding. *)
Definition entry (bs : list gonat.PortBinding)
  : option (list gonat.PortBinding) :=
  match bs with
  | [] => None
  | _ => Some bs
  end.

(** What the state query answers for the identifier [id], when [st] and
    [ierr] are what the engine answers to the inspection of [id]: nothing is
    running when the identifier is empty or the inspection reports
    not-found, another inspection failure is the error returned, as it is,
    and the running flag holds only for a container that runs and is not
    restarting. *)
Definition classified (id : string) (st : types.ContainerState)
  (ierr : option error) (r : bool * bool * option error) : Prop :=
  (id = "" -> r = (false, false, None))
  /\ (id <> "" ->
      (IsErrContainerNotFound ierr = true -> r = (false, false, None))
      /\ (forall e, ierr = Some e -> IsErrContainerNotFound ierr = false ->
            r = (false, false, Some e))
      /\ (ierr = None ->
            r = (types.Running st && negb (types.Restarting st),
                 types.Restarting st, None)))
  /\ (r.1.1 = true ->
      id <> "" /\ ierr = None
      /\ types.Running st = true /\ types.Restarting st = false).




(** The identifiers of the resolvable references, in declaration order. *)
Definition resolved (dataVolumesFrom : list string)
  (idsMap : gmap string string) : list string :=
  map (index idsMap)
    (List.filter (fun ref => negb (String.eqb (index idsMap ref) ""))
       dataVolumesFrom).

(** The literal root bind, with mode [rw]. *)
Definition rootBind : string := "/var/lib/docker:/var/lib/docker:rw".





(** A computation all of whose events satisfy [P]. *)
Definition emits {W A} (P : event -> bool) (m : M W A) : Prop :=
  forall s, Forall (fun e => P e = true) (m s).2.

(** The events of the start phase of [ContainerStart]: everything but the
    mounting and unmounting of the managed volumes. *)
Definition isReconcile (e : event) : bool :=
  match e with
  | EvSetupFlex _ _ _ _ | EvUnmountFlex _ => false
  | _ => true
  end.

(** The events of [createContainer]. *)
Definition isCreation (e : event) : bool :=
  match e with
  | EvDoInstancePull _ _ _ | EvImagePull _ _ _ | EvCreate _ _ _ _ _ => true
  | _ => false
  end.

(** ** Port translation *)

Section Ports.

Lemma setupPortsStep_zero acc e :
  v3.PrivatePort e = 0 -> setupPortsStep acc e = acc.
Proof.
  intros H. unfold setupPortsStep. destruct acc as [ex bs].
  rewrite H. reflexivity.
Qed.

Lemma setupPortsStep_declared ex bs e :
  v3.PrivatePort e <> 0 ->
  setupPortsStep (ex, bs) e =
    ({[portKey e]} ∪ ex,
     <[portKey e := default [] (bs !! portKey e) ++ [portBinding e]]> bs).
Proof.
  intros H. unfold setupPortsStep.
  destruct (Z.eqb_spec (v3.PrivatePort e) 0) as [E|_]; [contradiction|].
  cbn [negb]. fold (portKey e). fold (portBinding e).
  destruct (bs !! portKey e); reflexivity.
Qed.

Lemma bindingsFor_cons_zero k e l :
  v3.PrivatePort e = 0 -> bindingsFor k (e :: l) = bindingsFor k l.
Proof.
  intros H. unfold bindingsFor, declared. cbn [List.filter].
  rewrite H. reflexivity.
Qed.

Lemma bindingsFor_cons_same e l :
  v3.PrivatePort e <> 0 ->
  bindingsFor (portKey e) (e :: l) = portBinding e :: bindingsFor (portKey e) l.
Proof.
  intros H. unfold bindingsFor, declared. cbn [List.filter].
  destruct (Z.eqb_spec (v3.PrivatePort e) 0) as [E|_]; [contradiction|].
  cbn [negb List.filter]. rewrite String.eqb_refl. reflexivity.
Qed.

Lemma bindingsFor_cons_other k e l :
  portKey e <> k -> bindingsFor k (e :: l) = bindingsFor k l.
Proof.
  intros H. unfold bindingsFor, declared. cbn [List.filter].
  destruct (negb (v3.PrivatePort e =? 0)); [|reflexivity].
  cbn [List.filter].
  destruct (String.eqb_spec (portKey e) k) as [E|_]; [contradiction|].
  reflexivity.
Qed.

(** The bindings after the loop: what was there, followed by the bindings
    of the declared endpoints, key by key. *)
Lemma fold_bindings l : forall ex bs k,
  (fold_left setupPortsStep l (ex, bs)).2 !! k =
    entry (default [] (bs !! k) ++ bindingsFor k l) ∪ bs !! k.
Proof.
  induction l as [|e l IH]; intros ex bs k.
  - cbn [fold_left snd]. unfold bindingsFor. cbn [declared List.filter map].
    rewrite app_nil_r. destruct (bs !! k) as [[|b bs']|]; reflexivity.
  - cbn [fold_left].
    destruct (Z.eq_dec (v3.PrivatePort e) 0) as [Hz|Hnz].
    + rewrite setupPortsStep_zero by exact Hz.
      rewrite bindingsFor_cons_zero by exact Hz. apply IH.
    + rewrite setupPortsStep_declared by exact Hnz. rewrite IH.
      destruct (decide (portKey e = k)) as [<-|Hne].
      * rewrite lookup_insert_eq. cbn [from_option id].
        rewrite bindingsFor_cons_same by exact Hnz.
        rewrite <- app_assoc. cbn [app].
        destruct (bs !! portKey e) as [old|]; cbn [from_option id app].
        -- destruct (old ++ portBinding e :: bindingsFor (portKey e) l)
             eqn:E; [|reflexivity].
           destruct old; discriminate.
        -- reflexivity.
      * rewrite lookup_insert_ne by exact Hne.
        rewrite bindingsFor_cons_other by exact Hne. reflexivity.
Qed.

Lemma fold_exposed l : forall ex bs k,
  k ∈ (fold_left setupPortsStep l (ex, bs)).1 <->
  k ∈ ex \/ exists e, In e (declared l) /\ portKey e = k.
Proof.
  induction l as [|e l IH]; intros ex bs k.
  - cbn. split; [auto|]. intros [H|(e & [] & _)]. exact H.
  - cbn [fold_left].
    destruct (Z.eq_dec (v3.PrivatePort e) 0) as [Hz|Hnz].
    + rewrite setupPortsStep_zero by exact Hz. rewrite IH.
      unfold declared. cbn [List.filter]. rewrite Hz. reflexivity.
    + rewrite setupPortsStep_declared by exact Hnz. rewrite IH.
      unfold declared. cbn [List.filter].
      destruct (Z.eqb_spec (v3.PrivatePort e) 0) as [E|_]; [contradiction|].
      cbn [negb]. rewrite elem_of_union, elem_of_singleton.
      split.
      * intros [[->|H]|(e' & He' & <-)].
        -- right. exists e. split; [left; reflexivity|reflexivity].
        -- left. exact H.
        -- right. exists e'. split; [right; exact He'|reflexivity].
      * intros [H|(e' & [->|He'] & <-)].
        -- left. right. exact H.
        -- left. left. reflexivity.
        -- right. exists e'. split; [exact He'|reflexivity].
Qed.

End Ports.

(** C5, as amended.  For every list of public endpoints, [setupPorts] exposes
    exactly the keys [<private port>/<protocol>] of the endpoints with a
    non-zero private port, and gives each of these endpoints a host binding
    whether or not a public port is given (the host port is the decimal
    rendering of the public port); the bindings of one key are the bindings
    of its endpoints in declaration order; the port bindings of the host
    configuration are replaced only when some endpoint declares a private
    port; and an endpoint with private port zero changes nothing. *)
Theorem setupPorts_translation (config : container.Config)
  (containerSpec : v3.Container) (hostConfig : container.HostConfig) :
  let endpoints := v3.PublicEndpoints containerSpec in
  let r := setupPorts config containerSpec hostConfig in
  (forall k, k ∈ container.ExposedPorts r.1 <->
             exists e, In e endpoints /\ v3.PrivatePort e <> 0 /\ portKey e = k)
  /\ (forall e, In e endpoints -> v3.PrivatePort e <> 0 ->
        In (portBinding e) (bindingsFor (portKey e) endpoints))
  /\ (declared endpoints <> [] ->
      forall k, container.PortBindings r.2 !! k = entry (bindingsFor k endpoints))
  /\ (declared endpoints = [] -> r.2 = hostConfig)
  /\ (forall acc e, v3.PrivatePort e = 0 -> setupPortsStep acc e = acc)
  /\ (forall spec' l1 e l2,
        endpoints = l1 ++ e :: l2 -> v3.PrivatePort e = 0 ->
        v3.PublicEndpoints spec' = l1 ++ l2 ->
        setupPorts config spec' hostConfig = r).
Proof.
  intros endpoints r.
  assert (Hdecl : forall e, In e (declared endpoints) <->
                            In e endpoints /\ v3.PrivatePort e <> 0).
  { intros e. unfold declared. rewrite filter_In.
    destruct (Z.eqb_spec (v3.PrivatePort e) 0); cbn; intuition congruence. }
  assert (Hfold : forall k,
    (fold_left setupPortsStep endpoints (∅, ∅)).2 !! k =
      entry (bindingsFor k endpoints)).
  { intros k. rewrite fold_bindings. rewrite lookup_empty. cbn.
    destruct (entry (bindingsFor k endpoints)); reflexivity. }
  subst r. unfold setupPorts. fold endpoints.
  destruct (fold_left setupPortsStep endpoints (∅, ∅)) as [ex bs] eqn:E.
  cbn [fst snd] in *.
  split; [|split; [|split; [|split; [|split]]]].
  - intros k. cbn.
    pose proof (fold_exposed endpoints ∅ ∅ k) as H. rewrite E in H.
    cbn [fst] in H. rewrite H. split.
    + intros [Hin|(e & He & Hk)]; [set_solver|].
      exists e. apply Hdecl in He. tauto.
    + intros (e & He & Hnz & Hk). right. exists e. split; [|exact Hk].
      apply Hdecl. tauto.
  - intros e He Hnz. unfold bindingsFor. apply in_map. apply filter_In.
    split; [apply Hdecl; tauto|apply String.eqb_refl].
  - intros Hne k.
    assert (Hsize : (0 <? size bs)%nat = true).
    { apply Nat.ltb_lt. destruct (declared endpoints) as [|e l] eqn:D;
        [contradiction|].
      assert (He : In e (declared endpoints)) by (rewrite D; left; reflexivity).
      assert (Hb : is_Some (bs !! portKey e)).
      { rewrite Hfold. unfold bindingsFor. rewrite D. cbn [List.filter].
        rewrite String.eqb_refl. cbn. eauto. }
      destruct Hb as [x Hx].
      destruct (decide (size bs = 0%nat)) as [Hz|Hz]; [|lia].
      apply map_size_empty_iff in Hz. rewrite Hz in Hx.
      rewrite lookup_empty in Hx. discriminate. }
    rewrite Hsize. cbn. apply Hfold.
  - intros Hnil.
    assert (Hbs : bs = ∅).
    { apply map_eq. intros k. rewrite Hfold, lookup_empty.
      unfold bindingsFor. rewrite Hnil. reflexivity. }
    rewrite Hbs. rewrite map_size_empty. reflexivity.
  - intros acc e Hz. apply setupPortsStep_zero. exact Hz.
  - intros spec' l1 e l2 Hl Hz Hl'. rewrite Hl'.
    rewrite Hl in E. rewrite fold_left_app in E. cbn [fold_left] in E.
    rewrite setupPortsStep_zero in E by exact Hz.
    rewrite <- fold_left_app in E. rewrite E. reflexivity.
Qed.

(** The translation of one endpoint with private port 8080, protocol tcp and
    public port 80, next to one with private port zero. *)
Lemma setupPorts_translation_witness :
  let containerSpec :=
    mkSpec uuid1 "web" "" [] []
      [ {| v3.BindIpAddress := ""; v3.PrivatePort := 0;
           v3.Protocol := "tcp"; v3.PublicPort := 9000 |};
        {| v3.BindIpAddress := ""; v3.PrivatePort := 8080;
           v3.Protocol := "tcp"; v3.PublicPort := 80 |} ] in
  container.PortBindings
    (setupPorts zeroConfig containerSpec zeroHostConfig).2 !! "8080/tcp"
  = Some [ {| gonat.HostIP := ""; gonat.HostPort := "80" |} ]
  /\ container.PortBindings
       (setupPorts zeroConfig containerSpec zeroHostConfig).2 !! "0/tcp"
     = None.
Proof.
  intros containerSpec.
  destruct (setupPorts_translation zeroConfig containerSpec zeroHostConfig)
    as (_ & _ & H & _).
  assert (Hd : declared (v3.PublicEndpoints containerSpec) <> [])
    by (vm_compute; discriminate).
  split; rewrite (H Hd); reflexivity.
Defined.

(** C5 as stated fails: an endpoint with a private port and no public port
    still gets a host binding, to host port [0]. *)
Lemma setupPorts_binds_without_public_port :
  let containerSpec :=
    mkSpec uuid1 "web" "" [] []
      [ {| v3.BindIpAddress := ""; v3.PrivatePort := 8080;
           v3.Protocol := "tcp"; v3.PublicPort := 0 |} ] in
  container.PortBindings
    (setupPorts zeroConfig containerSpec zeroHostConfig).2 !! "8080/tcp" =
  Some [ {| gonat.HostIP := ""; gonat.HostPort := "0" |} ].
Proof. vm_compute. reflexivity. Qed.

(** ** createContainer *)

Section CreateContainer.
Context {W : Type} (rt : Runtime W).

(** Unfolds a computation into the calls it makes. *)
Ltac unfold_calls :=
  unfold Serialize, FindContainer, RemoveContainer, dockerContainerCreate,
    clientContainerStart, ContainerInspect, DoInstancePull, ImagePull,
    setupRancherFlexVolume, unmountRancherFlexVolume in *;
  unfold bind, ret, panic, call in *.

Ltac simp :=
  cbn beta iota zeta delta
    [world dockerRootOnce dockerRoot fst snd app negb] in *.

(** Every run of lines 209 to 223, call by call: the create call answers
    without an image-missing error; or it answers with one and the pull
    fails; or the pull succeeds and the create call is made once more. *)
Lemma createWithRetry_runs config hostConfig containerSpec credential name
  (s : process W) :
  exists s' out evs,
    createWithRetry rt config hostConfig containerSpec credential name s
      = (Done out, s', evs)
    /\ ((exists id err,
           IsErrImageNotFound err = false
           /\ evs = [EvCreate config hostConfig name id err]
           /\ out = match err with
                    | Some e =>
                        ("", Some (Wrap e "failed to create container"))
                    | None => (id, None)
                    end)
        \/ (exists id err e,
              IsErrImageNotFound err = true
              /\ evs = [EvCreate config hostConfig name id err;
                        EvImagePull (v3.Image containerSpec) credential
                          (Some e)]
              /\ out = ("", Some (Wrap e "failed to pull image")))
        \/ (exists id err id2 err2,
              IsErrImageNotFound err = true
              /\ evs = [EvCreate config hostConfig name id err;
                        EvImagePull (v3.Image containerSpec) credential None;
                        EvCreate config hostConfig name id2 err2]
              /\ out = match err2 with
                       | Some e2 =>
                           ("", Some (Wrap e2 "failed to create container"))
                       | None => (id2, None)
                       end)).
Proof.
  unfold createWithRetry. unfold_calls. simp.
  destruct (r_dockerContainerCreate rt config hostConfig name (world s))
    as [[id err] w1]. simp.
  destruct (IsErrImageNotFound err) eqn:Hinf; simp.
  - destruct (r_ImagePull rt (v3.Image containerSpec) credential w1)
      as [[e|] w2]; simp.
    + do 3 eexists. split; [reflexivity|].
      right. left. exists id, err, e. auto.
    + destruct (r_dockerContainerCreate rt config hostConfig name w2)
        as [[id2 err2] w3]. simp.
      destruct err2 as [e2|]; do 3 eexists; (split; [reflexivity|]);
        right; right; [exists id, err, id2, (Some e2)
                      |exists id, err, id2, None]; auto.
  - destruct err as [e|]; do 3 eexists; (split; [reflexivity|]);
      left; [exists id, (Some e)|exists id, None]; auto.
Qed.

(** Every run of [createContainer]: the pull asked for by the label fails;
    or the specification has an external id; or lines 209 to 223 run. *)
Lemma createContainer_runs config hostConfig containerSpec credential name
  (s : process W) :
  let params :=
    {| Tag := ""; Mode := "all"; Complete := false;
       ImageUUID := v3.Image containerSpec |} in
  let config' := setImage config (v3.Image containerSpec) in
  let deleted :=
    New ("Container " +:+ v3.ExternalId containerSpec
         +:+ " has been deleted from the host") in
  let always :=
    String.eqb (index (container.Labels config) PullImageLabels) "always" in
  exists s' out evs,
    createContainer rt config hostConfig containerSpec credential name s
      = (Done out, s', evs)
    /\ ((always = true /\ exists e,
           evs = [EvDoInstancePull params credential (Some e)]
           /\ out = ("", Some (Wrap e "failed to pull instance")))
        \/ exists s1 post,
           evs = (if always then [EvDoInstancePull params credential None]
                  else []) ++ post
           /\ ((v3.ExternalId containerSpec <> "" /\ post = []
                /\ out = ("", Some deleted))
               \/ (v3.ExternalId containerSpec = ""
                   /\ createWithRetry rt config' hostConfig containerSpec
                        credential name s1 = (Done out, s', post)))).
Proof.
  intros params config' deleted always. subst always.
  unfold createContainer. fold params. fold config'. fold deleted.
  unfold bind at 1.
  destruct (String.eqb (index (container.Labels config) PullImageLabels)
              "always") eqn:Halways.
  - unfold DoInstancePull, call.
    destruct (r_DoInstancePull rt params credential (world s))
      as [[e|] w1].
    + unfold ret. do 3 eexists. split; [reflexivity|].
      left. split; [reflexivity|]. exists e. auto.
    + destruct (String.eqb_spec (v3.ExternalId containerSpec) "")
        as [Hext|Hext]; simp.
      * destruct (createWithRetry_runs config' hostConfig containerSpec
                    credential name
                    {| world := w1; dockerRootOnce := dockerRootOnce s;
                       dockerRoot := dockerRoot s |})
          as (s' & out & evs & Hrun & _).
        rewrite Hrun. do 3 eexists. split; [reflexivity|].
        right. do 2 eexists. split; [reflexivity|]. right. eauto.
      * unfold ret. do 3 eexists. split; [reflexivity|].
        right. exists s, []. split; [reflexivity|]. left. auto.
  - unfold ret at 1.
    destruct (String.eqb_spec (v3.ExternalId containerSpec) "")
      as [Hext|Hext]; simp.
    + destruct (createWithRetry_runs config' hostConfig containerSpec
                  credential name s) as (s' & out & evs & Hrun & _).
      rewrite Hrun. do 3 eexists. split; [reflexivity|].
      right. do 2 eexists. split; [reflexivity|]. right. eauto.
    + unfold ret. do 3 eexists. split; [reflexivity|].
      right. exists s, []. split; [reflexivity|]. left. auto.
Qed.

(** C2, as amended.  When the first create call of an invocation of
    [createContainer] is rejected because the image is absent, exactly one
    on-demand pull follows, with the image of the specification and the
    supplied credential.  If that pull fails, its error is returned and the
    create call is not made again; if it succeeds, the create call is made
    exactly once more, with the same arguments, and whatever it answers
    nothing else is attempted: its identifier is returned when it
    succeeds, its error when it fails. *)
Theorem createContainer_image_missing config hostConfig containerSpec
  credential name (s s' : process W) out evs c h n id err :
  createContainer rt config hostConfig containerSpec credential name s
    = (out, s', evs) ->
  List.find isCreate evs = Some (EvCreate c h n id err) ->
  IsErrImageNotFound err = true ->
  exists pre perr post,
    evs = pre ++ EvCreate c h n id err
              :: EvImagePull (v3.Image containerSpec) credential perr
              :: post
    /\ count isCreate pre = 0%nat
    /\ count isImagePull pre = 0%nat
    /\ match perr with
       | Some e =>
           post = []
           /\ out = Done ("", Some (Wrap e "failed to pull image"))
       | None =>
           exists id2 err2,
             post = [EvCreate c h n id2 err2]
             /\ out = Done match err2 with
                           | Some e2 =>
                               ("", Some (Wrap e2
                                  "failed to create container"))
                           | None => (id2, None)
                           end
       end.
Proof.
  intros Hrun Hfind Hinf.
  destruct (createContainer_runs config hostConfig containerSpec credential
              name s) as (s0 & out0 & evs0 & Hrun0 & Hcases).
  rewrite Hrun in Hrun0. injection Hrun0 as -> -> ->.
  destruct Hcases as [(_ & e & -> & _)|(s1 & post & -> & Hpost)];
    [discriminate Hfind|].
  set (pre := if String.eqb (index (container.Labels config) PullImageLabels)
                   "always"
              then [EvDoInstancePull
                      {| Tag := ""; Mode := "all"; Complete := false;
                         ImageUUID := v3.Image containerSpec |}
                      credential None]
              else []) in *.
  assert (Hpre : count isCreate pre = 0%nat /\ count isImagePull pre = 0%nat
                 /\ forall l, List.find isCreate (pre ++ l)
                              = List.find isCreate l).
  { subst pre. destruct (String.eqb _ "always"); cbn; auto. }
  destruct Hpre as (Hc & Hp & Hf). rewrite Hf in Hfind.
  destruct Hpost as [(_ & -> & _)|(_ & Hretry)]; [discriminate Hfind|].
  destruct (createWithRetry_runs
              (setImage config (v3.Image containerSpec)) hostConfig
              containerSpec credential name s1)
    as (s2 & out2 & evs2 & Hrun2 & Hcases).
  rewrite Hretry in Hrun2. injection Hrun2 as <- <- <-.
  destruct Hcases as [(id1 & err1 & Hinf1 & -> & ->)
                     |[(id1 & err1 & e & Hinf1 & -> & ->)
                      |(id1 & err1 & id2 & err2 & Hinf1 & -> & ->)]];
    cbn in Hfind; injection Hfind as <- <- <- <- <-.
  - congruence.
  - exists pre, (Some e), []. auto.
  - exists pre, None, [EvCreate (setImage config (v3.Image containerSpec))
                         hostConfig name id2 err2].
    repeat split; auto. exists id2, err2. auto.
Qed.

(** C10, as amended.  For every specification with a non-empty external
    id, [createContainer] never makes the create call.  When the pull-image
    label is not [always] it makes no call and returns the error
    [Container <ExternalId> has been deleted from the host]; when the
    label is [always] the full pull is made first, and the function
    returns that error if the pull succeeds and the error of the pull,
    wrapped, if it fails. *)
Theorem createContainer_deleted config hostConfig containerSpec credential
  name (s : process W) :
  v3.ExternalId containerSpec <> "" ->
  let params :=
    {| Tag := ""; Mode := "all"; Complete := false;
       ImageUUID := v3.Image containerSpec |} in
  let deleted :=
    New ("Container " +:+ v3.ExternalId containerSpec
         +:+ " has been deleted from the host") in
  exists s' out evs,
    createContainer rt config hostConfig containerSpec credential name s
      = (Done ("", Some out), s', evs)
    /\ count isCreate evs = 0%nat
    /\ if String.eqb (index (container.Labels config) PullImageLabels)
            "always"
       then exists perr,
              evs = [EvDoInstancePull params credential perr]
              /\ out = match perr with
                       | Some e => Wrap e "failed to pull instance"
                       | None => deleted
                       end
       else evs = [] /\ out = deleted.
Proof.
  intros Hext params deleted.
  destruct (createContainer_runs config hostConfig containerSpec credential
              name s) as (s' & out & evs & Hrun & Hcases).
  fold params in Hcases. fold deleted in Hcases.
  destruct Hcases as [(Halways & e & -> & ->)|(s1 & post & -> & Hpost)].
  - rewrite Halways. do 3 eexists. split; [exact Hrun|]. split; [reflexivity|]. exists (Some e). auto.
  - destruct Hpost as [(_ & -> & ->)|(Hext' & _)]; [|contradiction].
    do 3 eexists. split; [exact Hrun|].
    destruct (String.eqb _ "always"); cbn.
    + split; [reflexivity|]. exists None. auto.
    + auto.
Qed.

End CreateContainer.

(** A configuration whose only label asks for the image to be pulled
    always. *)
Lemma createContainer_image_missing_witness :
  let w :=
    {| s_findCached := s_findCached happy;
       s_findForced := s_findForced happy;
       s_creates := [("", Some (EngineError ImageNotFound "No such image"));
                     ("c2", None)];
       s_doInstancePull := None;
       s_imagePull := None;
       s_start := None;
       s_remove := None;
       s_inspect := s_inspect happy;
       s_info := s_info happy;
       s_flex := s_flex happy;
       s_volumeActive := s_volumeActive happy;
       s_activate := None |} in
  let containerSpec := specOf uuid1 "web" "" in
  let credential := selectCredential [] "" in
  let r := createContainer scripted zeroConfig zeroHostConfig containerSpec
             credential "r-web" (fresh w) in
  exists pre perr post,
    r.2 = pre ++ EvCreate (setImage zeroConfig "docker:busybox")
                   zeroHostConfig "r-web" ""
                   (Some (EngineError ImageNotFound "No such image"))
              :: EvImagePull "docker:busybox" credential perr :: post
    /\ count isCreate pre = 0%nat
    /\ count isImagePull pre = 0%nat
    /\ match perr with
       | Some e =>
           post = []
           /\ r.1.1 = Done ("", Some (Wrap e "failed to pull image"))
       | None =>
           exists id2 err2,
             post = [EvCreate (setImage zeroConfig "docker:busybox")
                       zeroHostConfig "r-web" id2 err2]
             /\ r.1.1 = Done match err2 with
                             | Some e2 =>
                                 ("", Some (Wrap e2
                                    "failed to create container"))
                             | None => (id2, None)
                             end
       end.
Proof.
  intros w containerSpec credential r.
  apply (createContainer_image_missing scripted zeroConfig zeroHostConfig
           containerSpec credential "r-web" (fresh w) r.1.2 r.1.1 r.2
           (setImage zeroConfig "docker:busybox") zeroHostConfig "r-web" ""
           (Some (EngineError ImageNotFound "No such image"))).
  - reflexivity.
  - reflexivity.
  - reflexivity.
Defined.

(** C2 as stated fails: when the on-demand pull fails, the create call is
    not made a second time; the run is one create call, one pull. *)
Lemma createContainer_pull_failure_no_retry :
  let w :=
    {| s_findCached := s_findCached happy;
       s_findForced := s_findForced happy;
       s_creates := [("", Some (EngineError ImageNotFound "No such image"));
                     ("c2", None)];
       s_doInstancePull := None;
       s_imagePull := Some (EngineError OtherKind "registry unreachable");
       s_start := None;
       s_remove := None;
       s_inspect := s_inspect happy;
       s_info := s_info happy;
       s_flex := s_flex happy;
       s_volumeActive := s_volumeActive happy;
       s_activate := None |} in
  let credential := selectCredential [] "" in
  let r := createContainer scripted zeroConfig zeroHostConfig
             (specOf uuid1 "web" "") credential "r-web" (fresh w) in
  r.2 = [EvCreate (setImage zeroConfig "docker:busybox") zeroHostConfig
           "r-web" "" (Some (EngineError ImageNotFound "No such image"));
         EvImagePull "docker:busybox" credential
           (Some (EngineError OtherKind "registry unreachable"))]
  /\ count isImagePull r.2 = 1%nat
  /\ count isCreate r.2 = 1%nat
  /\ r.1.1 = Done ("", Some (Wrap (EngineError OtherKind "registry unreachable")
                               "failed to pull image")).
Proof. repeat split. Qed.

(** The configuration whose only label asks for the image to be pulled
    always. *)
Definition alwaysPull : container.Config :=
  setLabels zeroConfig {[PullImageLabels := "always"]}.

Lemma createContainer_deleted_witness :
  let containerSpec := specOf uuid1 "web" "ext-1" in
  exists s' out evs,
    createContainer scripted alwaysPull zeroHostConfig containerSpec
      (selectCredential [] "") "r-web" (fresh happy)
      = (Done ("", Some out), s', evs)
    /\ count isCreate evs = 0%nat
    /\ if String.eqb (index (container.Labels alwaysPull) PullImageLabels)
            "always"
       then exists perr,
              evs = [EvDoInstancePull
                       {| Tag := ""; Mode := "all"; Complete := false;
                          ImageUUID := v3.Image containerSpec |}
                       (selectCredential [] "") perr]
              /\ out = match perr with
                       | Some e => Wrap e "failed to pull instance"
                       | None =>
                           New ("Container " +:+ v3.ExternalId containerSpec
                                +:+ " has been deleted from the host")
                       end
       else evs = []
            /\ out = New ("Container " +:+ v3.ExternalId containerSpec
                          +:+ " has been deleted from the host").
Proof.
  intros containerSpec.
  apply (createContainer_deleted scripted alwaysPull zeroHostConfig
           containerSpec (selectCredential [] "") "r-web" (fresh happy)).
  vm_compute. discriminate.
Defined.

(** C10 as stated fails: with the label [always] and a pull that fails, a
    specification with an external id gets the error of the pull, not the
    deleted-from-the-host error. *)
Lemma createContainer_deleted_pull_failure :
  let w :=
    {| s_findCached := s_findCached happy;
       s_findForced := s_findForced happy;
       s_creates := s_creates happy;
       s_doInstancePull := Some (EngineError OtherKind "registry unreachable");
       s_imagePull := None;
       s_start := None;
       s_remove := None;
       s_inspect := s_inspect happy;
       s_info := s_info happy;
       s_flex := s_flex happy;
       s_volumeActive := s_volumeActive happy;
       s_activate := None |} in
  let containerSpec := specOf uuid1 "web" "ext-1" in
  v3.ExternalId containerSpec <> ""
  /\ (createContainer scripted alwaysPull zeroHostConfig containerSpec
        (selectCredential [] "") "r-web" (fresh w)).1.1
     = Done ("", Some (Wrap (EngineError OtherKind "registry unreachable")
                         "failed to pull instance"))
  /\ Error (Wrap (EngineError OtherKind "registry unreachable")
              "failed to pull instance")
     <> "Container ext-1 has been deleted from the host".
Proof.
  split; [vm_compute; discriminate|].
  split; [vm_compute; reflexivity|vm_compute; discriminate].
Qed.

(** ** The state query *)

Section StateQuery.
Context {W : Type} (rt : Runtime W).

(** [isRunning] against the answer of the engine: no call for the empty
    identifier, one inspection otherwise. *)
Lemma isRunning_runs containerID (s : process W) :
  let answer := r_ContainerInspect rt containerID (world s) in
  exists r s' evs,
    isRunning rt containerID s = (Done r, s', evs)
    /\ classified containerID answer.1.1 answer.1.2 r
    /\ (containerID = "" -> s' = s /\ evs = [])
    /\ (containerID <> "" ->
        s' = {| world := answer.2; dockerRootOnce := dockerRootOnce s;
                dockerRoot := dockerRoot s |}
        /\ evs = [EvInspect containerID answer.1.1 answer.1.2]).
Proof.
  intros answer. subst answer. unfold isRunning.
  destruct (String.eqb_spec containerID "") as [->|Hne].
  - exists (false, false, None), s, []. split; [reflexivity|].
    split; [|split; [auto|intros H; contradiction]].
    split; [reflexivity|]. split; [intros H; contradiction|discriminate].
  - unfold ContainerInspect, bind, call, ret.
    destruct (r_ContainerInspect rt containerID (world s)) as [[st ierr] w].
    cbn beta iota zeta delta [fst snd].
    destruct ierr as [e|].
    + destruct (IsErrContainerNotFound (Some e)) eqn:Hnf; cbn [app];
        do 3 eexists; (split; [reflexivity|]);
        (split; [|split; [intros ->; contradiction|auto]]);
        (split; [intros ->; contradiction|]);
        (split; [|discriminate]); intros _;
        (split; [|split; [|discriminate]]); congruence.
    + cbn [app]. do 3 eexists. split; [reflexivity|].
      split; [|split; [intros ->; contradiction|auto]].
      split; [intros ->; contradiction|]. split.
      * intros _. split; [discriminate|]. split; [discriminate|reflexivity].
      * cbn [fst]. intros H. apply andb_true_iff in H as [H1 H2].
        split; [exact Hne|]. split; [reflexivity|]. split; [exact H1|].
        destruct (types.Restarting st); [discriminate|reflexivity].
Qed.

(** C9.  The state query against the answers of the engine.  [isRunning]
    always returns: [(false, false, nil)] without any call when the
    identifier is empty, and after one inspection when the engine reports
    the container as not found; any other failure of the inspection is the
    error returned; otherwise the running flag is true only when the engine
    reports the container as running and not restarting, and the
    restarting flag is the one of the engine.  [IsContainerStarted] looks
    the container up, not forced: a not-found answer gives
    [(false, false, nil)], another lookup failure is returned wrapped, and
    otherwise the answer is that of [isRunning] on the identifier found. *)
Theorem state_query_classified containerSpec containerID (s : process W) :
  let answer := r_ContainerInspect rt containerID (world s) in
  let found := r_FindContainer rt containerSpec false (world s) in
  let looked := {| world := found.2; dockerRootOnce := dockerRootOnce s;
                   dockerRoot := dockerRoot s |} in
  let answer' := r_ContainerInspect rt found.1.1 found.2 in
  (exists r s' evs,
     isRunning rt containerID s = (Done r, s', evs)
     /\ classified containerID answer.1.1 answer.1.2 r
     /\ (containerID = "" -> s' = s /\ evs = [])
     /\ (containerID <> "" ->
         world s' = answer.2
         /\ evs = [EvInspect containerID answer.1.1 answer.1.2]))
  /\ (exists r s' evs,
        IsContainerStarted rt containerSpec s
          = (Done r, s',
             EvFindContainer containerSpec false found.1.1 found.1.2 :: evs)
        /\ match found.1.2 with
           | Some e =>
               s' = looked /\ evs = []
               /\ r = if r_IsContainerNotFoundError rt e
                      then (false, false, None)
                      else (false, false,
                            Some (Wrap e "failed to get container"))
           | None =>
               classified found.1.1 answer'.1.1 answer'.1.2 r
               /\ (found.1.1 = "" -> s' = looked /\ evs = [])
               /\ (found.1.1 <> "" ->
                   world s' = answer'.2
                   /\ evs = [EvInspect found.1.1 answer'.1.1 answer'.1.2])
           end).
Proof.
  cbv zeta. split.
  - destruct (isRunning_runs containerID s)
      as (r & s' & evs & Hrun & Hcl & Hempty & Hcall).
    exists r, s', evs. split; [exact Hrun|]. split; [exact Hcl|].
    split; [exact Hempty|]. intros Hne. destruct (Hcall Hne) as [-> ->].
    split; reflexivity.
  - unfold IsContainerStarted, FindContainer, bind, call.
    destruct (r_FindContainer rt containerSpec false (world s))
      as [[cont ferr] w].
    cbn beta iota zeta delta [fst snd].
    destruct ferr as [e|].
    + destruct (r_IsContainerNotFoundError rt e) eqn:Hnf; unfold ret;
        do 3 eexists; (split; [reflexivity|]); auto.
    + destruct (isRunning_runs cont
                  {| world := w; dockerRootOnce := dockerRootOnce s;
                     dockerRoot := dockerRoot s |})
        as (r & s' & evs & Hrun & Hcl & Hempty & Hcall).
      rewrite Hrun. exists r, s', evs. split; [reflexivity|].
      cbn [world] in *. split; [exact Hcl|]. split; [exact Hempty|].
      intros Hne. destruct (Hcall Hne) as [-> ->]. split; reflexivity.
Qed.

End StateQuery.

(** A restarting container is reported as not running. *)
Lemma state_query_classified_witness :
  let w :=
    {| s_findCached := ("c1", None);
       s_findForced := ("c1", None);
       s_creates := [];
       s_doInstancePull := None;
       s_imagePull := None;
       s_start := None;
       s_remove := None;
       s_inspect := ({| types.Running := true; types.Restarting := true |},
                     None);
       s_info := s_info happy;
       s_flex := s_flex happy;
       s_volumeActive := s_volumeActive happy;
       s_activate := None |} in
  (IsContainerStarted scripted (specOf uuid1 "web" "") (fresh w)).1.1
  = Done (false, true, None).
Proof.
  intros w.
  destruct (state_query_classified scripted (specOf uuid1 "web" "") "c1"
              (fresh w)) as (_ & r & s' & evs & Hrun & Hcl).
  rewrite Hrun. cbn [fst]. cbn in Hcl.
  destruct Hcl as ((_ & Hcl & _) & _).
  destruct Hcl as (_ & _ & ->); [discriminate|reflexivity|reflexivity].
Defined.

(** ** Volumes *)

Section Volumes.
Context {W : Type} (rt : Runtime W).

Lemma count_app p (l1 l2 : list event) :
  count p (l1 ++ l2) = (count p l1 + count p l2)%nat.
Proof. unfold count. rewrite List.filter_app, length_app. reflexivity. Qed.

(** *** The docker root is asked for once *)












(** *** What the loops return *)

Lemma activateVolumes_done volumes (s : process W) :
  exists err s' evs, activateVolumes rt volumes s = (Done err, s', evs).
Proof.
  revert s. induction volumes as [|volume volumes IH]; intros s;
    cbn [activateVolumes].
  - unfold ret. eauto.
  - destruct (negb (r_IsRancherVolume rt volume)); [|apply IH].
    unfold IsVolumeActive, DoVolumeActivate, bind, call, ret.
    destruct (r_IsVolumeActive rt volume (world s)) as [[ok err] w1].
    destruct (negb ok && isNil err).
    + cbn [world dockerRootOnce dockerRoot].
      destruct (r_DoVolumeActivate rt volume w1) as [[e|] w2].
      * eauto.
      * destruct (IH {| world := w2; dockerRootOnce := dockerRootOnce s;
                        dockerRoot := dockerRoot s |})
          as (err' & s' & evs & ->). eauto.
    + destruct err as [e|]; [eauto|].
      destruct (IH {| world := w1; dockerRootOnce := dockerRootOnce s;
                      dockerRoot := dockerRoot s |})
        as (err' & s' & evs & ->). eauto.
Qed.

Lemma resolveVolumesFrom_resolved dataVolumesFrom idsMap :
  resolveVolumesFrom dataVolumesFrom idsMap = resolved dataVolumesFrom idsMap.
Proof.
  unfold resolveVolumesFrom, resolved.
  assert (H : forall l acc,
    fold_left
      (fun containers volumeFrom =>
         if negb (String.eqb (index idsMap volumeFrom) "")
         then containers ++ [index idsMap volumeFrom] else containers)
      l acc
    = acc ++ map (index idsMap)
               (List.filter
                  (fun ref => negb (String.eqb (index idsMap ref) "")) l)).
  { induction l as [|ref l IH]; intros acc; cbn [fold_left List.filter].
    - cbn. rewrite app_nil_r. reflexivity.
    - rewrite IH. destruct (negb (String.eqb (index idsMap ref) "")).
      + cbn [map]. rewrite <- app_assoc. reflexivity.
      + reflexivity. }
  apply H.
Qed.

Lemma SplitN_3_nonempty volume sep : SplitN volume sep 3 <> [].
Proof. cbn [SplitN]. destruct (cut sep volume) as [[a b]|]; discriminate. Qed.

(** The loop over the data volumes panics only when the query of the
    docker root fails. *)
Lemma dataVolumes_outcome managed l : forall acc (s : process W),
  match foldM (dataVolumeStep rt managed) l acc s with
  | (Done _, _, _) => True
  | (Panic _, _, evs) => exists root e, In (EvInfo root (Some e)) evs
  end.
Proof.
  induction l as [|volume l IH]; intros acc s; cbn [foldM]; [exact I|].
  unfold bind at 1.
  destruct (dataVolumeStep rt managed acc volume s) as [[[acc'|msg] s1] t1]
    eqn:Hstep.
  - specialize (IH acc' s1).
    destruct (foldM (dataVolumeStep rt managed) l acc' s1)
      as [[[r|msg] s2] t2]; [exact I|].
    destruct IH as (root & e & Hin). exists root, e.
    apply in_or_app. right. exact Hin.
  - revert Hstep. unfold dataVolumeStep. destruct acc as [volumesMap binds].
    pose proof (SplitN_3_nonempty volume ":") as Hne.
    destruct (SplitN volume ":" 3) as [|p0 [|p1 rest]]; [contradiction| |];
      (destruct (decide (p0 ∈ managed)); [discriminate|]);
      [discriminate|].
    destruct (String.eqb p0 varLibDocker && String.eqb p1 varLibDocker);
      [|discriminate].
    unfold bind, getDockerRoot.
    destruct (dockerRootOnce s).
    + destruct (negb (String.eqb (dockerRoot s) varLibDocker));
        discriminate.
    + destruct (r_Info rt (world s)) as [[rootDir [e|]] w].
      * intros [= <- <- <-]. exists rootDir, e. left. reflexivity.
      * destruct (negb (String.eqb rootDir varLibDocker)); discriminate.
Qed.

(** [setupNonRancherVolumes], loop by loop. *)
Lemma setupNonRancherVolumes_runs config volumes containerSpec hostConfig
  idsMap (s : process W) :
  setupNonRancherVolumes rt config volumes containerSpec hostConfig idsMap s
  = match foldM (dataVolumeStep rt (rancherManagedVolumeNames rt volumes))
            (v3.DataVolumes containerSpec) (∅, []) s with
    | (Done (volumesMap, binds), s1, t1) =>
        match activateVolumes rt volumes s1 with
        | (Done err, s2, t2) =>
            let ids := resolved (v3.DataVolumesFrom containerSpec) idsMap in
            let hostConfig' :=
              setBinds hostConfig (container.Binds hostConfig ++ binds) in
            (Done (setVolumes config volumesMap,
                   match ids with
                   | [] => hostConfig'
                   | _ => setVolumesFrom hostConfig' ids
                   end, err), s2, t1 ++ t2)
        | (Panic msg, s2, t2) => (Panic msg, s2, t1 ++ t2)
        end
    | (Panic msg, s1, t1) => (Panic msg, s1, t1)
    end.
Proof.
  unfold setupNonRancherVolumes. rewrite resolveVolumesFrom_resolved.
  unfold bind at 1.
  destruct (foldM _ (v3.DataVolumes containerSpec) (∅, []) s)
    as [[[[volumesMap binds]|msg] s1] t1]; [|reflexivity].
  unfold bind, ret.
  destruct (activateVolumes rt volumes s1) as [[[err|msg] s2] t2];
    [|reflexivity].
  rewrite app_nil_r.
  destruct (resolved (v3.DataVolumesFrom containerSpec) idsMap);
    reflexivity.
Qed.

(** C8, as amended.  [setupNonRancherVolumes] returns unless the query of
    the docker root failed.  When it returns and at least one reference of
    [DataVolumesFrom] resolves, the volumes-from list of the host
    configuration is the list of the identifiers that [idsMap] gives to the
    resolvable references, in declaration order; when no reference resolves,
    the list is left as the host configuration had it.  The references that
    do not resolve are dropped and cause no error: the calls made, the final
    state and the error returned are the same whatever the references and
    [idsMap] are. *)
Theorem setupNonRancherVolumes_volumesFrom config volumes containerSpec
  hostConfig idsMap (s : process W) :
  let run :=
    setupNonRancherVolumes rt config volumes containerSpec hostConfig
      idsMap s in
  let ids := resolved (v3.DataVolumesFrom containerSpec) idsMap in
  ((forall root e, ~ In (EvInfo root (Some e)) run.2) ->
   exists r, run.1.1 = Done r)
  /\ (forall config' hostConfig' err,
        run.1.1 = Done (config', hostConfig', err) ->
        container.VolumesFrom hostConfig'
          = match ids with
            | [] => container.VolumesFrom hostConfig
            | _ => ids
            end)
  /\ (forall containerSpec' idsMap',
        v3.DataVolumes containerSpec' = v3.DataVolumes containerSpec ->
        let run' :=
          setupNonRancherVolumes rt config volumes containerSpec'
            hostConfig idsMap' s in
        run'.2 = run.2 /\ run'.1.2 = run.1.2
        /\ match run.1.1, run'.1.1 with
           | Done (_, _, err), Done (_, _, err') => err = err'
           | Panic msg, Panic msg' => msg = msg'
           | _, _ => False
           end).
Proof.
  intros run ids. subst run. cbn zeta.
  pose proof (dataVolumes_outcome (rancherManagedVolumeNames rt volumes)
                (v3.DataVolumes containerSpec) (∅, []) s) as Hloop.
  split; [|split].
  - rewrite setupNonRancherVolumes_runs.
    destruct (foldM _ (v3.DataVolumes containerSpec) (∅, []) s)
      as [[[[volumesMap binds]|msg] s1] t1].
    + intros _.
      destruct (activateVolumes_done volumes s1) as (err & s' & evs & ->).
      cbn. eauto.
    + cbn [fst snd]. intros Hno. destruct Hloop as (root & e & Hin).
      exfalso. exact (Hno root e Hin).
  - intros config' hostConfig' err.
    rewrite setupNonRancherVolumes_runs. fold ids.
    destruct (foldM _ (v3.DataVolumes containerSpec) (∅, []) s)
      as [[[[volumesMap binds]|msg] s1] t1]; [|cbn [fst snd]; discriminate].
    destruct (activateVolumes_done volumes s1) as (err0 & s' & evs & ->).
    cbn [fst snd]. intros [= <- <- <-].
    destruct ids; reflexivity.
  - intros containerSpec' idsMap' Hdv.
    rewrite !setupNonRancherVolumes_runs. rewrite Hdv.
    destruct (foldM _ (v3.DataVolumes containerSpec) (∅, []) s)
      as [[[[volumesMap binds]|msg] s1] t1]; [|cbn; auto].
    destruct (activateVolumes_done volumes s1) as (err0 & s' & evs & ->).
    cbn. auto.
Qed.






End Volumes.



(** Three references, of which [idsMap] resolves the first and the last. *)
Lemma setupNonRancherVolumes_volumesFrom_witness :
  let idsMap : gmap string string := {[ "a" := "id-a"; "c" := "id-c" ]} in
  let containerSpec := mkSpec uuid1 "web" "" [] ["a"; "b"; "c"] [] in
  exists config' hostConfig' err,
    (setupNonRancherVolumes scripted zeroConfig [] containerSpec
       zeroHostConfig idsMap (fresh happy)).1.1
    = Done (config', hostConfig', err)
    /\ container.VolumesFrom hostConfig' = ["id-a"; "id-c"].
Proof.
  intros idsMap containerSpec.
  destruct (setupNonRancherVolumes_volumesFrom scripted zeroConfig []
              containerSpec zeroHostConfig idsMap (fresh happy))
    as (Hret & H & _).
  destruct Hret as [[[config' hostConfig'] err] Hrun].
  { intros root e Hin. vm_compute in Hin. exact Hin. }
  exists config', hostConfig', err. split; [exact Hrun|].
  rewrite (H config' hostConfig' err Hrun). vm_compute. reflexivity.
Defined.

(** C8 as stated fails: when no reference resolves, the volumes-from list is
    not set to the (empty) list of the resolved identifiers; the entries
    that the host configuration had are left in place. *)
Lemma setupNonRancherVolumes_volumesFrom_kept :
  let idsMap : gmap string string := {[ "c" := "id-c" ]} in
  let containerSpec := mkSpec uuid1 "web" "" [] ["a"; "b"] [] in
  let hostConfig := setVolumesFrom zeroHostConfig ["id-old"] in
  resolved (v3.DataVolumesFrom containerSpec) idsMap = []
  /\ match (setupNonRancherVolumes scripted zeroConfig [] containerSpec
              hostConfig idsMap (fresh happy)).1.1 with
     | Done (_, hostConfig', err) =>
         container.VolumesFrom hostConfig' = ["id-old"] /\ err = None
     | Panic _ => False
     end.
Proof. vm_compute. auto. Qed.

(** ** Create and start *)

Section Orchestrator.
Context {W : Type} (rt : Runtime W).

Lemma Split_length s sep : length (Split s sep) <> 0%nat.
Proof.
  induction s as [|c s IH]; cbn [Split]; [discriminate|].
  destruct (Ascii.eqb c sep); [discriminate|].
  destruct (Split s sep); discriminate.
Qed.

(** *** The events of each part *)

Lemma emits_ret {A} P (a : A) : emits P (@ret W A a).
Proof. intros s. constructor. Qed.

Lemma emits_panic {A} P msg : emits P (@panic W A msg).
Proof. intros s. constructor. Qed.

Lemma emits_bind {A B} P (m : M W A) (f : A -> M W B) :
  emits P m -> (forall a, emits P (f a)) -> emits P (bind m f).
Proof.
  intros Hm Hf s. unfold bind. specialize (Hm s).
  destruct (m s) as [[[a|msg] s1] t1]; cbn [snd] in *; [|exact Hm].
  specialize (Hf a s1). destruct (f a s1) as [[o s2] t2]. cbn [snd] in *.
  apply Forall_app. split; assumption.
Qed.

Lemma emits_call {A} P (f : W -> A * W) (ev : A -> event) :
  (forall a, P (ev a) = true) -> emits P (call f ev).
Proof.
  intros Hev s. unfold call. destruct (f (world s)) as [a w]. cbn [snd].
  constructor; [apply Hev|constructor].
Qed.

Lemma emits_weaken {A} (P Q : event -> bool) (m : M W A) :
  (forall e, P e = true -> Q e = true) -> emits P m -> emits Q m.
Proof.
  intros HPQ Hm s. eapply Forall_impl; [apply Hm|]. exact HPQ.
Qed.

Lemma emits_foldM {A B} P (f : A -> B -> M W A) (l : list B) :
  (forall a b, emits P (f a b)) -> forall a, emits P (foldM f l a).
Proof.
  intros Hf. induction l as [|b l IH]; intros a; cbn [foldM].
  - apply emits_ret.
  - apply emits_bind; [apply Hf|exact IH].
Qed.

(** Walks through a computation made of calls, binds and case
    distinctions. *)
Ltac emits_auto :=
  repeat first
    [ apply emits_ret
    | apply emits_panic
    | apply emits_call; intros; reflexivity
    | apply emits_bind; [|intros]
    | match goal with
      | |- emits _ (match ?x with _ => _ end) => destruct x
      end ].

Lemma emits_getDockerRoot : emits isTranslation (getDockerRoot rt).
Proof.
  intros s. unfold getDockerRoot. destruct (dockerRootOnce s).
  - constructor.
  - destruct (r_Info rt (world s)) as [[rootDir [e|]] w]; cbn [snd];
      repeat constructor.
Qed.

Lemma emits_activateVolumes volumes :
  emits isTranslation (activateVolumes rt volumes).
Proof.
  induction volumes as [|volume volumes IH]; cbn [activateVolumes].
  - apply emits_ret.
  - unfold IsVolumeActive, DoVolumeActivate.
    destruct (negb (r_IsRancherVolume rt volume)); [|exact IH].
    apply emits_bind; [apply emits_call; reflexivity|].
    intros [ok err]. destruct (negb ok && isNil err).
    + apply emits_bind; [apply emits_call; reflexivity|].
      intros [e|]; [apply emits_ret|exact IH].
    + destruct err; [apply emits_ret|exact IH].
Qed.

Lemma emits_setupNonRancherVolumes config volumes containerSpec hostConfig
  idsMap :
  emits isTranslation
    (setupNonRancherVolumes rt config volumes containerSpec hostConfig
       idsMap).
Proof.
  unfold setupNonRancherVolumes. apply emits_bind.
  - apply emits_foldM. intros [volumesMap binds] volume.
    unfold dataVolumeStep. cbv zeta.
    destruct (SplitN volume ":" 3) as [|p0 [|p1 rest]];
      [apply emits_panic| |];
      (destruct (decide (p0 ∈ rancherManagedVolumeNames rt volumes));
       [apply emits_ret|]); [apply emits_ret|].
    destruct (String.eqb p0 varLibDocker && String.eqb p1 varLibDocker);
      [|apply emits_ret].
    apply emits_bind; [apply emits_getDockerRoot|].
    intros root. destruct (negb (String.eqb root varLibDocker));
      apply emits_ret.
  - intros [volumesMap binds].
    apply emits_bind; [apply emits_activateVolumes|].
    intros err. apply emits_ret.
Qed.

Lemma emits_setupContainerSpec containerSpec volumes networkKind
  rancherBindMounts idsMap :
  emits isTranslation
    (setupContainerSpec rt containerSpec volumes networkKind
       rancherBindMounts idsMap).
Proof.
  unfold setupContainerSpec. cbv zeta.
  destruct (initializeMaps _ _) as [config0 hostConfig0].
  destruct (r_setupDNSSearch rt _ containerSpec) as [hostConfig1 [e|]];
    [apply emits_ret|].
  destruct (setupPorts _ containerSpec hostConfig1) as [config2 hostConfig2].
  apply emits_bind; [apply emits_setupNonRancherVolumes|].
  intros [[config3 hostConfig3] [e|]]; [apply emits_ret|].
  destruct (r_setupNetworking rt containerSpec config3 hostConfig3 idsMap
              networkKind) as [[config4 hostConfig4] [e|]];
    apply emits_ret.
Qed.

Lemma emits_createContainer config hostConfig containerSpec credential name :
  emits isCreation
    (createContainer rt config hostConfig containerSpec credential name).
Proof.
  unfold createContainer, createWithRetry, DoInstancePull, ImagePull,
    dockerContainerCreate. cbv zeta.
  emits_auto.
Qed.

Lemma emits_resolveContainer containerSpec credentials spec name containerID :
  emits isReconcile
    (resolveContainer rt containerSpec credentials spec name containerID).
Proof.
  unfold resolveContainer, FindContainer. cbv zeta.
  destruct (String.eqb containerID ""); [|apply emits_ret].
  apply emits_bind.
  - eapply emits_weaken; [|apply emits_createContainer].
    intros [] H; (reflexivity || discriminate H).
  - intros. emits_auto.
Qed.

Lemma emits_startContainer containerID created :
  emits isReconcile (startContainer rt containerID created).
Proof.
  unfold startContainer, Serialize, clientContainerStart, RemoveContainer.
  emits_auto.
Qed.

Lemma emits_reconcile containerSpec volumes networkKind credentials idsMap
  name rancherBindMounts :
  emits isReconcile
    (reconcile rt containerSpec volumes networkKind credentials idsMap name
       rancherBindMounts).
Proof.
  unfold reconcile, FindContainer.
  apply emits_bind.
  - eapply emits_weaken; [|apply emits_setupContainerSpec].
    intros [] H; (reflexivity || discriminate H).
  - intros [spec [e|]]; [apply emits_ret|].
    apply emits_bind; [apply emits_call; reflexivity|].
    intros [containerID err].
    destruct (errWhen err _); [apply emits_ret|].
    apply emits_bind; [apply emits_resolveContainer|].
    intros [e|[cid created]]; [apply emits_ret|apply emits_startContainer].
Qed.

(** *** The runs of each part *)

Lemma count_emits (P Q : event -> bool) (evs : list event) :
  Forall (fun e => P e = true) evs ->
  (forall e, P e = true -> Q e = false) ->
  count Q evs = 0%nat.
Proof.
  intros Hall HPQ. unfold count.
  induction Hall as [|e evs He _ IH]; [reflexivity|].
  cbn [List.filter]. rewrite (HPQ e He). exact IH.
Qed.

Lemma emits_not_in (P : event -> bool) (evs : list event) e :
  Forall (fun e => P e = true) evs -> P e = false -> ~ In e evs.
Proof.
  intros Hall HP Hin. rewrite List.Forall_forall in Hall.
  specialize (Hall e Hin). congruence.
Qed.

(** The start call, then the removal of a container that this call
    created and that did not start. *)
Lemma startContainer_runs containerID created (s : process W) :
  exists o s' serr post,
    startContainer rt containerID created s
      = (Done o, s', EvStart containerID serr :: post)
    /\ match serr with
       | None => o = (true, (containerID, None)) /\ post = []
       | Some se =>
           if created then
             exists rerr,
               post = [EvRemove containerID rerr]
               /\ o = (false,
                       ("", Some match rerr with
                                 | Some re =>
                                     Wrap re
                                       ("failed to remove container: failed to start: "
                                        +:+ Error se)
                                 | None => Wrap se "failed to start container"
                                 end))
           else
             post = []
             /\ o = (false, ("", Some (Wrap se "failed to start container")))
       end.
Proof.
  unfold startContainer, Serialize, clientContainerStart, RemoveContainer,
    bind, call, ret.
  destruct (r_ContainerStart rt containerID (world s)) as [[se|] w1].
  - destruct created.
    + cbn [world dockerRootOnce dockerRoot].
      destruct (r_RemoveContainer rt containerID w1) as [[re|] w2];
        do 4 eexists; (split; [reflexivity|]); cbn beta iota; eauto.
    + do 4 eexists. split; [reflexivity|]. cbn beta iota. auto.
  - do 4 eexists. split; [reflexivity|]. cbn beta iota. auto.
Qed.

(** Lines 74 to 98: a container found by the first lookup is adopted as it
    is; otherwise the container is created, and when the create call reports
    that the name is in use, or answers no identifier, the container is
    looked up again, the lookup being forced. *)
Lemma resolveContainer_runs containerSpec credentials spec name containerID
  (s : process W) :
  let credential :=
    selectCredential credentials (v3.RegistryCredentialId containerSpec) in
  exists o s' evs,
    resolveContainer rt containerSpec credentials spec name containerID s
      = (Done o, s', evs)
    /\ ((containerID <> "" /\ o = inr (containerID, false) /\ evs = [])
        \/ (containerID = ""
            /\ exists s1 newID cerr cevs,
                 createContainer rt (config spec) (hostConfig spec)
                   containerSpec credential name s
                   = (Done (newID, cerr), s1, cevs)
                 /\ match errWhen cerr
                            (fun e => negb (Contains (Error e) nameInuseError))
                    with
                    | Some e =>
                        o = inl (Wrap e "failed to create container")
                        /\ evs = cevs
                    | None =>
                        if String.eqb newID "" then
                          exists cid ferr,
                            evs = cevs
                                  ++ [EvFindContainer containerSpec true cid
                                        ferr]
                            /\ o = match errWhen ferr
                                           (fun e =>
                                              negb (r_IsContainerNotFoundError
                                                      rt e))
                                   with
                                   | Some fe =>
                                       inl (Wrap fe "failed to get container")
                                   | None => inr (cid, true)
                                   end
                        else o = inr (newID, true) /\ evs = cevs
                    end)).
Proof.
  intros credential. unfold resolveContainer. fold credential.
  destruct (String.eqb_spec containerID "") as [->|Hne].
  - unfold bind at 1.
    destruct (createContainer_runs rt (config spec) (hostConfig spec)
                containerSpec credential name s)
      as (s1 & [newID cerr] & cevs & Hrun & _).
    rewrite Hrun.
    destruct (errWhen cerr _) as [e|] eqn:Hfatal.
    + unfold ret. do 3 eexists. split; [reflexivity|]. right.
      split; [reflexivity|]. exists s1, newID, cerr, cevs.
      split; [reflexivity|]. rewrite Hfatal. rewrite app_nil_r. auto.
    + destruct (String.eqb newID "") eqn:Hnew.
      * unfold FindContainer, bind, call.
        destruct (r_FindContainer rt containerSpec true (world s1))
          as [[cid ferr] w2]. cbn [fst snd].
        destruct (errWhen ferr _) as [fe|] eqn:Hlookup; unfold ret;
          do 3 eexists; (split; [reflexivity|]); right;
          (split; [reflexivity|]); exists s1, newID, cerr, cevs;
          (split; [reflexivity|]); rewrite Hfatal, Hnew;
          exists cid, ferr; rewrite Hlookup; auto.
      * unfold ret. do 3 eexists. split; [reflexivity|]. right.
        split; [reflexivity|]. exists s1, newID, cerr, cevs.
        split; [reflexivity|]. rewrite Hfatal, Hnew. rewrite app_nil_r. auto.
  - unfold ret. do 3 eexists. split; [reflexivity|]. left. auto.
Qed.

(** The flag [started] is set exactly on the path that returns no error. *)
Lemma reconcile_started containerSpec volumes networkKind credentials idsMap
  name rancherBindMounts (s s' : process W) started id err evs :
  reconcile rt containerSpec volumes networkKind credentials idsMap name
    rancherBindMounts s = (Done (started, (id, err)), s', evs) ->
  if started then err = None else id = "" /\ err <> None.
Proof.
  unfold reconcile. unfold bind at 1.
  destruct (setupContainerSpec rt _ _ _ _ _ s) as [[[[spec [e|]]|msg] s1] t1];
    [unfold ret; intros H; simplify_eq; split; [reflexivity|discriminate]
    | |discriminate].
  unfold bind at 1. unfold FindContainer at 1, call.
  destruct (r_FindContainer rt containerSpec false (world s1))
    as [[containerID ferr] w2]. cbn [fst snd].
  destruct (errWhen ferr _) as [fe|];
    [unfold ret; intros H; simplify_eq; split; [reflexivity|discriminate]|].
  unfold bind at 1.
  match goal with
  | |- context [resolveContainer rt ?a ?b ?c ?d ?e ?st] =>
      destruct (resolveContainer_runs a b c d e st)
        as (o & s2 & t2 & Hres & _); rewrite Hres
  end.
  destruct o as [e|[cid created]].
  - unfold ret. intros H. simplify_eq. split; [reflexivity|discriminate].
  - destruct (startContainer_runs cid created s2)
      as (o & s3 & serr & post & Hstart & Hcases).
    rewrite Hstart. intros H. simplify_eq.
    destruct serr as [se|].
    + destruct created.
      * destruct Hcases as (rerr & _ & H). simplify_eq.
        split; [reflexivity|discriminate].
      * destruct Hcases as (_ & H). simplify_eq.
        split; [reflexivity|discriminate].
    + destruct Hcases as (H & _). simplify_eq. reflexivity.
Qed.

(** [ContainerStart], part by part: the managed volumes are set up; when
    that has succeeded lines 64 to 114 run, and the managed volumes are
    unmounted unless the flag [started] is set. *)
Lemma ContainerStart_runs containerSpec volumes networkKind credentials
  idsMap (s : process W) :
  ContainerStart rt containerSpec volumes networkKind credentials idsMap s
  = match r_setupRancherFlexVolume rt volumes (v3.DataVolumes containerSpec)
            (world s) with
    | (rancherBindMounts, Some e, w) =>
        (Done ("", Some (Wrap e "failed to set up rancher flex volumes")),
         {| world := w; dockerRootOnce := dockerRootOnce s;
            dockerRoot := dockerRoot s |},
         [EvSetupFlex volumes (v3.DataVolumes containerSpec)
            rancherBindMounts (Some e)])
    | (rancherBindMounts, None, w) =>
        let flex :=
          EvSetupFlex volumes (v3.DataVolumes containerSpec)
            rancherBindMounts None in
        let unmounted (s2 : process W) :=
          {| world := r_unmountRancherFlexVolume rt volumes (world s2);
             dockerRootOnce := dockerRootOnce s2;
             dockerRoot := dockerRoot s2 |} in
        match reconcile rt containerSpec volumes networkKind credentials
                idsMap
                (containerName rt containerSpec
                   (Split (v3.Uuid containerSpec) "-"))
                rancherBindMounts
                {| world := w; dockerRootOnce := dockerRootOnce s;
                   dockerRoot := dockerRoot s |} with
        | (Done (true, r), s2, t2) => (Done r, s2, flex :: t2)
        | (Done (false, r), s2, t2) =>
            (Done r, unmounted s2, flex :: t2 ++ [EvUnmountFlex volumes])
        | (Panic msg, s2, t2) =>
            (Panic msg, unmounted s2, flex :: t2 ++ [EvUnmountFlex volumes])
        end
    end.
Proof.
  unfold ContainerStart. cbv zeta.
  destruct (Nat.eqb_spec (length (Split (v3.Uuid containerSpec) "-")) 0)
    as [Hlen|_]; [destruct (Split_length _ _ Hlen)|].
  unfold bind at 1. unfold setupRancherFlexVolume at 1, call.
  destruct (r_setupRancherFlexVolume rt volumes
              (v3.DataVolumes containerSpec) (world s))
    as [[rancherBindMounts [e|]] w1]; cbn [fst snd]; [reflexivity|].
  unfold defer.
  destruct (reconcile rt _ _ _ _ _ _ _ _)
    as [[[[[|] r]|msg] s2] t2]; cbn [negb];
    unfold unmountRancherFlexVolume, call, ret; cbn [app];
    rewrite ?app_nil_r; reflexivity.
Qed.

(** C7, as amended.  When [setupRancherFlexVolume] fails, [ContainerStart]
    returns its error and the unwind [unmountRancherFlexVolume] is not
    invoked.  When it has succeeded, every execution that does not reach
    the started state, whether it returns an error or panics and whichever
    later step failed, invokes [unmountRancherFlexVolume(volumes)] exactly
    once, as the last call before returning; on the success path
    (identifier returned, no error) the unwind is not invoked. *)
Theorem ContainerStart_unwind containerSpec volumes networkKind credentials
  idsMap (s : process W) :
  let run :=
    ContainerStart rt containerSpec volumes networkKind credentials idsMap s in
  match run.2 with
  | EvSetupFlex _ _ _ None :: _ =>
      match run.1.1 with
      | Done (_, None) => count isUnmountFlex run.2 = 0%nat
      | _ =>
          exists pre,
            run.2 = pre ++ [EvUnmountFlex volumes]
            /\ count isUnmountFlex pre = 0%nat
      end
  | _ =>
      (exists e, run.1.1 = Done ("", Some e))
      /\ count isUnmountFlex run.2 = 0%nat
  end.
Proof.
  intros run. subst run. rewrite ContainerStart_runs.
  destruct (r_setupRancherFlexVolume rt volumes
              (v3.DataVolumes containerSpec) (world s))
    as [[rancherBindMounts [e|]] w1].
  { cbn. split; [eexists; reflexivity|reflexivity]. }
  cbv zeta.
  match goal with
  | |- context [reconcile rt ?a ?b ?c ?d ?e ?f ?g ?st] =>
      pose proof (emits_reconcile a b c d e f g st) as Hev;
      pose proof (reconcile_started a b c d e f g st) as Hst;
      destruct (reconcile rt a b c d e f g st)
        as [[[[started [id err]]|msg] s2] t2]
  end; cbn [fst snd] in *.
  - specialize (Hst s2 started id err t2 eq_refl).
    assert (Hcount : count isUnmountFlex t2 = 0%nat).
    { apply (count_emits isReconcile); [exact Hev|].
      intros [] H; (reflexivity || discriminate H). }
    destruct started; cbn [fst snd].
    + subst err. exact Hcount.
    + destruct Hst as [-> Herr]. destruct err as [e|]; [|contradiction].
      exists (EvSetupFlex volumes (v3.DataVolumes containerSpec)
                rancherBindMounts None :: t2).
      split; [reflexivity|]. exact Hcount.
  - exists (EvSetupFlex volumes (v3.DataVolumes containerSpec)
              rancherBindMounts None :: t2).
    split; [reflexivity|]. change (count isUnmountFlex t2 = 0%nat).
    apply (count_emits isReconcile); [exact Hev|].
    intros [] H; (reflexivity || discriminate H).
Qed.

(** *** The name-in-use race *)

Lemma Contains_append_r p s sub :
  Contains s sub = true -> Contains (p +:+ s) sub = true.
Proof.
  intros H. induction p as [|c p IH]; [exact H|].
  change (String c p +:+ s) with (String c (p +:+ s)).
  cbn [Contains]. rewrite IH. apply orb_true_r.
Qed.

Lemma Contains_Wrap e msg sub :
  Contains (Error e) sub = true -> Contains (Error (Wrap e msg)) sub = true.
Proof.
  intros H. cbn [Error]. apply Contains_append_r, Contains_append_r. exact H.
Qed.

(** A create call that fails, and not because the image is missing, is the
    last call of [createContainer], which returns its error. *)
Lemma createContainer_failed_create config hostConfig containerSpec
  credential name (s s1 : process W) newID cerr cevs c h n id e :
  createContainer rt config hostConfig containerSpec credential name s
    = (Done (newID, cerr), s1, cevs) ->
  In (EvCreate c h n id (Some e)) cevs ->
  IsErrImageNotFound (Some e) = false ->
  exists pre,
    cevs = pre ++ [EvCreate c h n id (Some e)]
    /\ newID = ""
    /\ cerr = Some (Wrap e "failed to create container").
Proof.
  intros Hrun Hin Hinf.
  destruct (createContainer_runs rt config hostConfig containerSpec
              credential name s) as (s0 & out0 & evs0 & Hrun0 & Hcases).
  rewrite Hrun in Hrun0. simplify_eq.
  destruct Hcases as [(_ & e0 & -> & _)|(s2 & post & -> & Hpost)].
  { destruct Hin as [Hin|[]]. discriminate Hin. }
  set (pre := if String.eqb (index (container.Labels config) PullImageLabels)
                   "always"
              then [EvDoInstancePull
                      {| Tag := ""; Mode := "all"; Complete := false;
                         ImageUUID := v3.Image containerSpec |}
                      credential None]
              else []) in *.
  assert (Hpre : ~ In (EvCreate c h n id (Some e)) pre).
  { subst pre. destruct (String.eqb _ "always");
      [intros [H|[]]; discriminate H|intros []]. }
  apply in_app_or in Hin as [Hin|Hin]; [contradiction|].
  destruct Hpost as [(_ & -> & _)|(_ & Hretry)]; [destruct Hin|].
  destruct (createWithRetry_runs rt
              (setImage config (v3.Image containerSpec)) hostConfig
              containerSpec credential name s2)
    as (s3 & out3 & evs3 & Hrun3 & Hcases).
  rewrite Hretry in Hrun3. simplify_eq.
  destruct Hcases as [(id1 & err1 & Hinf1 & -> & Hout)
                     |[(id1 & err1 & e1 & Hinf1 & -> & Hout)
                      |(id1 & err1 & id2 & err2 & Hinf1 & -> & Hout)]].
  - destruct Hin as [Hin|[]]. simplify_eq. exists pre. auto.
  - destruct Hin as [Hin|[Hin|[]]]; [|discriminate Hin].
    simplify_eq. congruence.
  - destruct Hin as [Hin|[Hin|[Hin|[]]]]; [|discriminate Hin|].
    + simplify_eq. congruence.
    + simplify_eq.
      eexists (pre ++ [_; _]). rewrite <- app_assoc.
      split; [reflexivity|auto].
Qed.

Lemma resolveContainer_name_in_use containerSpec credentials spec name
  containerID (s s' : process W) o evs c h n id e :
  resolveContainer rt containerSpec credentials spec name containerID s
    = (o, s', evs) ->
  In (EvCreate c h n id (Some e)) evs ->
  IsErrImageNotFound (Some e) = false ->
  Contains (Error e) nameInuseError = true ->
  containerID = ""
  /\ exists pre cid ferr,
       evs = pre ++ [EvCreate c h n id (Some e);
                     EvFindContainer containerSpec true cid ferr]
       /\ o = Done match errWhen ferr
                           (fun e => negb (r_IsContainerNotFoundError rt e))
                   with
                   | Some fe => inl (Wrap fe "failed to get container")
                   | None => inr (cid, true)
                   end.
Proof.
  intros Hrun Hin Hinf Hname.
  destruct (resolveContainer_runs containerSpec credentials spec name
              containerID s) as (o0 & s0 & evs0 & Hrun0 & Hcases).
  rewrite Hrun in Hrun0. simplify_eq.
  destruct Hcases as [(_ & _ & ->)|(-> & s1 & newID & cerr & cevs & Hc & Hres)];
    [destruct Hin|].
  split; [reflexivity|].
  assert (Hcevs : In (EvCreate c h n id (Some e)) cevs).
  { destruct (errWhen cerr _) as [e0|].
    - destruct Hres as [_ ->]. exact Hin.
    - destruct (String.eqb newID "").
      + destruct Hres as (cid & ferr & -> & _).
        apply in_app_or in Hin as [Hin|[Hin|[]]]; [exact Hin|discriminate Hin].
      + destruct Hres as [_ ->]. exact Hin. }
  destruct (createContainer_failed_create _ _ _ _ _ _ _ _ _ _ _ _ _ _ _
              Hc Hcevs Hinf) as (pre & -> & -> & ->).
  cbn [errWhen] in Hres. rewrite (Contains_Wrap _ _ _ Hname) in Hres.
  cbn [negb] in Hres. rewrite String.eqb_refl in Hres.
  destruct Hres as (cid & ferr & -> & ->).
  exists pre, cid, ferr. rewrite <- app_assoc. auto.
Qed.

(** Closes a goal in which an event is said to be among events of another
    kind. *)
Ltac absurd_event Hall Hin :=
  exfalso; eapply emits_not_in; [exact Hall| |exact Hin]; reflexivity.

Lemma reconcile_name_in_use containerSpec volumes networkKind credentials
  idsMap name rancherBindMounts (s s' : process W) o evs c h n id e :
  reconcile rt containerSpec volumes networkKind credentials idsMap name
    rancherBindMounts s = (o, s', evs) ->
  In (EvCreate c h n id (Some e)) evs ->
  IsErrImageNotFound (Some e) = false ->
  Contains (Error e) nameInuseError = true ->
  exists pre cid ferr post,
    evs = pre ++ EvCreate c h n id (Some e)
              :: EvFindContainer containerSpec true cid ferr :: post
    /\ (exists ferr0, In (EvFindContainer containerSpec false "" ferr0) pre)
    /\ match errWhen ferr (fun e => negb (r_IsContainerNotFoundError rt e))
       with
       | Some fe =>
           o = Done (false, ("", Some (Wrap fe "failed to get container")))
           /\ post = []
       | None =>
           exists serr post',
             post = EvStart cid serr :: post'
             /\ (serr = None -> o = Done (true, (cid, None)) /\ post' = [])
       end.
Proof.
  intros Hrun Hin Hinf Hname. revert Hrun.
  unfold reconcile. unfold bind at 1.
  pose proof (emits_setupContainerSpec containerSpec volumes networkKind
                rancherBindMounts idsMap s) as Ht1.
  destruct (setupContainerSpec rt _ _ _ _ _ s) as [[[[spec [e0|]]|msg] s1] t1];
    cbn [snd] in Ht1.
  - unfold ret. intros H. simplify_eq. rewrite app_nil_r in Hin.
    absurd_event Ht1 Hin.
  - unfold bind at 1. unfold FindContainer at 1, call.
    destruct (r_FindContainer rt containerSpec false (world s1))
      as [[cid0 ferr0] w2]. cbn [fst snd].
    destruct (errWhen ferr0 _) as [fe0|].
    + unfold ret. intros H. simplify_eq.
      apply in_app_or in Hin as [Hin|[Hin|[]]];
        [absurd_event Ht1 Hin
        |discriminate Hin].
    + unfold bind at 1.
      destruct (resolveContainer rt containerSpec credentials spec name cid0
                  {| world := w2; dockerRootOnce := dockerRootOnce s1;
                     dockerRoot := dockerRoot s1 |})
        as [[o2 s3] t3] eqn:Hres.
      assert (Hfinish : forall rest,
        In (EvCreate c h n id (Some e))
           (t1 ++ EvFindContainer containerSpec false cid0 ferr0
               :: t3 ++ rest) ->
        ~ In (EvCreate c h n id (Some e)) rest ->
        exists pre cid ferr,
          cid0 = ""
          /\ t3 = pre ++ [EvCreate c h n id (Some e);
                          EvFindContainer containerSpec true cid ferr]
          /\ o2 = Done match errWhen ferr
                               (fun e =>
                                  negb (r_IsContainerNotFoundError rt e))
                       with
                       | Some fe => inl (Wrap fe "failed to get container")
                       | None => inr (cid, true)
                       end).
      { intros rest Hin' Hrest.
        apply in_app_or in Hin' as [Hin'|Hin'];
          [absurd_event Ht1 Hin'|].
        destruct Hin' as [Hin'|Hin']; [discriminate Hin'|].
        apply in_app_or in Hin' as [Hin'|Hin']; [|exfalso; auto].
        destruct (resolveContainer_name_in_use _ _ _ _ _ _ _ _ _ _ _ _ _ _
                    Hres Hin' Hinf Hname) as (-> & pre & cid & ferr & -> & ->).
        exists pre, cid, ferr. auto. }
      destruct o2 as [[e2|[cid created]]|msg].
      * unfold ret. intros H. simplify_eq. cbn [app] in Hin.
        destruct (Hfinish [] Hin) as (pre & cid & ferr & -> & -> & Ho);
          [intros []|].
        exists (t1 ++ EvFindContainer containerSpec false "" ferr0 :: pre),
          cid, ferr, [].
        split; [rewrite <- !app_assoc; reflexivity|].
        split; [exists ferr0; apply in_or_app; right; left; reflexivity|].
        destruct (errWhen ferr _) as [fe|]; [|discriminate Ho].
        simplify_eq. auto.
      * destruct (startContainer_runs cid created s3)
          as (o3 & s4 & serr & post & Hstart & Hcases).
        rewrite Hstart. intros H. simplify_eq. cbn [app] in Hin.
        destruct (Hfinish (EvStart cid serr :: post) Hin)
          as (pre & cid' & ferr & -> & -> & Ho).
        { intros [H|H]; [discriminate H|].
          destruct serr as [se|]; [destruct created|].
          - destruct Hcases as (rerr & -> & _).
            destruct H as [H|[]]. discriminate H.
          - destruct Hcases as [-> _]. destruct H.
          - destruct Hcases as [_ ->]. destruct H. }
        exists (t1 ++ EvFindContainer containerSpec false "" ferr0 :: pre),
          cid', ferr, (EvStart cid serr :: post).
        split; [rewrite <- !app_assoc; reflexivity|].
        split; [exists ferr0; apply in_or_app; right; left; reflexivity|].
        destruct (errWhen ferr _) as [fe|]; [discriminate Ho|].
        simplify_eq. exists serr, post. split; [reflexivity|].
        intros ->. destruct Hcases as [-> ->]. auto.
      * intros H. simplify_eq. cbn [app] in Hin.
        rewrite <- (app_nil_r t3) in Hin.
        destruct (Hfinish [] Hin) as (pre & cid & ferr & _ & _ & Ho);
          [intros []|].
        discriminate Ho.
  - intros H. simplify_eq.
    absurd_event Ht1 Hin.
Qed.

(** C3, as amended.  When the engine's create call fails with the
    name-in-use error (so the initial lookup had found no container),
    [ContainerStart] does not return that error: the next call is a forced,
    non-cached lookup of the container.  If that lookup fails with an error
    other than not-found, that error is returned, wrapped, after the unwind
    of the managed volumes; otherwise the identifier it found is the one
    that is started, and when the start succeeds that identifier is
    returned with no error. *)
Theorem ContainerStart_name_in_use containerSpec volumes networkKind
  credentials idsMap (s s' : process W) out evs c h n id e :
  ContainerStart rt containerSpec volumes networkKind credentials idsMap s
    = (out, s', evs) ->
  In (EvCreate c h n id (Some e)) evs ->
  IsErrImageNotFound (Some e) = false ->
  Contains (Error e) nameInuseError = true ->
  exists pre cid ferr post,
    evs = pre ++ EvCreate c h n id (Some e)
              :: EvFindContainer containerSpec true cid ferr :: post
    /\ (exists ferr0, In (EvFindContainer containerSpec false "" ferr0) pre)
    /\ match errWhen ferr (fun e => negb (r_IsContainerNotFoundError rt e))
       with
       | Some fe =>
           out = Done ("", Some (Wrap fe "failed to get container"))
           /\ post = [EvUnmountFlex volumes]
       | None =>
           exists serr post',
             post = EvStart cid serr :: post'
             /\ (serr = None -> out = Done (cid, None) /\ post' = [])
       end.
Proof.
  intros Hrun Hin Hinf Hname. rewrite ContainerStart_runs in Hrun.
  destruct (r_setupRancherFlexVolume rt volumes
              (v3.DataVolumes containerSpec) (world s))
    as [[rancherBindMounts [e0|]] w1].
  { simplify_eq. destruct Hin as [Hin|[]]. discriminate Hin. }
  cbv zeta in Hrun.
  destruct (reconcile rt _ _ _ _ _ _ _ _) as [[o2 s2] t2] eqn:Hrec.
  assert (Hin2 : In (EvCreate c h n id (Some e)) t2).
  { destruct o2 as [[[|] r]|msg]; simplify_eq;
      (destruct Hin as [Hin|Hin]; [discriminate Hin|]); [exact Hin| |];
      (apply in_app_or in Hin as [Hin|[Hin|[]]];
       [exact Hin|discriminate Hin]). }
  destruct (reconcile_name_in_use _ _ _ _ _ _ _ _ _ _ _ _ _ _ _ _
              Hrec Hin2 Hinf Hname)
    as (pre & cid & ferr & post & -> & (ferr0 & Hfirst) & Hcases).
  set (flex := EvSetupFlex volumes (v3.DataVolumes containerSpec)
                 rancherBindMounts None) in *.
  assert (Hpre : exists ferr0,
             In (EvFindContainer containerSpec false "" ferr0) (flex :: pre)).
  { exists ferr0. right. exact Hfirst. }
  destruct (errWhen ferr (fun e => negb (r_IsContainerNotFoundError rt e)))
    as [fe|] eqn:Hlook.
  - destruct Hcases as [-> ->]. simplify_eq.
    exists (flex :: pre), cid, ferr, [EvUnmountFlex volumes].
    split; [cbn [app]; rewrite <- app_assoc; reflexivity|].
    split; [exact Hpre|]. rewrite Hlook. auto.
  - destruct Hcases as (serr & post' & -> & Hok).
    destruct o2 as [[[|] r]|msg]; simplify_eq.
    + exists (flex :: pre), cid, ferr, (EvStart cid serr :: post').
      split; [reflexivity|]. split; [exact Hpre|]. rewrite Hlook.
      exists serr, post'. split; [reflexivity|].
      intros Hs. destruct (Hok Hs) as [H ->]. simplify_eq. auto.
    + exists (flex :: pre), cid, ferr,
        (EvStart cid serr :: post' ++ [EvUnmountFlex volumes]).
      split; [cbn [app]; rewrite <- app_assoc; reflexivity|].
      split; [exact Hpre|]. rewrite Hlook.
      exists serr, (post' ++ [EvUnmountFlex volumes]).
      split; [reflexivity|].
      intros Hs. destruct (Hok Hs) as [H _]. discriminate H.
    + exists (flex :: pre), cid, ferr,
        (EvStart cid serr :: post' ++ [EvUnmountFlex volumes]).
      split; [cbn [app]; rewrite <- app_assoc; reflexivity|].
      split; [exact Hpre|]. rewrite Hlook.
      exists serr, (post' ++ [EvUnmountFlex volumes]).
      split; [reflexivity|].
      intros Hs. destruct (Hok Hs) as [H _]. discriminate H.
Qed.

End Orchestrator.

(** ** Runs on the scripted engine *)

Definition webSpec : v3.Container := specOf uuid1 "web" "".

(** What the translation step makes of [webSpec]. *)
Definition webEngineSpec : dockerContainerSpec :=
  match (setupContainerSpec scripted webSpec [] "" [] ∅ (fresh happy)).1.1 with
  | Done (spec, _) => spec
  | Panic _ => {| config := zeroConfig; hostConfig := zeroHostConfig |}
  end.

(** The answer of the engine to a create call that lost the race for the
    name. *)
Definition inUse : error :=
  EngineError OtherKind
    ("Conflict. The container name is already in use. " +:+ nameInuseError).

(** No container at the first lookup, the name taken at the create call, the
    container [c0] at the forced lookup; [start] is the answer to the start
    call and [forced] that of the forced lookup. *)
Definition race (forced : string * option error) (start : option error)
  : Script :=
  {| s_findCached := ("", Some (EngineError ContainerNotFound "not found"));
     s_findForced := forced;
     s_creates := [("", Some inUse)];
     s_doInstancePull := None;
     s_imagePull := None;
     s_start := start;
     s_remove := None;
     s_inspect := s_inspect happy;
     s_info := s_info happy;
     s_flex := s_flex happy;
     s_volumeActive := s_volumeActive happy;
     s_activate := None |}.

(** The race for the name, lost, and the container of the winner started. *)
Lemma ContainerStart_name_in_use_witness :
  let run := ContainerStart scripted webSpec [] "" [] ∅
               (fresh (race ("c0", None) None)) in
  exists pre cid ferr post,
    run.2 = pre ++ EvCreate (setImage (config webEngineSpec)
                               (v3.Image webSpec))
                     (hostConfig webEngineSpec) ("r-" +:+ uuid1) ""
                     (Some inUse)
                :: EvFindContainer webSpec true cid ferr :: post
    /\ (exists ferr0, In (EvFindContainer webSpec false "" ferr0) pre)
    /\ match errWhen ferr
               (fun e => negb (r_IsContainerNotFoundError scripted e)) with
       | Some fe =>
           run.1.1 = Done ("", Some (Wrap fe "failed to get container"))
           /\ post = [EvUnmountFlex []]
       | None =>
           exists serr post',
             post = EvStart cid serr :: post'
             /\ (serr = None -> run.1.1 = Done (cid, None) /\ post' = [])
       end.
Proof.
  intros run.
  apply (ContainerStart_name_in_use scripted webSpec [] "" [] ∅
           (fresh (race ("c0", None) None)) run.1.2 run.1.1 run.2).
  - vm_compute. reflexivity.
  - vm_compute. right. right. left. reflexivity.
  - vm_compute. reflexivity.
  - vm_compute. reflexivity.
Defined.

(** C3 as stated fails: after a name-in-use error the operation fails when
    the forced lookup fails with an error other than not-found. *)
Lemma ContainerStart_name_in_use_lookup_failure :
  let forcedErr := EngineError OtherKind "connection refused" in
  let run := ContainerStart scripted webSpec [] "" [] ∅
               (fresh (race ("", Some forcedErr) None)) in
  (exists c h n, List.filter isCreate run.2 = [EvCreate c h n "" (Some inUse)])
  /\ Contains (Error inUse) nameInuseError = true
  /\ In (EvFindContainer webSpec false ""
           (Some (EngineError ContainerNotFound "not found"))) run.2
  /\ In (EvFindContainer webSpec true "" (Some forcedErr)) run.2
  /\ run.1.1 = Done ("", Some (Wrap forcedErr "failed to get container")).
Proof.
  vm_compute. split; [do 3 eexists; reflexivity|].
  split; [reflexivity|]. split; [right; left; reflexivity|].
  split; [do 3 right; left; reflexivity|reflexivity].
Qed.

(** C1: the code removes a container that it adopted after a name-in-use
    race.  The first lookup finds no container, the create call fails
    because the name is in use, the forced lookup finds [c0], created by
    another reconciliation, and the start call fails: [c0] is removed. *)
Theorem ContainerStart_removes_adopted_container :
  let startErr := EngineError OtherKind "cannot start container" in
  let run := ContainerStart scripted webSpec [] "" [] ∅
               (fresh (race ("c0", None) (Some startErr))) in
  (exists c h n, List.filter isCreate run.2 = [EvCreate c h n "" (Some inUse)])
  /\ In (EvFindContainer webSpec true "c0" None) run.2
  /\ In (EvStart "c0" (Some startErr)) run.2
  /\ List.filter isRemove run.2 = [EvRemove "c0" None]
  /\ run.1.1 = Done ("", Some (Wrap startErr "failed to start container")).
Proof.
  vm_compute. split; [do 3 eexists; reflexivity|].
  split; [do 3 right; left; reflexivity|].
  split; [do 4 right; left; reflexivity|]. split; reflexivity.
Qed.

(** C6: the code never rejects a uuid.  [strings.Split] always returns at
    least one part, so the test [len(parts) == 0] never holds: for every
    specification, also one whose uuid is not a uuid, [ContainerStart] goes
    on to its first call, the set-up of the managed volumes; on the scripted
    engine the container of such a specification is created, under the name
    [r-not a uuid], and started. *)
Theorem ContainerStart_accepts_malformed_uuid :
  (forall W (rt : Runtime W) containerSpec volumes networkKind credentials
          idsMap s,
     length (Split (v3.Uuid containerSpec) "-") <> 0%nat
     /\ exists binds err rest,
          (ContainerStart rt containerSpec volumes networkKind credentials
             idsMap s).2
          = EvSetupFlex volumes (v3.DataVolumes containerSpec) binds err
            :: rest)
  /\ let run := ContainerStart scripted (specOf "not a uuid" "web" "") []
                  "" [] ∅ (fresh happy) in
     run.1.1 = Done ("c1", None)
     /\ exists c h, List.filter isCreate run.2
                    = [EvCreate c h "r-not a uuid" "c1" None].
Proof.
  split.
  - intros W rt containerSpec volumes networkKind credentials idsMap s.
    split; [apply Split_length|].
    rewrite ContainerStart_runs.
    destruct (r_setupRancherFlexVolume rt volumes
                (v3.DataVolumes containerSpec) (world s))
      as [[binds [e|]] w]; [do 3 eexists; reflexivity|].
    cbv zeta. destruct (reconcile rt _ _ _ _ _ _ _ _)
      as [[[[[|] r]|msg] s2] t2]; do 3 eexists; reflexivity.
  - vm_compute. split; [reflexivity|do 2 eexists; reflexivity].
Qed.

(** C7 as stated fails: when the set-up of the managed volumes fails,
    [ContainerStart] returns an error and the unwind is not invoked. *)
Lemma ContainerStart_no_unwind_after_flex_failure :
  let flexErr := EngineError OtherKind "mount failed" in
  let w :=
    {| s_findCached := s_findCached happy;
       s_findForced := s_findForced happy;
       s_creates := s_creates happy;
       s_doInstancePull := None;
       s_imagePull := None;
       s_start := None;
       s_remove := None;
       s_inspect := s_inspect happy;
       s_info := s_info happy;
       s_flex := ([], Some flexErr);
       s_volumeActive := s_volumeActive happy;
       s_activate := None |} in
  let run := ContainerStart scripted webSpec [] "" [] ∅ (fresh w) in
  run.1.1 = Done ("", Some (Wrap flexErr
                              "failed to set up rancher flex volumes"))
  /\ run.2 = [EvSetupFlex [] [] [] (Some flexErr)]
  /\ count isUnmountFlex run.2 = 0%nat.
Proof. vm_compute. auto. Qed.

(** The unwind after a start call that fails, on a container that this call
    created: the container is removed, then the managed volumes are
    unmounted. *)
Lemma ContainerStart_unwind_witness :
  let startErr := EngineError OtherKind "cannot start container" in
  let w :=
    {| s_findCached := s_findCached happy;
       s_findForced := s_findForced happy;
       s_creates := s_creates happy;
       s_doInstancePull := None;
       s_imagePull := None;
       s_start := Some startErr;
       s_remove := None;
       s_inspect := s_inspect happy;
       s_info := s_info happy;
       s_flex := s_flex happy;
       s_volumeActive := s_volumeActive happy;
       s_activate := None |} in
  let run := ContainerStart scripted webSpec [] "" [] ∅ (fresh w) in
  exists pre,
    run.2 = pre ++ [EvUnmountFlex []] /\ count isUnmountFlex pre = 0%nat.
Proof.
  intros startErr w run.
  pose proof (ContainerStart_unwind scripted webSpec [] "" [] ∅ (fresh w))
    as H.
  cbv zeta in H. fold run in H.
  destruct run as [[o s] t] eqn:Hrun. cbn [fst snd] in *.
  vm_compute in Hrun. injection Hrun as <- <- <-. exact H.
Defined.

(** ** Further properties of the translation *)

Section Translation.
Context {W : Type} (rt : Runtime W).

Lemma hd_Split s sep :
  hd "" (Split s sep)
  = match cut sep s with
    | Some (a, _) => a
    | None => s
    end.
Proof.
  induction s as [|c s IH]; cbn [Split cut]; [reflexivity|].
  destruct (Ascii.eqb c sep); [reflexivity|].
  pose proof (Split_length s sep) as Hne.
  destruct (Split s sep) as [|p ps]; [contradiction|].
  cbn [hd] in *. rewrite IH. destruct (cut sep s) as [[a b]|]; reflexivity.
Qed.

Lemma cut_prefix sep s a b :
  cut sep s = Some (a, b) ->
  s = a +:+ String sep b /\ Contains a (String sep "") = false.
Proof.
  revert a b. induction s as [|c s IH]; intros a b; cbn [cut]; [discriminate|].
  destruct (Ascii.eqb_spec c sep) as [->|Hne].
  - intros [= <- <-]. auto.
  - destruct (cut sep s) as [[a' b']|]; [|discriminate].
    intros [= <- <-]. destruct (IH a' b' eq_refl) as [-> Hno].
    split; [reflexivity|].
    cbn [Contains String.prefix]. rewrite Hno.
    destruct (ascii_dec sep c) as [->|_]; [contradiction|reflexivity].
Qed.

Lemma cut_none sep s : cut sep s = None -> Contains s (String sep "") = false.
Proof.
  induction s as [|c s IH]; cbn [cut]; [reflexivity|].
  destruct (Ascii.eqb_spec c sep) as [->|Hne]; [discriminate|].
  destruct (cut sep s) as [[a b]|]; [discriminate|].
  intros _. cbn [Contains String.prefix]. rewrite (IH eq_refl).
  destruct (ascii_dec sep c) as [->|_]; [contradiction|reflexivity].
Qed.

Lemma prefix_append p s : String.prefix p (p +:+ s) = true.
Proof.
  induction p as [|c p IH].
  - destruct s; reflexivity.
  - change (String c p +:+ s) with (String c (p +:+ s)).
    cbn [String.prefix]. destruct (ascii_dec c c); [exact IH|contradiction].
Qed.

Lemma prefix_refl s : String.prefix s s = true.
Proof.
  induction s as [|c s IH]; cbn [String.prefix]; [reflexivity|].
  destruct (ascii_dec c c); [exact IH|contradiction].
Qed.

(** The name that [containerName] makes of the parts of the uuid: the first
    part is the text of the uuid before its first dash, or the whole uuid
    when it has no dash. *)
Lemma containerName_cut (containerSpec : v3.Container) :
  let uuid := v3.Uuid containerSpec in
  let first := hd "" (Split uuid "-") in
  let name := containerName rt containerSpec (Split uuid "-") in
  String.prefix "r-" name = true
  /\ name = (if String.eqb (r_NameRegexFindString rt (v3.Name containerSpec)) ""
             then "r-" +:+ uuid
             else "r-" +:+ v3.Name containerSpec +:+ "-" +:+ first)
  /\ first = match cut "-" uuid with
             | Some (a, _) => a
             | None => uuid
             end
  /\ String.prefix first uuid = true
  /\ Contains first "-" = false.
Proof.
  intros uuid first name. subst name first. unfold containerName.
  fold uuid. rewrite hd_Split.
  split; [|split; [|split; [reflexivity|]]].
  - destruct (String.eqb _ ""); apply prefix_append.
  - destruct (String.eqb _ ""); reflexivity.
  - destruct (cut "-" uuid) as [[a b]|] eqn:Hcut.
    + destruct (cut_prefix _ _ _ _ Hcut) as [Huuid Hno].
      split; [|exact Hno]. rewrite Huuid. apply prefix_append.
    + split; [apply prefix_refl|apply cut_none; exact Hcut].
Qed.

(** [selectCredential] returns the first credential of the list with the
    given id, and the zero credential when there is none. *)
Lemma selectCredential_spec (credentials : list v3.Credential)
  (id : string) :
  ((forall cred, In cred credentials -> v3.CredentialId cred <> id) ->
   selectCredential credentials id
   = {| v3.CredentialId := ""; v3.PublicValue := ""; v3.SecretValue := "" |})
  /\ (forall before cred after,
        credentials = before ++ cred :: after ->
        v3.CredentialId cred = id ->
        (forall c, In c before -> v3.CredentialId c <> id) ->
        selectCredential credentials id = cred).
Proof.
  split.
  - induction credentials as [|c l IH]; intros Hnone; cbn [selectCredential];
      [reflexivity|].
    destruct (String.eqb_spec (v3.CredentialId c) id) as [Heq|_].
    + destruct (Hnone c (or_introl eq_refl) Heq).
    + apply IH. intros cred Hin. apply Hnone. right. exact Hin.
  - intros before cred after -> Hid Hbefore.
    induction before as [|c l IH]; cbn [app selectCredential].
    + rewrite Hid, String.eqb_refl. reflexivity.
    + destruct (String.eqb_spec (v3.CredentialId c) id) as [Heq|_].
      * destruct (Hbefore c (or_introl eq_refl) Heq).
      * apply IH. intros c' Hin. apply Hbefore. right. exact Hin.
Qed.

(** X3.  After [setupLabels] the uuid label of the configuration is the
    uuid of the specification, also when the specification or the
    configuration carried another value under that key; every other label
    is the one of the specification when it has one, and the one the
    configuration had otherwise. *)
Theorem setupLabels_uuid_wins (spec : v3.Container)
  (config : container.Config) (k : string) :
  container.Labels (setupLabels rt spec config) !! r_UUIDLabel rt
    = Some (v3.Uuid spec)
  /\ (k <> r_UUIDLabel rt ->
      container.Labels (setupLabels rt spec config) !! k
      = match v3.Labels spec !! k with
        | Some v => Some v
        | None => container.Labels config !! k
        end).
Proof.
  unfold setupLabels, setLabels. cbn [container.Labels]. split.
  - apply lookup_insert_eq.
  - intros Hne. rewrite lookup_insert_ne by congruence.
    rewrite lookup_union. destruct (v3.Labels spec !! k) as [v|].
    + destruct (container.Labels config !! k); reflexivity.
    + destruct (container.Labels config !! k); reflexivity.
Qed.

(** X4.  [setupPorts] discards the exposed ports the configuration had and
    keeps exposed ports and port bindings in step: when some endpoint
    declares a private port, a key is exposed exactly when it has a
    non-empty list of bindings; when none does, no port is exposed and the
    host configuration is returned as it was. *)
Theorem setupPorts_exposed_iff_bound (config : container.Config)
  (containerSpec : v3.Container) (hostConfig : container.HostConfig) :
  let r := setupPorts config containerSpec hostConfig in
  (declared (v3.PublicEndpoints containerSpec) = [] ->
   container.ExposedPorts r.1 = ∅ /\ r.2 = hostConfig)
  /\ (declared (v3.PublicEndpoints containerSpec) <> [] ->
      forall k,
        k ∈ container.ExposedPorts r.1
        <-> exists bs, container.PortBindings r.2 !! k = Some bs /\ bs <> []).
Proof.
  intros r. subst r. unfold setupPorts.
  set (endpoints := v3.PublicEndpoints containerSpec).
  pose proof (fold_bindings endpoints ∅ ∅) as Hb.
  pose proof (fold_exposed endpoints ∅ ∅) as He.
  destruct (fold_left setupPortsStep endpoints (∅, ∅)) as [ex bs].
  cbn [fst snd] in *.
  assert (Hentry : forall k, bs !! k = entry (bindingsFor k endpoints)).
  { intros k. rewrite Hb, lookup_empty. cbn.
    destruct (entry (bindingsFor k endpoints)); reflexivity. }
  assert (Hkey : forall k,
             (exists e, In e (declared endpoints) /\ portKey e = k)
             <-> bindingsFor k endpoints <> []).
  { intros k. unfold bindingsFor. split.
    - intros (e & Hin & Hk) Hnil.
      assert (Hf : In e (List.filter (fun e => String.eqb (portKey e) k)
                           (declared endpoints))).
      { apply filter_In. split; [exact Hin|]. rewrite Hk.
        apply String.eqb_refl. }
      apply (in_map portBinding) in Hf. rewrite Hnil in Hf. destruct Hf.
    - intros Hne.
      destruct (List.filter (fun e => String.eqb (portKey e) k)
                  (declared endpoints)) as [|e l] eqn:Hf; [contradiction|].
      assert (Hin : In e (List.filter (fun e => String.eqb (portKey e) k)
                            (declared endpoints)))
        by (rewrite Hf; left; reflexivity).
      apply filter_In in Hin as [Hin Hk]. exists e. split; [exact Hin|].
      apply String.eqb_eq. exact Hk. }
  split.
  - intros Hnil.
    assert (Hex : ex = ∅).
    { apply set_eq. intros k. rewrite He. split.
      - intros [H|(e & Hin & _)]; [exact H|].
        fold endpoints in Hnil. rewrite Hnil in Hin. destruct Hin.
      - intros H. left. exact H. }
    assert (Hbs : bs = ∅).
    { apply map_eq. intros k. rewrite Hentry, lookup_empty.
      unfold bindingsFor. fold endpoints in Hnil. rewrite Hnil. reflexivity. }
    rewrite Hex, Hbs, map_size_empty. auto.
  - intros Hne k.
    assert (Hsize : (0 <? size bs)%nat = true).
    { apply Nat.ltb_lt.
      destruct (declared endpoints) as [|e l] eqn:D; [contradiction|].
      assert (Hsome : bindingsFor (portKey e) endpoints <> []).
      { apply Hkey. exists e. rewrite ?D. split; [left|]; reflexivity. }
      specialize (Hentry (portKey e)).
      destruct (bindingsFor (portKey e) endpoints); [contradiction|].
      destruct (decide (size bs = 0%nat)) as [Hz|Hz]; [|lia].
      apply map_size_empty_iff in Hz. rewrite Hz, lookup_empty in Hentry.
      discriminate. }
    rewrite Hsize. cbn [container.ExposedPorts container.PortBindings
                        setExposedPorts setPortBindings].
    rewrite He, Hentry. split.
    + intros [Hin|Hex]; [set_solver|].
      apply Hkey in Hex. exists (bindingsFor k endpoints).
      destruct (bindingsFor k endpoints); [contradiction|]. auto.
    + intros (l & Hl & Hne'). right. apply Hkey.
      destruct (bindingsFor k endpoints); [discriminate|discriminate].
Qed.


(** X6.  [getHostEntries] holds exactly the proxy variables of
    [HTTPProxyList] that are set to a non-empty value, each with its value:
    a variable that is unset or empty has no entry, and neither has any
    other variable of the environment. *)
Theorem getHostEntries_lookup (Getenv : string -> string) (k v : string) :
  getHostEntries Getenv !! k = Some v
  <-> In k HTTPProxyList /\ Getenv k = v /\ v <> "".
Proof.
  unfold getHostEntries.
  assert (H : forall l (data : gmap string string),
    fold_left
      (fun data env =>
         if negb (String.eqb (Getenv env) "") then <[env := Getenv env]> data
         else data) l data !! k = Some v
    <-> (In k l /\ Getenv k = v /\ v <> "")
        \/ ((~ In k l \/ Getenv k = "") /\ data !! k = Some v)).
  { induction l as [|env l IH]; intros data; cbn [fold_left].
    - cbn. tauto.
    - rewrite IH. cbn [In].
      destruct (String.eqb_spec (Getenv env) "") as [Hempty|Hset]; cbn [negb].
      + destruct (decide (env = k)) as [->|Hne].
        * split.
          -- intros [(Hin & Hv & Hnv)|(Hno & Hd)]; [left; tauto|].
             right. split; [right; exact Hempty|exact Hd].
          -- intros [(Hin & Hv & Hnv)|(Hno & Hd)]; [congruence|].
             right. split; [right; exact Hempty|exact Hd].
        * split.
          -- intros [(Hin & Hv & Hnv)|(Hno & Hd)]; [left; tauto|].
             right. split; [|exact Hd]. destruct Hno as [Hno|Hno]; [|tauto].
             left. intros [H|H]; [congruence|tauto].
          -- intros [([Heq|Hin] & Hv & Hnv)|(Hno & Hd)]; [congruence|tauto|].
             right. split; [|exact Hd]. destruct Hno as [Hno|Hno]; [|tauto].
             left. tauto.
      + destruct (decide (env = k)) as [->|Hne].
        * rewrite lookup_insert_eq. split.
          -- intros [(Hin & Hv & Hnv)|(Hno & Hd)]; [left; tauto|].
             injection Hd as <-. left. tauto.
          -- intros [(Hin & Hv & Hnv)|(Hno & Hd)].
             ++ destruct (in_dec string_dec k l) as [Hl|Hl]; [left; tauto|].
                right. split; [tauto|congruence].
             ++ destruct Hno as [Hno|Hno]; [tauto|congruence].
        * rewrite lookup_insert_ne by exact Hne. split.
          -- intros [(Hin & Hv & Hnv)|(Hno & Hd)]; [left; tauto|].
             right. split; [|exact Hd]. destruct Hno as [Hno|Hno]; [|tauto].
             left. intros [H|H]; [congruence|tauto].
          -- intros [([Heq|Hin] & Hv & Hnv)|(Hno & Hd)]; [congruence|tauto|].
             right. split; [|exact Hd]. destruct Hno as [Hno|Hno]; [|tauto].
             left. tauto. }
  rewrite H, lookup_empty. split.
  - intros [Hin|[_ Hd]]; [exact Hin|discriminate].
  - intros Hin. left. exact Hin.
Qed.

(** X7.  The volumes-from list that [setupNonRancherVolumes] computes never
    holds an empty identifier: each of its entries is the non-empty
    identifier that [idsMap] gives to some reference of [DataVolumesFrom],
    and there are at most as many entries as references. *)
Theorem resolveVolumesFrom_identifiers (dataVolumesFrom : list string)
  (idsMap : gmap string string) :
  (forall id, In id (resolveVolumesFrom dataVolumesFrom idsMap) ->
     id <> ""
     /\ exists ref, In ref dataVolumesFrom /\ idsMap !! ref = Some id)
  /\ (length (resolveVolumesFrom dataVolumesFrom idsMap)
      <= length dataVolumesFrom)%nat.
Proof.
  rewrite resolveVolumesFrom_resolved. unfold resolved. split.
  - intros id Hin. apply in_map_iff in Hin as (ref & <- & Hin).
    apply filter_In in Hin as [Hin Hne].
    destruct (String.eqb_spec (index idsMap ref) "") as [|Hid];
      [discriminate|].
    split; [exact Hid|]. exists ref. split; [exact Hin|].
    unfold index in *. destruct (idsMap !! ref); [reflexivity|contradiction].
  - rewrite length_map. apply List.filter_length_le.
Qed.

End Translation.

(** ** Further properties of the volumes and of the create call *)


Section Provisioning.
Context {W : Type} (rt : Runtime W).

(** X8.  A query of the docker root that fails is never made again: the
    first call of [getDockerRoot] panics with the text of the error of the
    engine and marks the query as done, and every later call returns,
    without a call to the engine, the value the package variable had before
    (the empty string in a fresh process). *)
Theorem getDockerRoot_failure_not_retried (s : process W) rootDir e w :
  dockerRootOnce s = false ->
  r_Info rt (world s) = (rootDir, Some e, w) ->
  exists s1,
    getDockerRoot rt s = (Panic (Error e), s1, [EvInfo rootDir (Some e)])
    /\ dockerRootOnce s1 = true
    /\ getDockerRoot rt s1 = (Done (dockerRoot s), s1, []).
Proof.
  intros Hon Hinfo. unfold getDockerRoot at 1. rewrite Hon, Hinfo.
  eexists. split; [reflexivity|]. split; reflexivity.
Qed.



(** X10.  The activation loop of [setupNonRancherVolumes] never asks about
    a managed volume, nor about a volume that is not in the list; it
    activates a volume only after the backend has answered, without error,
    that the volume is not active; and when it returns an error, the call
    that failed is the last call made and its error is the cause wrapped. *)
Theorem activateVolumes_calls (volumes : list v3.Volume) (s : process W) :
  let run := activateVolumes rt volumes s in
  (forall v ok err, In (EvIsVolumeActive v ok err) run.2 ->
     In v volumes /\ r_IsRancherVolume rt v = false)
  /\ (forall v err, In (EvDoVolumeActivate v err) run.2 ->
        In (EvIsVolumeActive v false None) run.2)
  /\ (forall e, run.1.1 = Done (Some e) ->
        exists pre v cause,
          (run.2 = pre ++ [EvDoVolumeActivate v (Some cause)]
           /\ e = Wrap cause "failed to activate volume")
          \/ (exists ok,
                run.2 = pre ++ [EvIsVolumeActive v ok (Some cause)]
                /\ e = Wrap cause
                         "failed to check whether volume is activated")).
Proof.
  revert s.
  induction volumes as [|volume volumes IH]; intros s; cbn [activateVolumes].
  - cbn. split; [intros ? ? ? []|]. split; [intros ? ? []|discriminate].
  - destruct (r_IsRancherVolume rt volume) eqn:Hm; cbn [negb].
    + specialize (IH s). cbv zeta in IH. destruct IH as (H1 & H2 & H3).
      split; [|split; [exact H2|exact H3]].
      intros v ok err Hin. destruct (H1 v ok err Hin). split; [right|]; auto.
    + unfold IsVolumeActive, DoVolumeActivate, bind, call, ret.
      destruct (r_IsVolumeActive rt volume (world s)) as [[ok err] w1].
      cbn [fst snd].
      set (check := EvIsVolumeActive volume ok err).
      destruct ok, err as [cause|]; cbn [negb andb isNil].
      * (* active, with an error *)
        cbn [fst snd app]. split; [|split].
        -- intros v ok err [[= <- <- <-]|[]]. split; [left|]; auto.
        -- intros v err [H|[]]. discriminate H.
        -- intros e [= <-]. exists [], volume, cause. right.
           exists true. auto.
      * (* active *)
        specialize (IH {| world := w1; dockerRootOnce := dockerRootOnce s;
                          dockerRoot := dockerRoot s |}).
        cbv zeta in IH. destruct (activateVolumes rt volumes _)
          as [[o s2] t2]. cbn [fst snd app] in *.
        destruct IH as (H1 & H2 & H3). split; [|split].
        -- intros v ok err [[= <- <- <-]|Hin]; [split; [left|]; auto|].
           destruct (H1 v ok err Hin). split; [right|]; auto.
        -- intros v err [H|Hin]; [discriminate H|]. right. eauto.
        -- intros e He. destruct (H3 e He) as (pre & v & cause & Hc).
           exists (check :: pre), v, cause.
           destruct Hc as [[-> ->]|(ok & -> & ->)]; [left|right; exists ok];
             auto.
      * (* not active, with an error *)
        cbn [fst snd app]. split; [|split].
        -- intros v ok err [[= <- <- <-]|[]]. split; [left|]; auto.
        -- intros v err [H|[]]. discriminate H.
        -- intros e [= <-]. exists [], volume, cause. right.
           exists false. auto.
      * (* not active: the volume is activated *)
        cbn [world dockerRootOnce dockerRoot].
        destruct (r_DoVolumeActivate rt volume w1) as [[cause|] w2].
        -- cbn [fst snd app]. split; [|split].
           ++ intros v ok err [[= <- <- <-]|[H|[]]];
                [split; [left|]; auto|discriminate H].
           ++ intros v err [H|[[= <- <-]|[]]]; [discriminate H|].
              left. reflexivity.
           ++ intros e [= <-]. exists [check], volume, cause. left. auto.
        -- specialize (IH {| world := w2; dockerRootOnce := dockerRootOnce s;
                             dockerRoot := dockerRoot s |}).
           cbv zeta in IH. destruct (activateVolumes rt volumes _)
             as [[o s2] t2]. cbn [fst snd app] in *.
           destruct IH as (H1 & H2 & H3). split; [|split].
           ++ intros v ok err [[= <- <- <-]|[H|Hin]];
                [split; [left|]; auto|discriminate H|].
              destruct (H1 v ok err Hin). split; [right|]; auto.
           ++ intros v err [H|[[= <- <-]|Hin]]; [discriminate H| |].
              ** left. reflexivity.
              ** right. right. eauto.
           ++ intros e He. destruct (H3 e He) as (pre & v & cause & Hc).
              exists (check :: EvDoVolumeActivate volume None :: pre), v,
                cause.
              destruct Hc as [[-> ->]|(ok & -> & ->)];
                [left|right; exists ok]; auto.
Qed.


(** X11.  [createContainer] always returns, with an identifier or with an
    error but never with both: an error comes with the empty identifier,
    and an identifier is the one that the last call, a create call that
    succeeded, answered.  It makes at most four calls, of which at most two
    create calls and at most one on-demand pull, and every create call
    asks for the image of the specification, with the host configuration
    and the name it was given. *)
Theorem createContainer_result config hostConfig containerSpec credential
  name (s : process W) :
  exists id err s' evs,
    createContainer rt config hostConfig containerSpec credential name s
      = (Done (id, err), s', evs)
    /\ (err <> None -> id = "")
    /\ (err = None ->
        exists pre,
          evs = pre ++ [EvCreate (setImage config (v3.Image containerSpec))
                          hostConfig name id None])
    /\ (length evs <= 4)%nat
    /\ (count isCreate evs <= 2)%nat
    /\ (count isImagePull evs <= 1)%nat
    /\ (forall c h n i e, In (EvCreate c h n i e) evs ->
          c = setImage config (v3.Image containerSpec)
          /\ h = hostConfig /\ n = name).
Proof.
  destruct (createContainer_runs rt config hostConfig containerSpec
              credential name s) as (s' & [id err] & evs & Hrun & Hcases).
  exists id, err, s', evs. split; [exact Hrun|].
  destruct Hcases as [(_ & e & -> & Hout)|(s1 & post & -> & Hpost)].
  { injection Hout as -> ->.
    split; [reflexivity|]. split; [intros H; discriminate H|].
    cbn. split; [lia|split; [lia|split; [lia|]]].
    intros c h n i e0 [H|[]]; discriminate H. }
  set (pre := if String.eqb (index (container.Labels config) PullImageLabels)
                   "always"
              then [EvDoInstancePull
                      {| Tag := ""; Mode := "all"; Complete := false;
                         ImageUUID := v3.Image containerSpec |}
                      credential None]
              else []) in *.
  assert (Hpre : (length pre <= 1)%nat /\ count isCreate pre = 0%nat
                 /\ count isImagePull pre = 0%nat
                 /\ forall c h n i e, ~ In (EvCreate c h n i e) pre).
  { subst pre. destruct (String.eqb _ "always"); cbn;
      (split; [lia|split; [reflexivity|split; [reflexivity|]]]);
      intros c h n i e H; [destruct H as [H|[]]; discriminate H|destruct H]. }
  destruct Hpre as (Hlen & Hc & Hp & Hno).
  rewrite length_app, !count_app, Hc, Hp.
  assert (Hin : forall c h n i e (l : list event),
             In (EvCreate c h n i e) (pre ++ l) -> In (EvCreate c h n i e) l).
  { intros c h n i e l H. apply in_app_or in H as [H|H]; [|exact H].
    destruct (Hno _ _ _ _ _ H). }
  destruct Hpost as [(_ & -> & Hout)|(_ & Hretry)].
  { injection Hout as -> ->.
    split; [reflexivity|]. split; [intros H; discriminate H|].
    cbn. split; [lia|split; [lia|split; [lia|]]].
    intros c h n i e H. apply Hin in H. destruct H. }
  destruct (createWithRetry_runs rt
              (setImage config (v3.Image containerSpec)) hostConfig
              containerSpec credential name s1)
    as (s2 & out2 & evs2 & Hrun2 & Hcases).
  rewrite Hretry in Hrun2. injection Hrun2 as <- <- <-.
  destruct Hcases as [(id1 & err1 & Hinf1 & -> & Hout)
                     |[(id1 & err1 & e1 & Hinf1 & -> & Hout)
                      |(id1 & err1 & id2 & err2 & Hinf1 & -> & Hout)]].
  - assert (Hcreates : forall c h n i e,
              In (EvCreate c h n i e)
                 (pre ++ [EvCreate (setImage config (v3.Image containerSpec))
                            hostConfig name id1 err1]) ->
              c = setImage config (v3.Image containerSpec)
              /\ h = hostConfig /\ n = name).
    { intros c h n i e H. apply Hin in H. destruct H as [H|[]].
      injection H as <- <- <- _ _. auto. }
    destruct err1 as [e1|]; injection Hout as -> ->.
    + split; [reflexivity|]. split; [intros H; discriminate H|].
      cbn. split; [lia|split; [lia|split; [lia|]]]. exact Hcreates.
    + split; [intros H; destruct (H eq_refl)|].
      split; [intros _; exists pre; reflexivity|].
      cbn. split; [lia|split; [lia|split; [lia|]]]. exact Hcreates.
  - injection Hout as -> ->.
    split; [reflexivity|]. split; [intros H; discriminate H|].
    cbn. split; [lia|split; [lia|split; [lia|]]].
    intros c h n i e H. apply Hin in H. destruct H as [H|[H|[]]];
      [|discriminate H]. injection H as <- <- <- _ _. auto.
  - assert (Hcreates : forall c h n i e,
              In (EvCreate c h n i e)
                 (pre ++ [EvCreate (setImage config (v3.Image containerSpec))
                            hostConfig name id1 err1;
                          EvImagePull (v3.Image containerSpec) credential
                            None;
                          EvCreate (setImage config (v3.Image containerSpec))
                            hostConfig name id2 err2]) ->
              c = setImage config (v3.Image containerSpec)
              /\ h = hostConfig /\ n = name).
    { intros c h n i e H. apply Hin in H.
      destruct H as [H|[H|[H|[]]]]; try discriminate H;
        injection H as <- <- <- _ _; auto. }
    destruct err2 as [e2|]; injection Hout as -> ->.
    + split; [reflexivity|]. split; [intros H; discriminate H|].
      cbn. split; [lia|split; [lia|split; [lia|]]]. exact Hcreates.
    + split; [intros H; destruct (H eq_refl)|].
      split.
      { intros _. eexists (pre ++ [_; _]). rewrite <- app_assoc.
        reflexivity. }
      cbn. split; [lia|split; [lia|split; [lia|]]]. exact Hcreates.
Qed.

End Provisioning.

(** ** Further properties of create and start *)

Definition isFind (e : event) : bool :=
  match e with EvFindContainer _ _ _ _ => true | _ => false end.
Definition isInspect (e : event) : bool :=
  match e with EvInspect _ _ _ => true | _ => false end.
Definition isStart (e : event) : bool :=
  match e with EvStart _ _ => true | _ => false end.

Section Reconciliation.
Context {W : Type} (rt : Runtime W).

Lemma find_app_skip (P : event -> bool) (pre l : list event) :
  Forall (fun e => P e = false) pre ->
  List.find P (pre ++ l) = List.find P l.
Proof.
  induction 1 as [|e pre He _ IH]; [reflexivity|].
  cbn [app List.find]. rewrite He. exact IH.
Qed.

Lemma translation_not (P : event -> bool) (evs : list event) :
  (forall e, isTranslation e = true -> P e = false) ->
  Forall (fun e => isTranslation e = true) evs ->
  Forall (fun e => P e = false) evs.
Proof. intros HP Hall. eapply Forall_impl; [exact Hall|]. exact HP. Qed.

(** *** Panics *)

Lemma dataVolumes_panic managed l : forall acc (s s' : process W) msg evs,
  foldM (dataVolumeStep rt managed) l acc s = (Panic msg, s', evs) ->
  exists pre root e, evs = pre ++ [EvInfo root (Some e)] /\ msg = Error e.
Proof.
  induction l as [|volume l IH]; intros acc s s' msg evs; cbn [foldM];
    [discriminate|].
  unfold bind at 1.
  destruct (dataVolumeStep rt managed acc volume s) as [[[acc'|msg'] s1] t1]
    eqn:Hstep.
  - destruct (foldM (dataVolumeStep rt managed) l acc' s1)
      as [[o s2] t2] eqn:Hrest.
    intros H. simplify_eq.
    destruct (IH _ _ _ _ _ Hrest) as (pre & root & e & -> & ->).
    exists (t1 ++ pre), root, e. rewrite <- app_assoc. auto.
  - intros H. simplify_eq. revert Hstep.
    unfold dataVolumeStep. destruct acc as [volumesMap binds]. cbv zeta.
    pose proof (SplitN_3_nonempty volume ":") as Hne.
    destruct (SplitN volume ":" 3) as [|p0 [|p1 rest]]; [contradiction| |];
      (destruct (decide (p0 ∈ managed)); [discriminate|]);
      [discriminate|].
    destruct (String.eqb p0 varLibDocker && String.eqb p1 varLibDocker);
      [|discriminate].
    unfold bind, getDockerRoot. destruct (dockerRootOnce s).
    + destruct (negb (String.eqb (dockerRoot s) varLibDocker));
        discriminate.
    + destruct (r_Info rt (world s)) as [[rootDir [e|]] w].
      * intros H. simplify_eq. exists [], rootDir, e. auto.
      * destruct (negb (String.eqb rootDir varLibDocker)); discriminate.
Qed.

Lemma setupNonRancherVolumes_panic config volumes containerSpec hostConfig
  idsMap (s s' : process W) msg evs :
  setupNonRancherVolumes rt config volumes containerSpec hostConfig idsMap s
    = (Panic msg, s', evs) ->
  exists pre root e, evs = pre ++ [EvInfo root (Some e)] /\ msg = Error e.
Proof.
  rewrite setupNonRancherVolumes_runs.
  destruct (foldM _ (v3.DataVolumes containerSpec) (∅, []) s)
    as [[[[volumesMap binds]|msg'] s1] t1] eqn:Hloop.
  - destruct (activateVolumes_done rt volumes s1) as (err & s2 & t2 & ->).
    discriminate.
  - intros H. simplify_eq. eapply dataVolumes_panic. exact Hloop.
Qed.

(** Every run of [setupContainerSpec]: its calls are those of the
    translation; an error comes with the zero specification and wraps its
    cause; a panic comes from the query of the docker root. *)
Lemma setupContainerSpec_runs containerSpec volumes networkKind
  rancherBindMounts idsMap (s : process W) :
  exists o s' evs,
    setupContainerSpec rt containerSpec volumes networkKind rancherBindMounts
      idsMap s = (o, s', evs)
    /\ Forall (fun e => isTranslation e = true) evs
    /\ match o with
       | Done (spec, Some e) =>
           spec = {| config := zeroConfig; hostConfig := zeroHostConfig |}
           /\ exists cause,
                e = Wrap cause "failed to set up DNS search"
                \/ e = Wrap cause "failed to set up volumes"
                \/ e = Wrap cause "failed to set up networking"
       | Done (spec, None) =>
           container.Healthcheck (config spec)
           = container.Healthcheck (setupHealthConfig containerSpec zeroConfig)
       | Panic msg =>
           exists pre root e,
             evs = pre ++ [EvInfo root (Some e)] /\ msg = Error e
       end.
Proof.
  pose proof (emits_setupContainerSpec rt containerSpec volumes networkKind
                rancherBindMounts idsMap s) as Hev.
  destruct (setupContainerSpec rt _ _ _ _ _ s) as [[o s'] evs] eqn:Hrun.
  exists o, s', evs. split; [reflexivity|]. split; [exact Hev|].
  clear Hev. revert Hrun. unfold setupContainerSpec. cbv zeta.
  destruct (initializeMaps _ _) as [config0 hostConfig0].
  destruct (r_setupDNSSearch rt _ containerSpec) as [hostConfig1 [e|]].
  { unfold ret. intros H. simplify_eq. split; [reflexivity|].
    exists e. auto. }
  destruct (setupPorts _ containerSpec hostConfig1) as [config2 hostConfig2].
  unfold bind.
  destruct (setupNonRancherVolumes rt _ _ _ _ _ s)
    as [[[[[config3 hostConfig3] [e|]]|msg] s1] t1] eqn:Hvol.
  - unfold ret. intros H. simplify_eq. split; [reflexivity|].
    exists e. auto.
  - destruct (r_setupNetworking rt containerSpec config3 hostConfig3 idsMap
                networkKind) as [[config4 hostConfig4] [e|]].
    + unfold ret. intros H. simplify_eq. split; [reflexivity|].
      exists e. auto.
    + unfold ret. intros H. simplify_eq. reflexivity.
  - intros H. simplify_eq. eapply setupNonRancherVolumes_panic. exact Hvol.
Qed.

(** *** The runs of lines 64 to 114 *)

Lemma reconcile_runs containerSpec volumes networkKind credentials idsMap
  name rancherBindMounts (s : process W) :
  exists o s' t1 rest,
    reconcile rt containerSpec volumes networkKind credentials idsMap name
      rancherBindMounts s = (o, s', t1 ++ rest)
    /\ Forall (fun e => isTranslation e = true) t1
    /\ ((rest = []
         /\ ((exists cause,
                o = Done (false,
                          ("", Some (Wrap cause
                                       "failed to generate container spec"))))
             \/ (exists pre root e,
                   o = Panic (Error e)
                   /\ t1 = pre ++ [EvInfo root (Some e)])))
        \/ (exists cid0 ferr0 rest',
              rest = EvFindContainer containerSpec false cid0 ferr0 :: rest'
              /\ match errWhen ferr0
                         (fun e => negb (r_IsContainerNotFoundError rt e))
                 with
                 | Some fe =>
                     rest' = []
                     /\ o = Done (false,
                                  ("", Some (Wrap fe
                                               "failed to get container")))
                 | None =>
                     exists spec s2 o2 s3 t3,
                       resolveContainer rt containerSpec credentials spec
                         name cid0 s2 = (Done o2, s3, t3)
                       /\ match o2 with
                          | inl e =>
                              rest' = t3 /\ o = Done (false, ("", Some e))
                          | inr (cid, created) =>
                              exists o3 serr post,
                                startContainer rt cid created s3
                                  = (Done o3, s', EvStart cid serr :: post)
                                /\ rest' = t3 ++ EvStart cid serr :: post
                                /\ o = Done o3
                          end
                 end)).
Proof.
  unfold reconcile. unfold bind at 1.
  destruct (setupContainerSpec_runs containerSpec volumes networkKind
              rancherBindMounts idsMap s) as (o1 & s1 & t1 & -> & Ht1 & Ho1).
  destruct o1 as [[spec [e|]]|msg].
  - unfold ret. exists (Done (false, ("", Some (Wrap e
                  "failed to generate container spec")))), s1, t1, [].
    split; [reflexivity|]. split; [exact Ht1|]. left.
    split; [reflexivity|]. left. eauto.
  - unfold bind at 1. unfold FindContainer at 1, call.
    destruct (r_FindContainer rt containerSpec false (world s1))
      as [[cid0 ferr0] w2]. cbn [fst snd].
    destruct (errWhen ferr0 _) as [fe|] eqn:Hlook.
    + unfold ret. do 4 eexists. split; [reflexivity|].
      split; [exact Ht1|]. right. exists cid0, ferr0, [].
      split; [reflexivity|]. rewrite Hlook. auto.
    + unfold bind at 1.
      match goal with
      | |- context [resolveContainer rt ?a ?b ?c ?d ?e ?st] =>
          destruct (resolveContainer_runs rt a b c d e st)
            as (o2 & s3 & t3 & Hres & _); rewrite Hres
      end.
      destruct o2 as [e|[cid created]].
      * unfold ret. do 4 eexists. split; [reflexivity|].
        split; [exact Ht1|]. right. exists cid0, ferr0, t3.
        split; [cbn [app]; rewrite app_nil_r; reflexivity|].
        rewrite Hlook. do 5 eexists. split; [exact Hres|]. cbn. auto.
      * destruct (startContainer_runs rt cid created s3)
          as (o3 & s4 & serr & post & Hstart & _).
        rewrite Hstart. do 4 eexists. split; [reflexivity|].
        split; [exact Ht1|]. right.
        exists cid0, ferr0, (t3 ++ EvStart cid serr :: post).
        split; [reflexivity|]. rewrite Hlook.
        do 5 eexists. split; [exact Hres|]. cbn.
        exists o3, serr, post. auto.
  - destruct Ho1 as (pre & root & e & -> & ->).
    exists (Panic (Error e)), s1, (pre ++ [EvInfo root (Some e)]), [].
    split; [rewrite app_nil_r; reflexivity|]. split; [exact Ht1|].
    left. split; [reflexivity|]. right. eauto.
Qed.

Lemma find_app_miss (P : event -> bool) (l : list event) x :
  P x = false -> List.find P (l ++ [x]) = List.find P l.
Proof.
  intros Hx. induction l as [|e l IH]; cbn [app List.find].
  - rewrite Hx. reflexivity.
  - destruct (P e); [reflexivity|exact IH].
Qed.

(** What [ContainerStart] adds around lines 64 to 114: the set-up of the
    managed volumes before, their unmounting after unless the flag
    [started] is set. *)
Lemma ContainerStart_around containerSpec volumes networkKind credentials
  idsMap (s s' : process W) out evs :
  ContainerStart rt containerSpec volumes networkKind credentials idsMap s
    = (out, s', evs) ->
  (exists binds e,
     evs = [EvSetupFlex volumes (v3.DataVolumes containerSpec) binds (Some e)]
     /\ out = Done ("", Some (Wrap e "failed to set up rancher flex volumes")))
  \/ (exists binds s1 o s2 t2,
        reconcile rt containerSpec volumes networkKind credentials idsMap
          (containerName rt containerSpec (Split (v3.Uuid containerSpec) "-"))
          binds s1 = (o, s2, t2)
        /\ let flex :=
             EvSetupFlex volumes (v3.DataVolumes containerSpec) binds None in
           match o with
           | Done (true, r) => out = Done r /\ evs = flex :: t2
           | Done (false, r) =>
               out = Done r /\ evs = flex :: t2 ++ [EvUnmountFlex volumes]
           | Panic msg =>
               out = Panic msg /\ evs = flex :: t2 ++ [EvUnmountFlex volumes]
           end).
Proof.
  rewrite ContainerStart_runs.
  destruct (r_setupRancherFlexVolume rt volumes
              (v3.DataVolumes containerSpec) (world s))
    as [[binds [e|]] w1].
  - intros H. simplify_eq. left. eauto.
  - cbv zeta. intros H. right.
    destruct (reconcile rt _ _ _ _ _ _ _ _) as [[o s2] t2] eqn:Hrec.
    exists binds. do 4 eexists. split; [exact Hrec|].
    destruct o as [[[|] r]|msg]; simplify_eq; auto.
Qed.

Lemma count_cons (P : event -> bool) x (l : list event) :
  count P (x :: l) = ((if P x then 1 else 0) + count P l)%nat.
Proof. unfold count. cbn [List.filter]. destruct (P x); reflexivity. Qed.

(** Counts the events of a kind in a list made of translation events and
    of events that are written out. *)
Ltac count_zero Hcount :=
  repeat (rewrite count_app || rewrite count_cons);
  rewrite ?Hcount by (intros []; (reflexivity || discriminate));
  reflexivity.

(** X12.  When the first lookup of [ContainerStart] finds a container, that
    container is adopted as it is: no image is pulled, no container is
    created and none is removed; the next call is the start call on the
    identifier found.  When the start succeeds that identifier is returned;
    when it fails, the error of the start call is returned, wrapped, after
    the unwind of the managed volumes, and the container stays. *)
Theorem ContainerStart_adopts_existing containerSpec volumes networkKind
  credentials idsMap (s s' : process W) out evs spec force cid ferr :
  ContainerStart rt containerSpec volumes networkKind credentials idsMap s
    = (out, s', evs) ->
  List.find isFind evs = Some (EvFindContainer spec force cid ferr) ->
  cid <> "" ->
  errWhen ferr (fun e => negb (r_IsContainerNotFoundError rt e)) = None ->
  count isCreation evs = 0%nat
  /\ count isRemove evs = 0%nat
  /\ exists pre serr post,
       evs = pre ++ EvFindContainer containerSpec false cid ferr
                 :: EvStart cid serr :: post
       /\ match serr with
          | None => out = Done (cid, None) /\ post = []
          | Some se =>
              out = Done ("", Some (Wrap se "failed to start container"))
              /\ post = [EvUnmountFlex volumes]
          end.
Proof.
  intros Hrun Hfind Hcid Hlook.
  destruct (ContainerStart_around _ _ _ _ _ _ _ _ _ Hrun)
    as [(binds & e & -> & _)|(binds & s1 & o & s2 & t2 & Hrec & Hout)];
    [discriminate Hfind|].
  cbv zeta in Hout.
  set (flex := EvSetupFlex volumes (v3.DataVolumes containerSpec) binds None)
    in *.
  assert (Hfind2 : List.find isFind t2
                   = Some (EvFindContainer spec force cid ferr)).
  { destruct o as [[[|] r]|msg]; destruct Hout as [_ ->];
      cbn [List.find isFind] in Hfind; subst flex; cbn [isFind] in Hfind;
      rewrite ?find_app_miss in Hfind by reflexivity; exact Hfind. }
  destruct (reconcile_runs containerSpec volumes networkKind credentials
              idsMap
              (containerName rt containerSpec
                 (Split (v3.Uuid containerSpec) "-")) binds s1)
    as (o' & s2' & t1 & rest & Hrec' & Ht1 & Hcases).
  rewrite Hrec in Hrec'. simplify_eq.
  rewrite find_app_skip in Hfind2
    by (apply (translation_not isFind); [intros []; (reflexivity || discriminate)|exact Ht1]).
  destruct Hcases as [[-> _]|(cid0 & ferr0 & rest' & -> & Hcases)];
    [discriminate Hfind2|].
  cbn [List.find isFind] in Hfind2. injection Hfind2 as <- <- -> ->.
  rewrite Hlook in Hcases.
  destruct Hcases as (dspec & s3 & o2 & s4 & t3 & Hres & Hcases).
  destruct (resolveContainer_runs rt containerSpec credentials dspec
              (containerName rt containerSpec
                 (Split (v3.Uuid containerSpec) "-")) cid s3)
    as (o2' & s4' & t3' & Hres' & [(_ & -> & ->)|(Heq & _)]);
    [|contradiction].
  rewrite Hres' in Hres. injection Hres as <- -> <-.
  destruct Hcases as (o3 & serr & post & Hstart & -> & ->).
  destruct (startContainer_runs rt cid false s4)
    as (o3' & s5 & serr' & post' & Hstart' & Hc).
  rewrite Hstart in Hstart'. injection Hstart' as <- <- <- <-.
  assert (Hcount : forall P : event -> bool,
             (forall e, isTranslation e = true -> P e = false) ->
             count P t1 = 0%nat).
  { intros P HP. apply (count_emits isTranslation); assumption. }
  destruct serr as [se|].
  - destruct Hc as [-> ->]. destruct Hout as [-> ->].
    split; [|split].
    + count_zero Hcount.
    + count_zero Hcount.
    + exists (flex :: t1), (Some se), [EvUnmountFlex volumes].
      split; [|auto]. cbn [app]. rewrite <- app_assoc. reflexivity.
  - destruct Hc as [-> ->]. destruct Hout as [-> ->].
    split; [|split].
    + count_zero Hcount.
    + count_zero Hcount.
    + exists (flex :: t1), None, []. auto.
Qed.

(** A create call that succeeds is the last call of [createContainer],
    which returns its identifier. *)
Lemma createContainer_success config hostConfig containerSpec credential name
  (s s1 : process W) newID cerr cevs c h n i :
  createContainer rt config hostConfig containerSpec credential name s
    = (Done (newID, cerr), s1, cevs) ->
  In (EvCreate c h n i None) cevs ->
  newID = i /\ cerr = None.
Proof.
  intros Hrun Hin.
  destruct (createContainer_runs rt config hostConfig containerSpec
              credential name s) as (s0 & out0 & evs0 & Hrun0 & Hcases).
  rewrite Hrun in Hrun0. injection Hrun0 as <- <- <-.
  destruct Hcases as [(_ & e0 & -> & _)|(s2 & post & -> & Hpost)].
  { destruct Hin as [Hin|[]]. discriminate Hin. }
  apply in_app_or in Hin as [Hin|Hin].
  { destruct (String.eqb _ "always"); [|destruct Hin].
    destruct Hin as [Hin|[]]. discriminate Hin. }
  destruct Hpost as [(_ & -> & _)|(_ & Hretry)]; [destruct Hin|].
  destruct (createWithRetry_runs rt
              (setImage config (v3.Image containerSpec)) hostConfig
              containerSpec credential name s2)
    as (s3 & out3 & evs3 & Hrun3 & Hcases).
  rewrite Hretry in Hrun3. injection Hrun3 as <- <- <-.
  destruct Hcases as [(id1 & err1 & Hinf1 & -> & Hout)
                     |[(id1 & err1 & e1 & Hinf1 & -> & Hout)
                      |(id1 & err1 & id2 & err2 & Hinf1 & -> & Hout)]].
  - destruct Hin as [Hin|[]]. injection Hin as _ _ _ -> ->.
    injection Hout as -> ->. auto.
  - destruct Hin as [Hin|[Hin|[]]]; [|discriminate Hin].
    injection Hin as _ _ _ _ ->. discriminate Hinf1.
  - destruct Hin as [Hin|[Hin|[Hin|[]]]]; [|discriminate Hin|].
    + injection Hin as _ _ _ _ ->. discriminate Hinf1.
    + injection Hin as _ _ _ -> ->. injection Hout as -> ->. auto.
Qed.

(** Closes a goal in which an event is said to be among events of another
    kind. *)
Ltac not_among Hall Hin :=
  exfalso; eapply emits_not_in; [exact Hall| |exact Hin]; reflexivity.

(** Brings a list of events to the form [a ++ b :: c ++ ...]. *)
Ltac list_norm :=
  repeat first [rewrite <- app_assoc | progress cbn [app]].

(** X13.  When [ContainerStart] has created the container (a create call
    answered a non-empty identifier without error) and a start call fails,
    the start call was on the container just created, and that container is
    removed: the last three calls are the failed start, the removal of the
    new container and the unwind of the managed volumes.  The error returned
    is that of the start call, wrapped, or, when the removal fails too, that
    of the removal wrapped with the text of the start error. *)
Theorem ContainerStart_removes_created containerSpec volumes networkKind
  credentials idsMap (s s' : process W) out evs c h n newID id se :
  ContainerStart rt containerSpec volumes networkKind credentials idsMap s
    = (out, s', evs) ->
  In (EvCreate c h n newID None) evs ->
  newID <> "" ->
  In (EvStart id (Some se)) evs ->
  id = newID
  /\ exists pre rerr,
       evs = pre ++ [EvStart newID (Some se); EvRemove newID rerr;
                     EvUnmountFlex volumes]
       /\ out = Done ("", Some match rerr with
                               | Some re =>
                                   Wrap re
                                     ("failed to remove container: failed to start: "
                                      +:+ Error se)
                               | None => Wrap se "failed to start container"
                               end).
Proof.
  intros Hrun Hcreate Hnew Hstarted.
  destruct (ContainerStart_around _ _ _ _ _ _ _ _ _ Hrun)
    as [(binds & e & -> & _)|(binds & s1 & o & s2 & t2 & Hrec & Hout)].
  { destruct Hcreate as [H|[]]. discriminate H. }
  cbv zeta in Hout.
  set (flex := EvSetupFlex volumes (v3.DataVolumes containerSpec) binds None)
    in *.
  assert (Hin2 : forall e, isReconcile e = true -> In e evs -> In e t2).
  { intros e0 He0 Hin.
    destruct o as [[[|] r]|msg]; destruct Hout as [_ ->];
      (destruct Hin as [<-|Hin]; [unfold flex in He0; discriminate He0|]);
      [exact Hin| |];
      (apply in_app_or in Hin as [Hin|[<-|[]]];
       [exact Hin|discriminate He0]). }
  apply (Hin2 (EvCreate c h n newID None) eq_refl) in Hcreate.
  apply (Hin2 (EvStart id (Some se)) eq_refl) in Hstarted. clear Hin2.
  destruct (reconcile_runs containerSpec volumes networkKind credentials
              idsMap
              (containerName rt containerSpec
                 (Split (v3.Uuid containerSpec) "-")) binds s1)
    as (o' & s2' & t1 & rest & Hrec' & Ht1 & Hcases).
  rewrite Hrec' in Hrec. injection Hrec as -> -> <-.
  apply in_app_or in Hcreate as [Hcreate|Hcreate];
    [not_among Ht1 Hcreate|].
  apply in_app_or in Hstarted as [Hstarted|Hstarted];
    [not_among Ht1 Hstarted|].
  destruct Hcases as [[-> _]|(cid0 & ferr0 & rest' & -> & Hcases)];
    [destruct Hcreate|].
  destruct Hcreate as [Hcreate|Hcreate]; [discriminate Hcreate|].
  destruct Hstarted as [Hstarted|Hstarted]; [discriminate Hstarted|].
  destruct (errWhen ferr0 _) as [fe|].
  { destruct Hcases as [-> _]. destruct Hcreate. }
  destruct Hcases as (dspec & s3 & o2 & s4 & t3 & Hres & Hcases).
  destruct (resolveContainer_runs rt containerSpec credentials dspec
              (containerName rt containerSpec
                 (Split (v3.Uuid containerSpec) "-")) cid0 s3)
    as (o2' & s4' & t3' & Hres' & Hshape).
  rewrite Hres' in Hres. injection Hres as <- <- <-.
  (* the events of the create part hold no start call, those of the start
     part no create call *)
  assert (Hstartpart : forall cid created o3 serr post,
    startContainer rt cid created s4' = (Done o3, s2, EvStart cid serr :: post) ->
    ~ In (EvCreate c h n newID None) (EvStart cid serr :: post)
    /\ (In (EvStart id (Some se)) (EvStart cid serr :: post) ->
        id = cid /\ serr = Some se)).
  { intros cid created o3 serr post Hs.
    destruct (startContainer_runs rt cid created s4')
      as (o3' & s5 & serr' & post' & Hs' & Hc).
    rewrite Hs in Hs'. injection Hs' as <- <- <- <-.
    assert (Hpost : post = [] \/ exists rerr, post = [EvRemove cid rerr]).
    { destruct serr as [se0|]; [destruct created|].
      - destruct Hc as (rerr & -> & _). eauto.
      - destruct Hc as [-> _]. auto.
      - destruct Hc as [_ ->]. auto. }
    split.
    - intros [H|H]; [discriminate H|].
      destruct Hpost as [->|(rerr & ->)]; [destruct H|].
      destruct H as [H|[]]. discriminate H.
    - intros [H|H]; [injection H as <- <-; auto|].
      destruct Hpost as [->|(rerr & ->)]; [destruct H|].
      destruct H as [H|[]]. discriminate H. }
  destruct Hshape as [(_ & -> & ->)
                     |(-> & s5 & newID' & cerr & cevs & Hc & Hshape)].
  { (* adopted by the first lookup: no create call *)
    destruct Hcases as (o3 & serr & post & Hs & -> & _).
    destruct (Hstartpart _ _ _ _ _ Hs) as [Hno _].
    destruct (Hno Hcreate). }
  pose proof (emits_createContainer rt (config dspec) (hostConfig dspec)
                containerSpec
                (selectCredential credentials
                   (v3.RegistryCredentialId containerSpec))
                (containerName rt containerSpec
                   (Split (v3.Uuid containerSpec) "-")) s3) as Hcevs.
  rewrite Hc in Hcevs. cbn [snd] in Hcevs.
  assert (Hcreated : In (EvCreate c h n newID None) cevs).
  { destruct (errWhen cerr _) as [e0|].
    - destruct Hshape as [-> ->]. destruct Hcases as [-> _]. exact Hcreate.
    - destruct (String.eqb newID' "").
      + destruct Hshape as (cid & ferr & -> & ->).
        assert (Hin : In (EvCreate c h n newID None)
                        (cevs ++ [EvFindContainer containerSpec true cid ferr])
                      -> In (EvCreate c h n newID None) cevs).
        { intros H. apply in_app_or in H as [H|[H|[]]];
            [exact H|discriminate H]. }
        destruct (errWhen ferr _).
        * destruct Hcases as [-> _]. auto.
        * destruct Hcases as (o3 & serr & post & Hs & -> & _).
          apply in_app_or in Hcreate as [H|H]; [auto|].
          destruct (Hstartpart _ _ _ _ _ Hs) as [Hno _]. destruct (Hno H).
      + destruct Hshape as [-> ->].
        destruct Hcases as (o3 & serr & post & Hs & -> & _).
        apply in_app_or in Hcreate as [H|H]; [exact H|].
        destruct (Hstartpart _ _ _ _ _ Hs) as [Hno _]. destruct (Hno H). }
  destruct (createContainer_success _ _ _ _ _ _ _ _ _ _ _ _ _ _
              Hc Hcreated) as [-> ->].
  cbn [errWhen] in Hshape.
  destruct (String.eqb_spec newID "") as [|_]; [contradiction|].
  destruct Hshape as [-> ->].
  destruct Hcases as (o3 & serr & post & Hs & -> & ->).
  destruct (Hstartpart _ _ _ _ _ Hs) as [_ Hyes].
  apply in_app_or in Hstarted as [H|H]; [not_among Hcevs H|].
  destruct (Hyes H) as [-> ->]. split; [reflexivity|].
  destruct (startContainer_runs rt newID true s4')
    as (o3' & s6 & serr' & post' & Hs' & Hcase).
  rewrite Hs in Hs'. injection Hs' as <- <- <- <-.
  destruct Hcase as (rerr & -> & ->). destruct Hout as [-> ->].
  exists (flex :: t1 ++ EvFindContainer containerSpec false "" ferr0 :: cevs),
    rerr.
  split; [list_norm; reflexivity|reflexivity].
Qed.

(** X14.  [ContainerStart] never returns an identifier together with an
    error: an error comes with the empty identifier.  And it returns an
    identifier without error only for a container that it has just started:
    the last call of the run is then the start call on that identifier,
    and it succeeded. *)
Theorem ContainerStart_result containerSpec volumes networkKind credentials
  idsMap (s s' : process W) id err evs :
  ContainerStart rt containerSpec volumes networkKind credentials idsMap s
    = (Done (id, err), s', evs) ->
  (err <> None -> id = "")
  /\ (err = None -> exists pre, evs = pre ++ [EvStart id None]).
Proof.
  intros Hrun.
  destruct (ContainerStart_around _ _ _ _ _ _ _ _ _ Hrun)
    as [(binds & e & -> & Hout)|(binds & s1 & o & s2 & t2 & Hrec & Hout)].
  { injection Hout as -> ->. split; [reflexivity|discriminate]. }
  cbv zeta in Hout.
  destruct o as [[started [id' err']]|msg]; [|destruct Hout; discriminate].
  pose proof (reconcile_started rt _ _ _ _ _ _ _ _ _ _ _ _ _ Hrec) as Hst.
  destruct started.
  - destruct Hout as [[= <- <-] ->]. cbn beta iota in Hst. subst err.
    split; [intros H; destruct (H eq_refl)|]. intros _.
    destruct (reconcile_runs containerSpec volumes networkKind credentials
                idsMap
                (containerName rt containerSpec
                   (Split (v3.Uuid containerSpec) "-")) binds s1)
      as (o' & s2' & t1 & rest & Hrec' & Ht1 & Hcases).
    rewrite Hrec' in Hrec. injection Hrec as -> -> <-.
    destruct Hcases as [[_ [(cause & [=])|(p & root & e & [=] & _)]]
                       |(cid0 & ferr0 & rest' & -> & Hcases)].
    destruct (errWhen ferr0 _) as [fe|]; [destruct Hcases as [_ [=]]|].
    destruct Hcases as (dspec & s3 & o2 & s4 & t3 & Hres & Hcases).
    destruct o2 as [e|[cid created]]; [destruct Hcases as [_ [=]]|].
    destruct Hcases as (o3 & serr & post & Hs & -> & [= <-]).
    destruct (startContainer_runs rt cid created s4)
      as (o3' & s5 & serr' & post' & Hs' & Hc).
    rewrite Hs in Hs'. injection Hs' as <- <- <- <-.
    destruct serr as [se|].
    + destruct created; [destruct Hc as (rerr & _ & [=])
                        |destruct Hc as [_ [=]]].
    + destruct Hc as [[= -> ] ->].
      exists (EvSetupFlex volumes (v3.DataVolumes containerSpec) binds None
                :: t1 ++ EvFindContainer containerSpec false cid0 ferr0
                :: t3).
      list_norm. reflexivity.
  - destruct Hout as [[= <- <-] ->]. destruct Hst as [-> Herr].
    split; [reflexivity|]. intros H. contradiction.
Qed.

(** X15.  [ContainerStart] panics only when the query of the docker root
    fails, during the translation: the message of the panic is the text of
    the error of the engine, and the failed query is the last call before
    the unwind of the managed volumes, which is made on the way out. *)
Theorem ContainerStart_panic containerSpec volumes networkKind credentials
  idsMap (s s' : process W) msg evs :
  ContainerStart rt containerSpec volumes networkKind credentials idsMap s
    = (Panic msg, s', evs) ->
  exists pre root e,
    evs = pre ++ [EvInfo root (Some e); EvUnmountFlex volumes]
    /\ msg = Error e.
Proof.
  intros Hrun.
  destruct (ContainerStart_around _ _ _ _ _ _ _ _ _ Hrun)
    as [(binds & e & _ & [=])|(binds & s1 & o & s2 & t2 & Hrec & Hout)].
  cbv zeta in Hout.
  destruct o as [[[|] r]|msg']; [destruct Hout as [[=] _]..|].
  destruct Hout as [[= <-] ->].
  destruct (reconcile_runs containerSpec volumes networkKind credentials
              idsMap
              (containerName rt containerSpec
                 (Split (v3.Uuid containerSpec) "-")) binds s1)
    as (o' & s2' & t1 & rest & Hrec' & Ht1 & Hcases).
  rewrite Hrec' in Hrec. injection Hrec as -> -> <-.
  destruct Hcases as [[-> [(cause & [=])|(p & root & e & [= ->] & ->)]]
                     |(cid0 & ferr0 & rest' & -> & Hcases)].
  - exists (EvSetupFlex volumes (v3.DataVolumes containerSpec) binds None
              :: p), root, e.
    split; [list_norm; reflexivity|reflexivity].
  - destruct (errWhen ferr0 _) as [fe|]; [destruct Hcases as [_ [=]]|].
    destruct Hcases as (dspec & s3 & o2 & s4 & t3 & Hres & Hcases).
    destruct o2 as [e|[cid created]]; [destruct Hcases as [_ [=]]|].
    destruct Hcases as (o3 & serr & post & _ & _ & [=]).
Qed.

(** X16.  [setupContainerSpec] makes no other calls than the query of the
    docker root and the calls that check and activate volumes: it never
    looks up, creates, starts or removes a container and never pulls an
    image.  When it returns an error, the specification it returns is the
    zero value and the error wraps its cause as a DNS, volume or networking
    failure; when it succeeds, the health check of the result is the one
    [setupHealthConfig] derives from the specification; and it panics only
    when the query of the docker root has failed, as its last call, with
    the text of that error. *)
Theorem setupContainerSpec_outcome containerSpec volumes networkKind
  rancherBindMounts idsMap (s : process W) :
  let run :=
    setupContainerSpec rt containerSpec volumes networkKind rancherBindMounts
      idsMap s in
  Forall (fun e => isTranslation e = true) run.2
  /\ match run.1.1 with
     | Done (spec, Some e) =>
         spec = {| config := zeroConfig; hostConfig := zeroHostConfig |}
         /\ exists cause,
              e = Wrap cause "failed to set up DNS search"
              \/ e = Wrap cause "failed to set up volumes"
              \/ e = Wrap cause "failed to set up networking"
     | Done (spec, None) =>
         container.Healthcheck (config spec)
         = container.Healthcheck (setupHealthConfig containerSpec zeroConfig)
     | Panic msg =>
         exists pre root e,
           run.2 = pre ++ [EvInfo root (Some e)] /\ msg = Error e
     end.
Proof.
  intros run. subst run.
  destruct (setupContainerSpec_runs containerSpec volumes networkKind
              rancherBindMounts idsMap s) as (o & s' & evs & -> & Hev & Ho).
  cbn [fst snd]. split; [exact Hev|exact Ho].
Qed.

(** X17.  The state query [IsContainerStarted] only reads: it makes one
    lookup, not forced, and at most one inspection, and nothing else.  It
    always returns, never reports a container as both running and
    restarting, and reports neither when it returns an error. *)
Theorem IsContainerStarted_read_only containerSpec (s : process W) :
  exists running restarting err s' evs,
    IsContainerStarted rt containerSpec s
      = (Done (running, restarting, err), s', evs)
    /\ (length evs <= 2)%nat
    /\ count isFind evs = 1%nat
    /\ Forall (fun e => isFind e || isInspect e = true) evs
    /\ (forall spec force id ferr,
          In (EvFindContainer spec force id ferr) evs -> force = false)
    /\ running && restarting = false
    /\ (err <> None -> running = false /\ restarting = false).
Proof.
  unfold IsContainerStarted, FindContainer, bind, call.
  destruct (r_FindContainer rt containerSpec false (world s))
    as [[cont ferr] w]. cbn [fst snd].
  destruct ferr as [e|].
  - destruct (r_IsContainerNotFoundError rt e); unfold ret;
      do 5 eexists; (split; [reflexivity|]); cbn;
      (split; [lia|]); (split; [reflexivity|]);
      (split; [repeat constructor|]);
      (split; [intros sp f i fe [[= _ <- _ _]|[]]; reflexivity|]); auto.
  - unfold isRunning.
    destruct (String.eqb cont "").
    + unfold ret. do 5 eexists. split; [reflexivity|]. cbn.
      split; [lia|]. split; [reflexivity|]. split; [repeat constructor|].
      split; [intros sp f i fe [[= _ <- _ _]|[]]; reflexivity|]. auto.
    + unfold ContainerInspect, bind, call, ret.
      cbn [world dockerRootOnce dockerRoot].
      destruct (r_ContainerInspect rt cont w) as [[st [e|]] w2];
        cbn [fst snd];
        [destruct (IsErrContainerNotFound (Some e))|];
        do 5 eexists; (split; [reflexivity|]); cbn;
        (split; [lia|]); (split; [reflexivity|]);
        (split; [repeat constructor|]);
        (split; [intros sp f i fe [[= _ <- _ _]|[H|[]]];
                 [reflexivity|discriminate H]|]);
        try (split; [reflexivity|auto]).
      split; [|intros H; destruct (H eq_refl)].
      destruct (types.Running st), (types.Restarting st); reflexivity.
Qed.

(** X18.  The name-in-use race is recognised by the text of the error of
    [createContainer], whichever call produced it.  So when the pull asked
    for by the pull-image label fails with an error whose text contains the
    name-in-use message, [ContainerStart] does not return that error: no
    create call is made at all, and the call that follows the failed pull
    is the forced lookup of the container. *)
Theorem ContainerStart_pull_error_taken_for_race containerSpec volumes
  networkKind credentials idsMap (s s' : process W) out evs params credential
  e :
  ContainerStart rt containerSpec volumes networkKind credentials idsMap s
    = (out, s', evs) ->
  In (EvDoInstancePull params credential (Some e)) evs ->
  Contains (Error e) nameInuseError = true ->
  count isCreate evs = 0%nat
  /\ exists pre cid ferr post,
       evs = pre ++ EvDoInstancePull params credential (Some e)
                 :: EvFindContainer containerSpec true cid ferr :: post.
Proof.
  intros Hrun Hpull Hname.
  destruct (ContainerStart_around _ _ _ _ _ _ _ _ _ Hrun)
    as [(binds & e0 & -> & _)|(binds & s1 & o & s2 & t2 & Hrec & Hout)].
  { destruct Hpull as [H|[]]. discriminate H. }
  cbv zeta in Hout.
  set (flex := EvSetupFlex volumes (v3.DataVolumes containerSpec) binds None)
    in *.
  (* it is enough to look at lines 64 to 114 *)
  assert (Hlift : forall pre cid ferr post,
    t2 = pre ++ EvDoInstancePull params credential (Some e)
             :: EvFindContainer containerSpec true cid ferr :: post ->
    count isCreate t2 = 0%nat ->
    count isCreate evs = 0%nat
    /\ exists pre cid ferr post,
         evs = pre ++ EvDoInstancePull params credential (Some e)
                   :: EvFindContainer containerSpec true cid ferr :: post).
  { intros pre cid ferr post Ht2 Hcount.
    destruct o as [[[|] r]|msg]; destruct Hout as [_ ->]; split;
      try (repeat (rewrite count_app || rewrite count_cons);
           rewrite Hcount; reflexivity);
      rewrite Ht2.
    - exists (flex :: pre), cid, ferr, post. reflexivity.
    - exists (flex :: pre), cid, ferr, (post ++ [EvUnmountFlex volumes]).
      list_norm. reflexivity.
    - exists (flex :: pre), cid, ferr, (post ++ [EvUnmountFlex volumes]).
      list_norm. reflexivity. }
  assert (Hpull2 : In (EvDoInstancePull params credential (Some e)) t2).
  { destruct o as [[[|] r]|msg]; destruct Hout as [_ ->];
      (destruct Hpull as [H|Hpull]; [discriminate H|]); [exact Hpull| |];
      (apply in_app_or in Hpull as [Hpull|[H|[]]];
       [exact Hpull|discriminate H]). }
  clear Hpull Hout.
  destruct (reconcile_runs containerSpec volumes networkKind credentials
              idsMap
              (containerName rt containerSpec
                 (Split (v3.Uuid containerSpec) "-")) binds s1)
    as (o' & s2' & t1 & rest & Hrec' & Ht1 & Hcases).
  rewrite Hrec' in Hrec. injection Hrec as -> -> <-.
  apply in_app_or in Hpull2 as [Hpull|Hpull]; [not_among Ht1 Hpull|].
  destruct Hcases as [[-> _]|(cid0 & ferr0 & rest' & -> & Hcases)];
    [destruct Hpull|].
  destruct Hpull as [Hpull|Hpull]; [discriminate Hpull|].
  destruct (errWhen ferr0 _) as [fe|].
  { destruct Hcases as [-> _]. destruct Hpull. }
  destruct Hcases as (dspec & s3 & o2 & s4 & t3 & Hres & Hcases).
  destruct (resolveContainer_runs rt containerSpec credentials dspec
              (containerName rt containerSpec
                 (Split (v3.Uuid containerSpec) "-")) cid0 s3)
    as (o2' & s4' & t3' & Hres' & Hshape).
  rewrite Hres' in Hres. injection Hres as <- <- <-.
  assert (Hstartpart : forall cid created o3 serr post,
    startContainer rt cid created s4' = (Done o3, s2, EvStart cid serr :: post) ->
    ~ In (EvDoInstancePull params credential (Some e))
         (EvStart cid serr :: post)
    /\ count isCreate (EvStart cid serr :: post) = 0%nat).
  { intros cid created o3 serr post Hs.
    destruct (startContainer_runs rt cid created s4')
      as (o3' & s5 & serr' & post' & Hs' & Hc).
    rewrite Hs in Hs'. injection Hs' as <- <- <- <-.
    assert (Hpost : post = [] \/ exists rerr, post = [EvRemove cid rerr]).
    { destruct serr as [se0|]; [destruct created|].
      - destruct Hc as (rerr & -> & _). eauto.
      - destruct Hc as [-> _]. auto.
      - destruct Hc as [_ ->]. auto. }
    destruct Hpost as [->|(rerr & ->)]; (split; [|reflexivity]).
    - intros [H|[]]. discriminate H.
    - intros [H|[H|[]]]; discriminate H. }
  destruct Hshape as [(_ & -> & ->)
                     |(-> & s5 & newID & cerr & cevs & Hc & Hshape)].
  { destruct Hcases as (o3 & serr & post & Hs & -> & _).
    destruct (Hstartpart _ _ _ _ _ Hs) as [Hno _]. destruct (Hno Hpull). }
  (* the failed pull is the only call of createContainer *)
  assert (Hcevs : In (EvDoInstancePull params credential (Some e)) cevs).
  { destruct (errWhen cerr _) as [e0|].
    - destruct Hshape as [-> ->]. destruct Hcases as [-> _]. exact Hpull.
    - destruct (String.eqb newID "").
      + destruct Hshape as (cid & ferr & -> & ->).
        assert (Hin : In (EvDoInstancePull params credential (Some e))
                        (cevs ++ [EvFindContainer containerSpec true cid ferr])
                      -> In (EvDoInstancePull params credential (Some e))
                           cevs).
        { intros H. apply in_app_or in H as [H|[H|[]]];
            [exact H|discriminate H]. }
        destruct (errWhen ferr _).
        * destruct Hcases as [-> _]. auto.
        * destruct Hcases as (o3 & serr & post & Hs & -> & _).
          apply in_app_or in Hpull as [H|H]; [auto|].
          destruct (Hstartpart _ _ _ _ _ Hs) as [Hno _]. destruct (Hno H).
      + destruct Hshape as [-> ->].
        destruct Hcases as (o3 & serr & post & Hs & -> & _).
        apply in_app_or in Hpull as [H|H]; [exact H|].
        destruct (Hstartpart _ _ _ _ _ Hs) as [Hno _]. destruct (Hno H). }
  assert (Hcreate : cevs = [EvDoInstancePull params credential (Some e)]
                    /\ newID = ""
                    /\ cerr = Some (Wrap e "failed to pull instance")).
  { destruct (createContainer_runs rt (config dspec) (hostConfig dspec)
                containerSpec
                (selectCredential credentials
                   (v3.RegistryCredentialId containerSpec))
                (containerName rt containerSpec
                   (Split (v3.Uuid containerSpec) "-")) s3)
      as (s6 & out6 & evs6 & Hrun6 & Hcases6).
    rewrite Hc in Hrun6. injection Hrun6 as <- <- <-.
    destruct Hcases6 as [(_ & e0 & -> & Hout6)|(s7 & post & -> & Hpost)].
    - destruct Hcevs as [H|[]]. injection H as <- <- <-.
      injection Hout6 as -> ->. auto.
    - exfalso. apply in_app_or in Hcevs as [H|H].
      + destruct (String.eqb _ "always"); [|destruct H].
        destruct H as [H|[]]. discriminate H.
      + destruct Hpost as [(_ & -> & _)|(_ & Hretry)]; [destruct H|].
        destruct (createWithRetry_runs rt
                    (setImage (config dspec) (v3.Image containerSpec))
                    (hostConfig dspec) containerSpec
                    (selectCredential credentials
                       (v3.RegistryCredentialId containerSpec))
                    (containerName rt containerSpec
                       (Split (v3.Uuid containerSpec) "-")) s7)
          as (s8 & out8 & evs8 & Hrun8 & Hcases8).
        rewrite Hretry in Hrun8. injection Hrun8 as <- <- <-.
        destruct Hcases8 as [(id1 & err1 & _ & -> & _)
                            |[(id1 & err1 & e1 & _ & -> & _)
                             |(id1 & err1 & id2 & err2 & _ & -> & _)]];
          repeat (destruct H as [H|H]; [discriminate H|]); destruct H. }
  destruct Hcreate as (-> & -> & ->).
  cbn [errWhen] in Hshape. rewrite (Contains_Wrap _ _ _ Hname) in Hshape.
  cbn [negb] in Hshape. rewrite String.eqb_refl in Hshape.
  destruct Hshape as (cid & ferr & -> & ->).
  assert (Hcount : count isCreate t1 = 0%nat).
  { apply (count_emits isTranslation); [exact Ht1|].
    intros []; (reflexivity || discriminate). }
  destruct (errWhen ferr _) as [fe|].
  - destruct Hcases as [-> _].
    apply (Hlift (t1 ++ [EvFindContainer containerSpec false "" ferr0])
             cid ferr []).
    + list_norm. reflexivity.
    + repeat (rewrite count_app || rewrite count_cons). rewrite Hcount.
      reflexivity.
  - destruct Hcases as (o3 & serr & post & Hs & -> & _).
    destruct (Hstartpart _ _ _ _ _ Hs) as [_ Hzero].
    apply (Hlift (t1 ++ [EvFindContainer containerSpec false "" ferr0])
             cid ferr (EvStart cid serr :: post)).
    + list_norm. reflexivity.
    + repeat (rewrite count_app || rewrite count_cons). rewrite Hcount.
      rewrite count_cons in Hzero. cbn in *. lia.
Qed.

End Reconciliation.

(** ** Plain data-volume declarations *)

Section Declarations.
Context {W : Type} (rt : Runtime W).

Lemma no_separator_cut sep s :
  Contains s (String sep "") = false -> cut sep s = None.
Proof.
  induction s as [|c s IH]; cbn [cut Contains String.prefix]; [reflexivity|].
  destruct (ascii_dec sep c) as [<-|Hne].
  - destruct s; discriminate.
  - cbn [orb]. intros H. rewrite (IH H).
    destruct (Ascii.eqb_spec c sep) as [->|_]; [contradiction|reflexivity].
Qed.

Lemma cut_append sep a b :
  cut sep a = None -> cut sep (a +:+ String sep b) = Some (a, b).
Proof.
  induction a as [|c a IH]; cbn [cut].
  - intros _. change ("" +:+ String sep b) with (String sep b).
    cbn [cut]. rewrite Ascii.eqb_refl. reflexivity.
  - change (String c a +:+ String sep b) with (String c (a +:+ String sep b)).
    cbn [cut]. destruct (Ascii.eqb c sep); [discriminate|].
    destruct (cut sep a) as [[x y]|]; [discriminate|].
    intros _. rewrite (IH eq_refl). reflexivity.
Qed.

(** One turn of the loop on a declaration whose source is not the name of
    a managed volume and which is not the root pair: no call is made. *)
Lemma dataVolumeStep_plain_step (managed : gset string) (volumesMap : gset string)
  (binds : list string) (src dst mode : string) (s : process W) :
  Contains src ":" = false ->
  src ∉ managed ->
  dataVolumeStep rt managed (volumesMap, binds) src s
    = (Done ({[src]} ∪ volumesMap, binds), s, [])
  /\ (Contains dst ":" = false ->
      String.eqb src varLibDocker && String.eqb dst varLibDocker = false ->
      dataVolumeStep rt managed (volumesMap, binds) (src +:+ ":" +:+ dst) s
        = (Done ({[dst]} ∪ volumesMap,
                 binds ++ [src +:+ ":" +:+ dst +:+ ":" +:+ "rw"]), s, [])
      /\ dataVolumeStep rt managed (volumesMap, binds)
           (src +:+ ":" +:+ dst +:+ ":" +:+ mode) s
         = (Done ({[dst]} ∪ volumesMap,
                  binds ++ [src +:+ ":" +:+ dst +:+ ":" +:+ mode]), s, [])).
Proof.
  intros Hsrc Hplain. apply no_separator_cut in Hsrc.
  split; [|intros Hdst Hpair; apply no_separator_cut in Hdst; split].
  - unfold dataVolumeStep. cbv zeta. cbn [SplitN]. rewrite Hsrc.
    destruct (decide (src ∈ managed)); [contradiction|reflexivity].
  - unfold dataVolumeStep. cbv zeta.
    assert (Hparts : SplitN (src +:+ ":" +:+ dst) ":" 3 = [src; dst]).
    { cbn [SplitN]. change (":" +:+ dst) with (String ":" dst).
      rewrite (cut_append _ _ _ Hsrc), Hdst. reflexivity. }
    rewrite Hparts.
    destruct (decide (src ∈ managed)); [contradiction|].
    rewrite Hpair. reflexivity.
  - unfold dataVolumeStep. cbv zeta.
    assert (Hparts : SplitN (src +:+ ":" +:+ dst +:+ ":" +:+ mode) ":" 3
                     = [src; dst; mode]).
    { cbn [SplitN].
      change (":" +:+ dst +:+ ":" +:+ mode)
        with (String ":" (dst +:+ String ":" mode)).
      rewrite (cut_append _ _ _ Hsrc), (cut_append _ _ _ Hdst).
      reflexivity. }
    rewrite Hparts.
    destruct (decide (src ∈ managed)); [contradiction|].
    rewrite Hpair. reflexivity.
Qed.

(** The loop only adds volumes and only appends binds. *)
Lemma dataVolumeStep_grows managed vm bs volume (s s' : process W) vm' bs'
  evs :
  dataVolumeStep rt managed (vm, bs) volume s = (Done (vm', bs'), s', evs) ->
  vm ⊆ vm' /\ exists more, bs' = bs ++ more.
Proof.
  unfold dataVolumeStep. cbv zeta.
  destruct (SplitN volume ":" 3) as [|p0 [|p1 rest]];
    [unfold panic; discriminate| |];
    (destruct (decide (p0 ∈ managed));
     [unfold ret; intros H; inversion H; subst;
      split; [reflexivity|exists []; rewrite app_nil_r; reflexivity]|]).
  - unfold ret. intros H. inversion H; subst.
    split; [set_solver|exists []; rewrite app_nil_r; reflexivity].
  - destruct (String.eqb p0 varLibDocker && String.eqb p1 varLibDocker).
    + unfold bind.
      destruct (getDockerRoot rt s) as [[[root|msg] s1] t1]; [|discriminate].
      destruct (negb (String.eqb root varLibDocker)); unfold ret;
        intros H; inversion H; subst;
        (split; [set_solver|eexists; reflexivity]).
    + unfold ret. intros H. inversion H; subst.
      split; [set_solver|eexists; reflexivity].
Qed.

Lemma dataVolumes_grow managed l :
  forall vm bs (s s' : process W) vm' bs' evs,
    foldM (dataVolumeStep rt managed) l (vm, bs) s
      = (Done (vm', bs'), s', evs) ->
    vm ⊆ vm' /\ exists more, bs' = bs ++ more.
Proof.
  induction l as [|v l IH]; intros vm bs s s' vm' bs' evs Hrun;
    cbn [foldM] in Hrun.
  - unfold ret in Hrun. inversion Hrun; subst.
    split; [reflexivity|exists []; rewrite app_nil_r; reflexivity].
  - unfold bind at 1 in Hrun.
    destruct (dataVolumeStep rt managed (vm, bs) v s)
      as [[[[vm1 bs1]|msg] s1] t1] eqn:Hv; [|discriminate].
    destruct (foldM (dataVolumeStep rt managed) l (vm1, bs1) s1)
      as [[o s2] t2] eqn:Hrest.
    inversion Hrun; subst.
    destruct (dataVolumeStep_grows _ _ _ _ _ _ _ _ _ Hv) as [H1 [m1 ->]].
    destruct (IH _ _ _ _ _ _ _ Hrest) as [H2 [m2 ->]].
    split; [etrans; eassumption|].
    exists (m1 ++ m2). rewrite app_assoc. reflexivity.
Qed.

(** What one declaration adds is there when the loop is over. *)
Lemma dataVolumes_member managed volume target (added : list string) :
  (forall vm bs (s : process W),
     dataVolumeStep rt managed (vm, bs) volume s
     = (Done ({[target]} ∪ vm, bs ++ added), s, [])) ->
  forall l vm bs (s s' : process W) vm' bs' evs,
    In volume l ->
    foldM (dataVolumeStep rt managed) l (vm, bs) s
      = (Done (vm', bs'), s', evs) ->
    target ∈ vm' /\ forall b, In b added -> In b bs'.
Proof.
  intros Hstep.
  induction l as [|v l IH]; intros vm bs s s' vm' bs' evs Hin Hrun;
    [destruct Hin|].
  cbn [foldM] in Hrun. unfold bind at 1 in Hrun.
  destruct (dataVolumeStep rt managed (vm, bs) v s)
    as [[[[vm1 bs1]|msg] s1] t1] eqn:Hv; [|discriminate].
  destruct (foldM (dataVolumeStep rt managed) l (vm1, bs1) s1)
    as [[o s2] t2] eqn:Hrest.
  inversion Hrun; subst.
  destruct Hin as [->|Hin].
  - rewrite Hstep in Hv. inversion Hv; subst.
    destruct (dataVolumes_grow _ _ _ _ _ _ _ _ _ Hrest) as [Hsub [more ->]].
    split; [apply Hsub, elem_of_union_l, elem_of_singleton; reflexivity|].
    intros b Hb.
    apply in_or_app. left. apply in_or_app. right. exact Hb.
  - eapply IH; eassumption.
Qed.

Lemma activateVolumes_no_query volumes :
  emits (fun e => negb (isInfo e)) (activateVolumes rt volumes).
Proof.
  induction volumes as [|volume volumes IH]; cbn [activateVolumes].
  - apply emits_ret.
  - unfold IsVolumeActive, DoVolumeActivate.
    destruct (negb (r_IsRancherVolume rt volume)); [|exact IH].
    apply emits_bind; [apply emits_call; reflexivity|].
    intros [ok err]. destruct (negb ok && isNil err).
    + apply emits_bind; [apply emits_call; reflexivity|].
      intros [e|]; [apply emits_ret|exact IH].
    + destruct err; [apply emits_ret|exact IH].
Qed.

(** What [setupNonRancherVolumes] returns for a declaration that makes no
    call: the declaration anywhere in the list, and the declaration
    alone. *)
Lemma setupNonRancherVolumes_declared config volumes containerSpec hostConfig
  idsMap (s s' : process W) config' hostConfig' err evs volume target added :
  (forall vm bs (s : process W),
     dataVolumeStep rt (rancherManagedVolumeNames rt volumes) (vm, bs) volume
       s
     = (Done ({[target]} ∪ vm, bs ++ added), s, [])) ->
  setupNonRancherVolumes rt config volumes containerSpec hostConfig idsMap s
    = (Done (config', hostConfig', err), s', evs) ->
  (In volume (v3.DataVolumes containerSpec) ->
   target ∈ container.Volumes config'
   /\ forall b, In b added -> In b (container.Binds hostConfig'))
  /\ (v3.DataVolumes containerSpec = [volume] ->
      container.Volumes config' = {[target]}
      /\ container.Binds hostConfig' = container.Binds hostConfig ++ added
      /\ count isInfo evs = 0%nat).
Proof.
  intros Hstep. rewrite setupNonRancherVolumes_runs.
  destruct (foldM _ (v3.DataVolumes containerSpec) (∅, []) s)
    as [[[[volumesMap binds]|msg] s1] t1] eqn:Hloop; [|discriminate].
  pose proof (activateVolumes_no_query volumes s1) as Hact.
  destruct (activateVolumes rt volumes s1) as [[[err0|msg] s2] t2];
    [|discriminate].
  cbn [snd] in Hact. cbv zeta. intros H. inversion H; subst. clear H.
  assert (Hbinds : forall h : container.HostConfig,
    container.Binds
      match resolved (v3.DataVolumesFrom containerSpec) idsMap with
      | [] => h
      | _ :: _ =>
          setVolumesFrom h (resolved (v3.DataVolumesFrom containerSpec) idsMap)
      end = container.Binds h).
  { intros h.
    destruct (resolved (v3.DataVolumesFrom containerSpec) idsMap);
      reflexivity. }
  rewrite Hbinds. cbn [container.Volumes setVolumes container.Binds setBinds].
  split.
  - intros Hin.
    destruct (dataVolumes_member _ _ _ _ Hstep _ _ _ _ _ _ _ _ Hin Hloop)
      as [Ht Hb].
    split; [exact Ht|]. intros b Hin'. apply in_or_app. right. auto.
  - intros Hdv. rewrite Hdv in Hloop. cbn [foldM] in Hloop.
    unfold bind, ret in Hloop. rewrite Hstep in Hloop.
    inversion Hloop; subst. cbn [app].
    split; [apply union_empty_r_L|]. split; [reflexivity|].
    apply (count_emits (fun e => negb (isInfo e))); [exact Hact|].
    intros e He. destruct (isInfo e); [discriminate He|reflexivity].
Qed.

(** X19.  A data-volume declaration whose source is not the name of a
    managed volume, and which is not the root pair, reaches the
    configuration that [setupNonRancherVolumes] returns: a bare path,
    without colon, is a volume of the configuration; for [src:dst] the
    target [dst] is a volume of the configuration and [src:dst:rw] is a
    bind of the host configuration; for [src:dst:mode] the target [dst] is
    a volume and [src:dst:mode] a bind, the mode being everything after the
    second colon.  With such a declaration alone, that volume is the only
    volume of the configuration, that bind (none for a bare path) is the
    only one appended to the binds that the host configuration had, and the
    docker root is not asked for. *)
Theorem setupNonRancherVolumes_plain config volumes containerSpec hostConfig
  idsMap (s s' : process W) config' hostConfig' err evs (src dst mode : string) :
  setupNonRancherVolumes rt config volumes containerSpec hostConfig idsMap s
    = (Done (config', hostConfig', err), s', evs) ->
  Contains src ":" = false ->
  src ∉ rancherManagedVolumeNames rt volumes ->
  let declarations := v3.DataVolumes containerSpec in
  let short := src +:+ ":" +:+ dst in
  let long := src +:+ ":" +:+ dst +:+ ":" +:+ mode in
  (In src declarations -> src ∈ container.Volumes config')
  /\ (declarations = [src] ->
      container.Volumes config' = {[src]}
      /\ container.Binds hostConfig' = container.Binds hostConfig
      /\ count isInfo evs = 0%nat)
  /\ (Contains dst ":" = false ->
      String.eqb src varLibDocker && String.eqb dst varLibDocker = false ->
      (In short declarations ->
       dst ∈ container.Volumes config'
       /\ In (short +:+ ":" +:+ "rw") (container.Binds hostConfig'))
      /\ (declarations = [short] ->
          container.Volumes config' = {[dst]}
          /\ container.Binds hostConfig'
             = container.Binds hostConfig ++ [short +:+ ":" +:+ "rw"]
          /\ count isInfo evs = 0%nat)
      /\ (In long declarations ->
          dst ∈ container.Volumes config'
          /\ In long (container.Binds hostConfig'))
      /\ (declarations = [long] ->
          container.Volumes config' = {[dst]}
          /\ container.Binds hostConfig' = container.Binds hostConfig ++ [long]
          /\ count isInfo evs = 0%nat)).
Proof.
  intros Hrun Hsrc Hplain declarations short long.
  subst declarations short long.
  assert (Hshort : forall x y z : string,
            (x +:+ ":" +:+ y) +:+ ":" +:+ z = x +:+ ":" +:+ y +:+ ":" +:+ z).
  { intros x y z. induction x as [|c x IH]; [reflexivity|].
    change (String c x +:+ ":" +:+ y) with (String c (x +:+ ":" +:+ y)).
    change (String c (x +:+ ":" +:+ y) +:+ ":" +:+ z)
      with (String c ((x +:+ ":" +:+ y) +:+ ":" +:+ z)).
    rewrite IH. reflexivity. }
  destruct (setupNonRancherVolumes_declared config volumes containerSpec
              hostConfig idsMap s s' config' hostConfig' err evs src src []
              ltac:(intros vm bs s0; rewrite app_nil_r;
                    apply (dataVolumeStep_plain_step _ vm bs src src src s0
                             Hsrc Hplain)) Hrun) as [Hin1 Halone1].
  split; [intros Hin; apply (Hin1 Hin)|].
  split.
  { intros Hdv. destruct (Halone1 Hdv) as (Hv & Hb & Hc).
    rewrite app_nil_r in Hb. auto. }
  intros Hdst Hpair.
  destruct (dataVolumeStep_plain_step
              (rancherManagedVolumeNames rt volumes) ∅ [] src dst mode s
              Hsrc Hplain) as [_ Hsteps].
  destruct (setupNonRancherVolumes_declared config volumes containerSpec
              hostConfig idsMap s s' config' hostConfig' err evs
              (src +:+ ":" +:+ dst) dst
              [src +:+ ":" +:+ dst +:+ ":" +:+ "rw"]
              ltac:(intros vm bs s0;
                    apply (dataVolumeStep_plain_step _ vm bs src dst mode s0
                             Hsrc Hplain); assumption) Hrun)
    as [Hin2 Halone2].
  destruct (setupNonRancherVolumes_declared config volumes containerSpec
              hostConfig idsMap s s' config' hostConfig' err evs
              (src +:+ ":" +:+ dst +:+ ":" +:+ mode) dst
              [src +:+ ":" +:+ dst +:+ ":" +:+ mode]
              ltac:(intros vm bs s0;
                    apply (dataVolumeStep_plain_step _ vm bs src dst mode s0
                             Hsrc Hplain); assumption) Hrun)
    as [Hin3 Halone3].
  rewrite Hshort.
  split; [|split; [exact Halone2|split; [|exact Halone3]]].
  - intros Hin. destruct (Hin2 Hin) as [Hv Hb].
    split; [exact Hv|]. apply Hb. left. reflexivity.
  - intros Hin. destruct (Hin3 Hin) as [Hv Hb].
    split; [exact Hv|]. apply Hb. left. reflexivity.
Qed.

End Declarations.

(** ** The name and the credential of the creation *)

(** Equality of credentials, field by field. *)
Definition credentialEqb (a b : v3.Credential) : bool :=
  String.eqb (v3.CredentialId a) (v3.CredentialId b)
  && String.eqb (v3.PublicValue a) (v3.PublicValue b)
  && String.eqb (v3.SecretValue a) (v3.SecretValue b).

(** An event that, if it is a create call, asks for the name [name] and, if
    it is a pull, carries the credential [credential]. *)
Definition createsAs (name : string) (credential : v3.Credential)
  (e : event) : bool :=
  match e with
  | EvCreate _ _ n _ _ => String.eqb n name
  | EvDoInstancePull _ c _ | EvImagePull _ c _ => credentialEqb c credential
  | _ => true
  end.

Section Naming.
Context {W : Type} (rt : Runtime W).

Lemma credentialEqb_refl a : credentialEqb a a = true.
Proof. unfold credentialEqb. rewrite !String.eqb_refl. reflexivity. Qed.

Lemma credentialEqb_eq a b : credentialEqb a b = true -> a = b.
Proof.
  destruct a as [a1 a2 a3], b as [b1 b2 b3]. unfold credentialEqb.
  cbn [v3.CredentialId v3.PublicValue v3.SecretValue]. intros H.
  apply andb_true_iff in H as [H H3]. apply andb_true_iff in H as [H1 H2].
  apply String.eqb_eq in H1, H2, H3. subst. reflexivity.
Qed.

Ltac creates_auto :=
  repeat first
    [ apply emits_ret
    | apply emits_call; intros; cbn [createsAs];
      first [reflexivity|apply String.eqb_refl|apply credentialEqb_refl]
    | apply emits_bind; [|intros]
    | match goal with
      | |- emits _ (match ?x with _ => _ end) => destruct x
      end ].

Lemma createContainer_createsAs config hostConfig containerSpec credential
  name :
  emits (createsAs name credential)
    (createContainer rt config hostConfig containerSpec credential name).
Proof.
  unfold createContainer, createWithRetry, DoInstancePull, ImagePull,
    dockerContainerCreate. cbv zeta.
  creates_auto.
Qed.

Lemma reconcile_createsAs containerSpec volumes networkKind credentials idsMap
  name rancherBindMounts :
  emits (createsAs name
           (selectCredential credentials
              (v3.RegistryCredentialId containerSpec)))
    (reconcile rt containerSpec volumes networkKind credentials idsMap name
       rancherBindMounts).
Proof.
  unfold reconcile, FindContainer.
  apply emits_bind.
  - eapply emits_weaken; [|apply emits_setupContainerSpec].
    intros [] H; (reflexivity || discriminate H).
  - intros [spec [e|]]; [apply emits_ret|].
    apply emits_bind; [apply emits_call; reflexivity|].
    intros [containerID err].
    destruct (errWhen err _); [apply emits_ret|].
    apply emits_bind.
    + unfold resolveContainer, FindContainer. cbv zeta.
      destruct (String.eqb containerID ""); [|apply emits_ret].
      apply emits_bind; [apply createContainer_createsAs|].
      intros. creates_auto.
    + intros [e|[cid created]]; [apply emits_ret|].
      unfold startContainer, Serialize, clientContainerStart,
        RemoveContainer.
      creates_auto.
Qed.

(** Every create call of [ContainerStart] asks for the name made of the
    parts of the uuid, and every pull carries the selected credential. *)
Lemma ContainerStart_createsAs containerSpec volumes networkKind credentials
  idsMap (s s' : process W) out evs :
  ContainerStart rt containerSpec volumes networkKind credentials idsMap s
    = (out, s', evs) ->
  Forall (fun e =>
            createsAs
              (containerName rt containerSpec
                 (Split (v3.Uuid containerSpec) "-"))
              (selectCredential credentials
                 (v3.RegistryCredentialId containerSpec)) e = true) evs.
Proof.
  intros Hrun.
  destruct (ContainerStart_around _ _ _ _ _ _ _ _ _ _ Hrun)
    as [(binds & e & -> & _)|(binds & s1 & o & s2 & t2 & Hrec & Hout)].
  { repeat constructor. }
  pose proof (reconcile_createsAs containerSpec volumes networkKind
                credentials idsMap
                (containerName rt containerSpec
                   (Split (v3.Uuid containerSpec) "-")) binds s1) as Hev.
  rewrite Hrec in Hev. cbn [snd] in Hev. cbv zeta in Hout.
  destruct o as [[[|] r]|msg]; destruct Hout as [_ ->];
    (constructor; [reflexivity|]); [exact Hev| |];
    (apply Forall_app; split; [exact Hev|repeat constructor]).
Qed.

(** X1.  Every create call that [ContainerStart] makes asks for a name that
    starts with [r-]: [r-<uuid>] when the name of the specification does
    not match the naming pattern, and [r-<name>-<prefix>] when it does,
    where the prefix is the text of the uuid before its first dash, or the
    whole uuid when it has no dash; the prefix never contains a dash. *)
Theorem ContainerStart_create_name containerSpec volumes networkKind
  credentials idsMap (s s' : process W) out evs c h n id err :
  ContainerStart rt containerSpec volumes networkKind credentials idsMap s
    = (out, s', evs) ->
  In (EvCreate c h n id err) evs ->
  let uuid := v3.Uuid containerSpec in
  let first := match cut "-" uuid with
               | Some (a, _) => a
               | None => uuid
               end in
  n = (if String.eqb (r_NameRegexFindString rt (v3.Name containerSpec)) ""
       then "r-" +:+ uuid
       else "r-" +:+ v3.Name containerSpec +:+ "-" +:+ first)
  /\ String.prefix "r-" n = true
  /\ String.prefix first uuid = true
  /\ Contains first "-" = false.
Proof.
  intros Hrun Hin uuid first.
  pose proof (ContainerStart_createsAs _ _ _ _ _ _ _ _ _ Hrun) as Hall.
  rewrite List.Forall_forall in Hall. specialize (Hall _ Hin).
  cbn [createsAs] in Hall. apply String.eqb_eq in Hall.
  destruct (containerName_cut rt containerSpec)
    as (Hpre & Hname & Hfirst & Hprefix & Hdash).
  fold uuid in Hall, Hpre, Hname, Hfirst, Hprefix, Hdash.
  rewrite Hfirst in Hname, Hprefix, Hdash. fold first in Hname, Hprefix, Hdash.
  rewrite <- Hall in Hname, Hpre. auto.
Qed.

(** X2.  Every pull that [ContainerStart] makes, the one asked for by the
    pull-image label and the one made when the image is missing, carries
    the first credential of the list whose id is the registry credential
    id of the specification, whatever follows it in the list; when no
    credential has that id, it carries the zero credential. *)
Theorem ContainerStart_pull_credential containerSpec volumes networkKind
  credentials idsMap (s s' : process W) out evs credential :
  ContainerStart rt containerSpec volumes networkKind credentials idsMap s
    = (out, s', evs) ->
  (exists params err, In (EvDoInstancePull params credential err) evs)
  \/ (exists image err, In (EvImagePull image credential err) evs) ->
  let id := v3.RegistryCredentialId containerSpec in
  ((forall cred, In cred credentials -> v3.CredentialId cred <> id) ->
   credential
   = {| v3.CredentialId := ""; v3.PublicValue := ""; v3.SecretValue := "" |})
  /\ (forall before cred after,
        credentials = before ++ cred :: after ->
        v3.CredentialId cred = id ->
        (forall c, In c before -> v3.CredentialId c <> id) ->
        credential = cred).
Proof.
  intros Hrun Hin id.
  pose proof (ContainerStart_createsAs _ _ _ _ _ _ _ _ _ Hrun) as Hall.
  rewrite List.Forall_forall in Hall.
  assert (Hsel : credential = selectCredential credentials id).
  { destruct Hin as [(params & err & Hin)|(image & err & Hin)];
      specialize (Hall _ Hin); cbn [createsAs] in Hall;
      apply credentialEqb_eq in Hall; exact Hall. }
  rewrite Hsel. apply selectCredential_spec.
Qed.

End Naming.

(** ** The further properties on the scripted engine *)

(** A specification with labels and a health check. *)
Definition labelledSpec (labels : gmap string string)
  (interval timeout retries : Z) : v3.Container :=
  {| v3.Id := "1i2";
     v3.Uuid := uuid1;
     v3.Name := "web";
     v3.ExternalId := "";
     v3.Image := "docker:busybox";
     v3.RegistryCredentialId := "";
     v3.Labels := labels;
     v3.DataVolumes := [];
     v3.DataVolumesFrom := [];
     v3.PublicEndpoints := [];
     v3.Hostname := "";
     v3.DomainName := "";
     v3.Privileged := false;
     v3.ReadOnly := false;
     v3.Command := [];
     v3.EntryPoint := [];
     v3.Environment := [];
     v3.WorkingDir := "";
     v3.User := "";
     v3.Tty := false;
     v3.StdinOpen := false;
     v3.StopSignal := "";
     v3.StopTimeout := 0;
     v3.HealthCmd := ["CMD"; "true"];
     v3.HealthInterval := interval;
     v3.HealthRetries := retries;
     v3.HealthTimeout := timeout |}.

(** The scripted engine [happy] with other answers to the lookup, to the
    pull asked for by the label, to the start call and to the query of the
    docker root. *)
Definition scriptOf (found : string * option error)
  (pull start : option error) (info : string * option error) : Script :=
  {| s_findCached := found;
     s_findForced := found;
     s_creates := s_creates happy;
     s_doInstancePull := pull;
     s_imagePull := None;
     s_start := start;
     s_remove := None;
     s_inspect := s_inspect happy;
     s_info := info;
     s_flex := s_flex happy;
     s_volumeActive := (false, None);
     s_activate := None |}.

Definition notFound : string * option error :=
  ("", Some (EngineError ContainerNotFound "not found")).

Definition refused : error := EngineError OtherKind "connection refused".

Lemma setupLabels_uuid_wins_witness :
  let config :=
    setLabels zeroConfig
      {[ "io.rancher.container.uuid" := "forged"; "tier" := "front" ]} in
  container.Labels (setupLabels scripted webSpec config) !! "tier"
  = Some "front".
Proof.
  intros config.
  destruct (setupLabels_uuid_wins scripted webSpec config "tier") as [_ H].
  rewrite H; [vm_compute; reflexivity|]. cbn. discriminate.
Defined.

Lemma setupPorts_exposed_iff_bound_witness :
  let containerSpec :=
    mkSpec uuid1 "web" "" [] []
      [ {| v3.BindIpAddress := ""; v3.PrivatePort := 8080;
           v3.Protocol := "tcp"; v3.PublicPort := 80 |} ] in
  "8080/tcp"
  ∈ container.ExposedPorts (setupPorts zeroConfig containerSpec
                              zeroHostConfig).1.
Proof.
  intros containerSpec.
  destruct (setupPorts_exposed_iff_bound zeroConfig containerSpec
              zeroHostConfig) as [_ H].
  apply H.
  - vm_compute. discriminate.
  - exists [ {| gonat.HostIP := ""; gonat.HostPort := "80" |} ].
    split; [vm_compute; reflexivity|discriminate].
Defined.


Lemma getHostEntries_lookup_witness :
  getHostEntries
    (fun k => if String.eqb k "http_proxy" then "http://proxy:3128" else "")
  !! "http_proxy"
  = Some "http://proxy:3128".
Proof.
  apply (getHostEntries_lookup
           (fun k => if String.eqb k "http_proxy" then "http://proxy:3128"
                     else "")
           "http_proxy" "http://proxy:3128").
  split; [left; reflexivity|]. split; [reflexivity|discriminate].
Defined.

Lemma resolveVolumesFrom_identifiers_witness :
  let idsMap : gmap string string := {[ "a" := "id-a" ]} in
  "id-a" <> ""
  /\ exists ref, In ref ["a"; "b"] /\ idsMap !! ref = Some "id-a".
Proof.
  intros idsMap.
  destruct (resolveVolumesFrom_identifiers ["a"; "b"] idsMap) as [H _].
  apply H. vm_compute. left. reflexivity.
Defined.

Lemma getDockerRoot_failure_not_retried_witness :
  exists s1,
    getDockerRoot scripted (fresh (scriptOf notFound None None
                                     ("", Some refused)))
    = (Panic "connection refused", s1, [EvInfo "" (Some refused)])
    /\ dockerRootOnce s1 = true
    /\ getDockerRoot scripted s1 = (Done "", s1, []).
Proof.
  apply (getDockerRoot_failure_not_retried scripted
           (fresh (scriptOf notFound None None ("", Some refused)))
           "" refused (scriptOf notFound None None ("", Some refused)));
    reflexivity.
Defined.


Lemma activateVolumes_calls_witness :
  let plain := {| v3.VolumeName := "logs"; v3.Driver := "local" |} in
  let managed := {| v3.VolumeName := "data"; v3.Driver := "rancher-flex" |} in
  In (EvIsVolumeActive plain false None)
     (activateVolumes scripted [managed; plain]
        (fresh (scriptOf notFound None None ("/var/lib/docker", None)))).2.
Proof.
  intros plain managed.
  destruct (activateVolumes_calls scripted [managed; plain]
              (fresh (scriptOf notFound None None ("/var/lib/docker", None))))
    as (_ & H & _).
  apply (H plain None). vm_compute. right. left. reflexivity.
Defined.

Lemma createContainer_result_witness :
  exists id err s' evs,
    createContainer scripted zeroConfig zeroHostConfig webSpec
      (selectCredential [] "") "r-web" (fresh happy)
    = (Done (id, err), s', evs)
    /\ (err <> None -> id = "")
    /\ (count isCreate evs <= 2)%nat.
Proof.
  destruct (createContainer_result scripted zeroConfig zeroHostConfig webSpec
              (selectCredential [] "") "r-web" (fresh happy))
    as (id & err & s' & evs & Hrun & Herr & _ & _ & Hcount & _).
  exists id, err, s', evs. auto.
Defined.

Lemma IsContainerStarted_read_only_witness :
  exists running restarting err s' evs,
    IsContainerStarted scripted webSpec (fresh happy)
    = (Done (running, restarting, err), s', evs)
    /\ running && restarting = false
    /\ (err <> None -> running = false /\ restarting = false).
Proof.
  destruct (IsContainerStarted_read_only scripted webSpec (fresh happy))
    as (running & restarting & err & s' & evs & Hrun & _ & _ & _ & _ & H1
        & H2).
  exists running, restarting, err, s', evs. auto.
Defined.

Lemma setupNonRancherVolumes_plain_witness :
  match (setupNonRancherVolumes scripted zeroConfig []
           (mkSpec uuid1 "web" "" ["/data"; "/host/logs:/logs:ro"] [] [])
           zeroHostConfig ∅ (fresh happy)).1.1 with
  | Done (config', hostConfig', _) =>
      "/logs" ∈ container.Volumes config'
      /\ In "/host/logs:/logs:ro" (container.Binds hostConfig')
  | Panic _ => False
  end.
Proof.
  destruct (setupNonRancherVolumes scripted zeroConfig []
              (mkSpec uuid1 "web" "" ["/data"; "/host/logs:/logs:ro"] [] [])
              zeroHostConfig ∅ (fresh happy))
    as [[[[[config' hostConfig'] err]|msg] s'] evs] eqn:Hrun; cbn [fst].
  - destruct (setupNonRancherVolumes_plain scripted zeroConfig []
                (mkSpec uuid1 "web" "" ["/data"; "/host/logs:/logs:ro"] [] [])
                zeroHostConfig ∅ (fresh happy) s' config' hostConfig' err evs
                "/host/logs" "/logs" "ro" Hrun)
      as (_ & _ & H); [reflexivity|apply not_elem_of_empty|].
    destruct H as (_ & _ & H & _); [reflexivity|reflexivity|].
    apply H. right. left. reflexivity.
  - vm_compute in Hrun. discriminate Hrun.
Defined.

(** A container found at the first lookup is started and returned. *)
Lemma ContainerStart_adopts_existing_witness :
  let run := ContainerStart scripted webSpec [] "" [] ∅
               (fresh (scriptOf ("c0", None) None None (s_info happy))) in
  count isCreation run.2 = 0%nat
  /\ count isRemove run.2 = 0%nat
  /\ exists pre serr post,
       run.2 = pre ++ EvFindContainer webSpec false "c0" None
                   :: EvStart "c0" serr :: post
       /\ match serr with
          | None => run.1.1 = Done ("c0", None) /\ post = []
          | Some se =>
              run.1.1 = Done ("", Some (Wrap se "failed to start container"))
              /\ post = [EvUnmountFlex []]
          end.
Proof.
  intros run.
  apply (ContainerStart_adopts_existing scripted webSpec [] "" [] ∅
           (fresh (scriptOf ("c0", None) None None (s_info happy)))
           run.1.2 run.1.1 run.2 webSpec false "c0" None).
  - vm_compute. reflexivity.
  - vm_compute. reflexivity.
  - discriminate.
  - reflexivity.
Defined.

(** The container created by the call is removed when it does not start. *)
Lemma ContainerStart_removes_created_witness :
  let run := ContainerStart scripted webSpec [] "" [] ∅
               (fresh (scriptOf notFound None (Some refused)
                         (s_info happy))) in
  exists pre rerr,
    run.2 = pre ++ [EvStart "c1" (Some refused); EvRemove "c1" rerr;
                    EvUnmountFlex []]
    /\ run.1.1
       = Done ("", Some match rerr with
                        | Some re =>
                            Wrap re
                              ("failed to remove container: failed to start: "
                               +:+ Error refused)
                        | None => Wrap refused "failed to start container"
                        end).
Proof.
  intros run.
  destruct (ContainerStart_removes_created scripted webSpec [] "" [] ∅
              (fresh (scriptOf notFound None (Some refused) (s_info happy)))
              run.1.2 run.1.1 run.2
              (setImage (config webEngineSpec) (v3.Image webSpec))
              (hostConfig webEngineSpec) ("r-" +:+ uuid1) "c1" "c1" refused)
    as [_ H].
  - vm_compute. reflexivity.
  - vm_compute. right. right. left. reflexivity.
  - discriminate.
  - vm_compute. right. right. right. left. reflexivity.
  - exact H.
Defined.

(** A started container: the start call is the last call. *)
Lemma ContainerStart_result_witness :
  let run := ContainerStart scripted webSpec [] "" [] ∅ (fresh happy) in
  exists pre, run.2 = pre ++ [EvStart "c1" None].
Proof.
  intros run.
  destruct (ContainerStart_result scripted webSpec [] "" [] ∅ (fresh happy)
              run.1.2 "c1" None run.2) as [_ H].
  - vm_compute. reflexivity.
  - apply H. reflexivity.
Defined.

(** The literal root bind on an engine that does not answer the query of
    its root. *)
Lemma ContainerStart_panic_witness :
  let run := ContainerStart scripted (mkSpec uuid1 "web" "" [rootBind] [] [])
               [] "" [] ∅
               (fresh (scriptOf notFound None None ("", Some refused))) in
  exists pre root e,
    run.2 = pre ++ [EvInfo root (Some e); EvUnmountFlex []]
    /\ "connection refused" = Error e.
Proof.
  intros run.
  apply (ContainerStart_panic scripted
           (mkSpec uuid1 "web" "" [rootBind] [] []) [] "" [] ∅
           (fresh (scriptOf notFound None None ("", Some refused)))
           run.1.2 "connection refused" run.2).
  vm_compute. reflexivity.
Defined.

(** A pull, asked for by the label, that fails with the text of the
    name-in-use error. *)
Lemma ContainerStart_pull_error_taken_for_race_witness :
  let containerSpec := labelledSpec {[PullImageLabels := "always"]} 0 0 0 in
  let run := ContainerStart scripted containerSpec [] "" [] ∅
               (fresh (scriptOf notFound (Some inUse) None (s_info happy))) in
  let params := {| Tag := ""; Mode := "all"; Complete := false;
                   ImageUUID := v3.Image containerSpec |} in
  count isCreate run.2 = 0%nat
  /\ exists pre cid ferr post,
       run.2 = pre ++ EvDoInstancePull params (selectCredential [] "")
                        (Some inUse)
                   :: EvFindContainer containerSpec true cid ferr :: post.
Proof.
  intros containerSpec run params.
  apply (ContainerStart_pull_error_taken_for_race scripted containerSpec []
           "" [] ∅
           (fresh (scriptOf notFound (Some inUse) None (s_info happy)))
           run.1.2 run.1.1 run.2 params (selectCredential [] "") inUse).
  - vm_compute. reflexivity.
  - vm_compute. right. right. left. reflexivity.
  - vm_compute. reflexivity.
Defined.

(** The name of the container created for [webSpec]. *)
Lemma ContainerStart_create_name_witness :
  let run := ContainerStart scripted webSpec [] "" [] ∅ (fresh happy) in
  exists c h id err,
    In (EvCreate c h "r-6ba7b810-9dad-11d1-80b4-00c04fd430c8" id err) run.2
    /\ String.prefix "r-" "r-6ba7b810-9dad-11d1-80b4-00c04fd430c8" = true.
Proof.
  intros run.
  exists (setImage (config webEngineSpec) (v3.Image webSpec)),
    (hostConfig webEngineSpec), "c1", None.
  assert (Hin : In (EvCreate
                      (setImage (config webEngineSpec) (v3.Image webSpec))
                      (hostConfig webEngineSpec)
                      "r-6ba7b810-9dad-11d1-80b4-00c04fd430c8" "c1" None)
                   run.2).
  { vm_compute. right. right. left. reflexivity. }
  split; [exact Hin|].
  apply (ContainerStart_create_name scripted webSpec [] "" [] ∅
           (fresh happy) run.1.2 run.1.1 run.2 _ _ _ _ _
           ltac:(vm_compute; reflexivity) Hin).
Defined.

(** A specification that names a registry credential and asks for a pull. *)
Definition registrySpec : v3.Container :=
  {| v3.Id := "1i3";
     v3.Uuid := uuid1;
     v3.Name := "web";
     v3.ExternalId := "";
     v3.Image := "docker:registry.local/busybox";
     v3.RegistryCredentialId := "1c2";
     v3.Labels := {[PullImageLabels := "always"]};
     v3.DataVolumes := [];
     v3.DataVolumesFrom := [];
     v3.PublicEndpoints := [];
     v3.Hostname := "";
     v3.DomainName := "";
     v3.Privileged := false;
     v3.ReadOnly := false;
     v3.Command := [];
     v3.EntryPoint := [];
     v3.Environment := [];
     v3.WorkingDir := "";
     v3.User := "";
     v3.Tty := false;
     v3.StdinOpen := false;
     v3.StopSignal := "";
     v3.StopTimeout := 0;
     v3.HealthCmd := [];
     v3.HealthInterval := 0;
     v3.HealthRetries := 0;
     v3.HealthTimeout := 0 |}.

Definition alice : v3.Credential :=
  {| v3.CredentialId := "1c1"; v3.PublicValue := "alice";
     v3.SecretValue := "a" |}.
Definition bob : v3.Credential :=
  {| v3.CredentialId := "1c2"; v3.PublicValue := "bob";
     v3.SecretValue := "b" |}.
Definition carol : v3.Credential :=
  {| v3.CredentialId := "1c2"; v3.PublicValue := "carol";
     v3.SecretValue := "c" |}.

(** Two credentials have the id that the specification names: the pull
    carries the first. *)
Lemma ContainerStart_pull_credential_witness :
  let run := ContainerStart scripted registrySpec [] "" [alice; bob; carol] ∅
               (fresh happy) in
  exists credential,
    (exists params err, In (EvDoInstancePull params credential err) run.2)
    /\ credential = bob.
Proof.
  intros run. exists (selectCredential [alice; bob; carol] "1c2").
  assert (Hin : exists params err,
             In (EvDoInstancePull params
                   (selectCredential [alice; bob; carol] "1c2") err) run.2).
  { exists {| Tag := ""; Mode := "all"; Complete := false;
              ImageUUID := v3.Image registrySpec |}, None.
    vm_compute. right. right. left. reflexivity. }
  split; [exact Hin|].
  destruct (ContainerStart_pull_credential scripted registrySpec [] ""
              [alice; bob; carol] ∅ (fresh happy) run.1.2 run.1.1 run.2
              (selectCredential [alice; bob; carol] "1c2")
              ltac:(vm_compute; reflexivity) (or_introl Hin)) as [_ H].
  apply (H [alice] bob [carol]); [reflexivity|reflexivity|].
  intros c [<-|[]]. cbn. discriminate.
Defined.
